(** * Polling application: storage schema, [DatabaseService] and winner selection

    The development embeds three layers of the repository:
    - the PostgreSQL schema of [scripts/005-fix-table-dependencies.sql]
      (tables [polls] and [votes], their constraints, the row-level security
      policies and the two aggregate functions);
    - the static methods of [DatabaseService] in [lib/database.ts], which talk
      to that schema through the Supabase client;
    - [getWinningOption] and the form validation of the page components.

    Conventions.  UUIDs are natural numbers; texts that are not UUIDs are
    outside the model.  A string is a sequence of one-byte characters, so SQL
    [length] and the number of characters agree.  [uuid_generate_v4()] is
    modelled as returning an identifier that no row uses yet.  SQL [NUMERIC]
    values are exact rationals: the quotient in [get_poll_statistics] is not
    rounded before [ROUND] is applied (PostgreSQL keeps at least 16
    significant digits of it, which gives the same percentages for fewer than
    10^15 votes).  JavaScript numbers that reach the database are safe
    integers (below 2^53 in absolute value), which JSON writes with all their
    digits. *)

From Stdlib Require Import List String Ascii ZArith QArith Qabs Bool Lia Lqa Sorted Permutation.
From Stdlib Require Import DecimalString.
Import ListNotations.
Local Open Scope string_scope.
Local Open Scope list_scope.
Local Open Scope Z_scope.

(** ** Strings: JavaScript [trim] and SQL [trim] / [length] *)

Fixpoint trim_start (ws : ascii -> bool) (s : string) : string :=
  match s with
  | EmptyString => EmptyString
  | String c s' => if ws c then trim_start ws s' else s
  end.

Fixpoint trim_end (ws : ascii -> bool) (s : string) : string :=
  match s with
  | EmptyString => EmptyString
  | String c s' =>
      match trim_end ws s' with
      | EmptyString => if ws c then EmptyString else String c EmptyString
      | t => String c t
      end
  end.

(** White space of [String.prototype.trim] among one-byte characters:
    TAB, LF, VT, FF, CR, SPACE and NBSP. *)
Definition js_whitespace (c : ascii) : bool :=
  let n := nat_of_ascii c in
  ((9 <=? n) && (n <=? 13) || (n =? 32) || (n =? 160))%nat.

Definition js_trim (s : string) : string := trim_end js_whitespace (trim_start js_whitespace s).

(** SQL [trim(s)] is [btrim(s, ' ')]: only the space character is removed. *)
Definition sql_space (c : ascii) : bool := (nat_of_ascii c =? 32)%nat.

Definition sql_trim (s : string) : string := trim_end sql_space (trim_start sql_space s).

Definition sql_length (s : string) : Z := Z.of_nat (String.length s).

(** [array_length(a, 1)] is NULL for an empty array. *)
Definition array_length {A : Type} (a : list A) : option Z :=
  match a with
  | [] => None
  | _ => Some (Z.of_nat (List.length a))
  end.

(** Three-valued [>=] and the rule of CHECK constraints: a row is rejected only
    when the expression is false; NULL passes. *)
Definition sql_ge (x : option Z) (y : Z) : option bool :=
  match x with
  | None => None
  | Some v => Some (y <=? v)
  end.

Definition check_passes (v : option bool) : bool :=
  match v with
  | Some false => false
  | _ => true
  end.

(** Storing into [VARCHAR(n)]: a longer value is an error unless the excess is
    spaces only, in which case it is cut to [n] characters. *)
Fixpoint all_spaces (s : string) : bool :=
  match s with
  | EmptyString => true
  | String c s' => sql_space c && all_spaces s'
  end.

Definition varchar (n : nat) (s : string) : option string :=
  if (String.length s <=? n)%nat then Some s
  else if all_spaces (substring n (String.length s - n) s) then Some (substring 0 n s)
  else None.

Definition is_int4 (z : Z) : bool := (-2147483648 <=? z) && (z <=? 2147483647).

(** ** Schema *)

Definition uuid := nat.
Definition timestamptz := Z.

Module Polls.
Record row := {
  id : uuid;
  question : string;
  options : list string;
  created_at : timestamptz;
  user_id : option uuid;
  is_public : bool;
  share_token : option string
}.
End Polls.

Module Votes.
Record row := {
  id : uuid;
  poll_id : uuid;
  option_index : Z;
  voter_ip : option string;
  voter_session : option string;
  created_at : timestamptz
}.
End Votes.

Record PostgrestError := { code : string; message : string }.

(** Why no request succeeds while the backend is unavailable: the database
    answers every request with the error [e] (a missing table, say), or no
    request is answered at all and [fetch] fails with [reason].  A failure
    lasts for a whole method call: all the requests of the call meet it. *)
Inductive Failure :=
| Errored (e : PostgrestError)
| Unreachable (reason : string).

(** The state behind the global [supabase] handle: availability, the signed-in
    user ([auth.uid()]), the transaction clock ([NOW()]) and the two tables. *)
Record Supabase := {
  health : option Failure;
  auth_uid : option uuid;
  now : timestamptz;
  polls : list Polls.row;
  votes : list Votes.row
}.

Definition with_polls (s : Supabase) (ps : list Polls.row) : Supabase :=
  {| health := health s; auth_uid := auth_uid s; now := now s; polls := ps; votes := votes s |}.

Definition with_votes (s : Supabase) (vs : list Votes.row) : Supabase :=
  {| health := health s; auth_uid := auth_uid s; now := now s; polls := polls s; votes := vs |}.

(** An identifier above every identifier in use. *)
Definition fresh_uuid (used : list uuid) : uuid := S (list_max used).

(** ** Errors raised by the storage layer *)

(** PostgreSQL writes the names of relations and constraints, and offending
    values, between double quotes. *)
Definition quoted (name : string) : string :=
  String (ascii_of_nat 34) (name ++ String (ascii_of_nat 34) "").

(** The decimal digits of an integer, as JSON and PostgreSQL write it. *)
Definition decimal (z : Z) : string := NilZero.string_of_int (Z.to_int z).

Definition numeric_value_out_of_range (value : Z) : PostgrestError :=
  {| code := "22003";
     message := "value " ++ quoted (decimal value) ++ " is out of range for type integer" |}.

Definition string_data_right_truncation (n : string) : PostgrestError :=
  {| code := "22001"; message := "value too long for type character varying(" ++ n ++ ")" |}.

Definition insufficient_privilege (table : string) : PostgrestError :=
  {| code := "42501"; message := "new row violates row-level security policy for table " ++ quoted table |}.

Definition unique_violation (constraint : string) : PostgrestError :=
  {| code := "23505"; message := "duplicate key value violates unique constraint " ++ quoted constraint |}.

Definition foreign_key_violation (table constraint : string) : PostgrestError :=
  {| code := "23503";
     message := "insert or update on table " ++ quoted table
                ++ " violates foreign key constraint " ++ quoted constraint |}.

Definition check_violation (table constraint : string) : PostgrestError :=
  {| code := "23514";
     message := "new row for relation " ++ quoted table
                ++ " violates check constraint " ++ quoted constraint |}.

(** What the client makes of a request that got no answer: it does not
    throw, it resolves to an error object without code whose message is the
    reason of the failed [fetch]. *)
Definition fetch_error (reason : string) : PostgrestError :=
  {| code := ""; message := reason |}.

(** [.single()] on a result that is not exactly one row. *)
Definition not_a_single_row : PostgrestError :=
  {| code := "PGRST116"; message := "JSON object requested, multiple (or no) rows returned" |}.

(** ** Row-level security policies *)

(** SQL [user_id = auth.uid()]: true only when both sides are non-NULL. *)
Definition is_auth_uid (s : Supabase) (owner : option uuid) : bool :=
  match owner, auth_uid s with
  | Some o, Some u => (o =? u)%nat
  | _, _ => false
  end.

Definition is_null {A : Type} (x : option A) : bool :=
  match x with
  | None => true
  | Some _ => false
  end.

(** "Users can view own polls and shared polls". *)
Definition polls_select_using (s : Supabase) (p : Polls.row) : bool :=
  is_auth_uid s (Polls.user_id p)
  || is_null (Polls.user_id p)
  || (Polls.is_public p && negb (is_null (Polls.share_token p))).

(** "Users can insert own polls", "Users can update own polls" and "Users can
    delete own polls" share one expression. *)
Definition polls_owner_policy (s : Supabase) (p : Polls.row) : bool :=
  is_auth_uid s (Polls.user_id p).

(** "Anyone can view votes for public polls".  The sub-select on [polls] runs
    under the caller's rights, hence under [polls_select_using]. *)
Definition votes_select_using (s : Supabase) (v : Votes.row) : bool :=
  existsb (fun p => polls_select_using s p
                    && (Polls.id p =? Votes.poll_id v)%nat
                    && (Polls.is_public p || is_auth_uid s (Polls.user_id p)))
          (polls s).

(** "Anyone can insert votes for public polls". *)
Definition votes_insert_check (s : Supabase) (v : Votes.row) : bool :=
  existsb (fun p => polls_select_using s p
                    && (Polls.id p =? Votes.poll_id v)%nat
                    && Polls.is_public p)
          (polls s).

(** ** The client: replies and outcomes *)

(** What [await supabase...] yields: a thrown exception, or [{ data, error }].
    The requests of the client always resolve; [Threw] is what the [catch]
    blocks of the methods are written for. *)
Inductive Reply (A : Type) :=
| Threw (reason : string)
| Resolved (data : option A) (error : option PostgrestError).
Arguments Threw {A} reason.
Arguments Resolved {A} data error.

(** How an [async] method of [DatabaseService] ends. *)
Inductive Outcome (A : Type) :=
| Returns (a : A)
| Throws (message : string).
Arguments Returns {A} a.
Arguments Throws {A} message.

(** A read request. *)
Definition query {A : Type} (s : Supabase) (r : PostgrestError + A) : Reply A :=
  match health s with
  | Some (Errored e) => Resolved None (Some e)
  | Some (Unreachable reason) => Resolved None (Some (fetch_error reason))
  | None =>
      match r with
      | inl e => Resolved None (Some e)
      | inr a => Resolved (Some a) None
      end
  end.

(** A write request: the state changes only when the statement succeeds. *)
Definition mutate {A : Type} (s : Supabase) (r : PostgrestError + option A * Supabase)
  : Reply A * Supabase :=
  match health s with
  | Some (Errored e) => (Resolved None (Some e), s)
  | Some (Unreachable reason) => (Resolved None (Some (fetch_error reason)), s)
  | None =>
      match r with
      | inl e => (Resolved None (Some e), s)
      | inr (d, s') => (Resolved d None, s')
      end
  end.

(** ** Table [votes] *)

(** [UNIQUE(poll_id, voter_session)]: NULL sessions never conflict. *)
Definition same_ballot (v w : Votes.row) : bool :=
  (Votes.poll_id v =? Votes.poll_id w)%nat
  && match Votes.voter_session v, Votes.voter_session w with
     | Some a, Some b => (a =? b)%string
     | _, _ => false
     end.

(** The row that an insert of the three columns makes: the others take their
    defaults. *)
Definition new_vote (s : Supabase) (pollId : uuid) (optionIndex : Z) (session : string) : Votes.row :=
  {| Votes.id := fresh_uuid (map Votes.id (votes s));
     Votes.poll_id := pollId;
     Votes.option_index := optionIndex;
     Votes.voter_ip := None;
     Votes.voter_session := Some session;
     Votes.created_at := now s |}.

(** [INSERT INTO votes (poll_id, option_index, voter_session)].  Order of the
    checks: conversion to the column types, the policy's WITH CHECK, the
    unique index, then the foreign key. *)
Definition insert_vote (s : Supabase) (pollId : uuid) (optionIndex : Z) (voterSession : string)
  : PostgrestError + option unit * Supabase :=
  if negb (is_int4 optionIndex) then inl (numeric_value_out_of_range optionIndex)
  else
    match varchar 255 voterSession with
    | None => inl (string_data_right_truncation "255")
    | Some session =>
        let v := new_vote s pollId optionIndex session in
        if negb (votes_insert_check s v) then inl (insufficient_privilege "votes")
        else if existsb (same_ballot v) (votes s)
             then inl (unique_violation "votes_poll_id_voter_session_key")
        else if negb (existsb (fun p => (Polls.id p =? pollId)%nat) (polls s))
             then inl (foreign_key_violation "votes" "votes_poll_id_fkey")
        else inr (None, with_votes s (votes s ++ [v]))
    end.

(** ** Table [polls] *)

(** [SELECT * FROM polls WHERE cond], as the caller is allowed to see it. *)
Definition select_polls (s : Supabase) (cond : Polls.row -> bool) : list Polls.row :=
  filter (fun p => polls_select_using s p && cond p) (polls s).

Definition single {A : Type} (rows : list A) : PostgrestError + A :=
  match rows with
  | [r] => inr r
  | _ => inl not_a_single_row
  end.

(** The two CHECK constraints of [polls]. *)
Definition polls_question_check (p : Polls.row) : bool :=
  check_passes (sql_ge (Some (sql_length (sql_trim (Polls.question p)))) 5).

Definition polls_options_check (p : Polls.row) : bool :=
  check_passes (sql_ge (array_length (Polls.options p)) 2).

(** [INSERT INTO polls (question, options, user_id) ... RETURNING *].  The
    CHECK constraints are tried in the order of their names.  The reference to
    [auth.users] is taken to hold for a signed-in user. *)
Definition insert_poll (s : Supabase) (question : string) (options : list string) (user : uuid)
  : PostgrestError + option Polls.row * Supabase :=
  let p := {| Polls.id := fresh_uuid (map Polls.id (polls s));
              Polls.question := question;
              Polls.options := options;
              Polls.created_at := now s;
              Polls.user_id := Some user;
              Polls.is_public := false;
              Polls.share_token := None |} in
  if negb (polls_owner_policy s p) then inl (insufficient_privilege "polls")
  else if negb (polls_options_check p) then inl (check_violation "polls" "polls_options_check")
  else if negb (polls_question_check p) then inl (check_violation "polls" "polls_question_check")
  else if negb (polls_select_using s p) then inl (insufficient_privilege "polls")
  else inr (Some p, with_polls s (polls s ++ [p])).

(** ** Share tokens *)

(** The random draws of one [generateShareLink] call: the 16 bytes of
    [gen_random_bytes(16)], read as a number, and the token that the two
    [Math.random().toString(36).substring(2, 15)] pieces would make. *)
Record Entropy := { gen_random_bytes : N; math_random : string }.

Definition hex_digit (d : N) : ascii :=
  if (d <? 10)%N then ascii_of_N (48 + d) else ascii_of_N (87 + d).

(** [encode(bytes, 'hex')]: [n] lower-case hexadecimal digits, high digit first. *)
Fixpoint encode_hex (n : nat) (bytes : N) (acc : string) : string :=
  match n with
  | O => acc
  | S n' => encode_hex n' (bytes / 16)%N (String (hex_digit (bytes mod 16)%N) acc)
  end.

(** SQL function [generate_share_token()] *)
Definition generate_share_token (rnd : Entropy) : string :=
  encode_hex 32 (gen_random_bytes rnd) "".

Definition token_is (t : string) (p : Polls.row) : bool :=
  match Polls.share_token p with
  | Some u => (u =? t)%string
  | None => false
  end.

(** The rows an [UPDATE polls ... WHERE id = pollId] of the caller reaches:
    rows that the caller may not see or may not update are skipped silently. *)
Definition update_target (s : Supabase) (pollId : uuid) (p : Polls.row) : bool :=
  (Polls.id p =? pollId)%nat && polls_select_using s p && polls_owner_policy s p.

(** [SET is_public = isPublic, share_token = token] *)
Definition set_sharing (isPublic : bool) (token : option string) (p : Polls.row) : Polls.row :=
  {| Polls.id := Polls.id p;
     Polls.question := Polls.question p;
     Polls.options := Polls.options p;
     Polls.created_at := Polls.created_at p;
     Polls.user_id := Polls.user_id p;
     Polls.is_public := isPublic;
     Polls.share_token := token |}.

(** The table after the update. *)
Definition updated (s : Supabase) (pollId : uuid) (isPublic : bool) (token : option string)
  : Supabase :=
  with_polls s (map (fun p => if update_target s pollId p then set_sharing isPublic token p else p)
                    (polls s)).

(** [UPDATE polls SET is_public = .., share_token = .. WHERE id = pollId];
    [share_token] is [VARCHAR(32) UNIQUE], and the new rows pass the WITH CHECK
    of the update policy. *)
Definition update_sharing (s : Supabase) (pollId : uuid) (isPublic : bool) (shareToken : option string)
  : PostgrestError + option unit * Supabase :=
  let stored := match shareToken with
                | None => Some None
                | Some t => option_map Some (varchar 32 t)
                end in
  match stored with
  | None => inl (string_data_right_truncation "32")
  | Some token =>
      let taken := match token with
                   | None => false
                   | Some t => existsb (fun q => negb (Polls.id q =? pollId)%nat && token_is t q) (polls s)
                   end in
      if negb (forallb (polls_owner_policy s)
                       (map (set_sharing isPublic token) (filter (update_target s pollId) (polls s))))
      then inl (insufficient_privilege "polls")
      else if existsb (update_target s pollId) (polls s) && taken
      then inl (unique_violation "polls_share_token_key")
      else inr (None, updated s pollId isPublic token)
  end.

(** ** Statistics *)

(** The [PollStatistics] interface: one row of [get_poll_statistics]. *)
Module PollStatistics.
Record t := {
  option_index : Z;
  vote_count : Z;
  percentage : Q
}.
End PollStatistics.

(** Nearest integer, ties away from zero, as [ROUND] does on [NUMERIC]. *)
Definition round_half_away (q : Q) : Z :=
  let n := Qnum q in
  let d := Z.pos (Qden q) in
  Z.sgn n * ((2 * Z.abs n + d) / (2 * d)).

(** [ROUND(q, digits)]: the result carries [digits] decimal digits. *)
Definition ROUND (q : Q) (digits : nat) : Q :=
  let scale := Z.to_pos (10 ^ Z.of_nat digits) in
  Qmake (round_half_away (q * inject_Z (Z.pos scale))) scale.

(** [SUM] of no row is NULL. *)
Definition SUM (xs : list Z) : option Z :=
  match xs with
  | [] => None
  | _ => Some (fold_right Z.add 0 xs)
  end.

Definition COALESCE {A : Type} (x : option A) (default : A) : A :=
  match x with
  | Some v => v
  | None => default
  end.

(** [ORDER BY option_index] *)
Fixpoint insert_by_option_index (r : PollStatistics.t) (rows : list PollStatistics.t)
  : list PollStatistics.t :=
  match rows with
  | [] => [r]
  | r' :: rows' =>
      if PollStatistics.option_index r <=? PollStatistics.option_index r' then r :: rows
      else r' :: insert_by_option_index r rows'
  end.

Definition order_by_option_index (rows : list PollStatistics.t) : list PollStatistics.t :=
  fold_right insert_by_option_index [] rows.

(** [FROM votes v WHERE v.poll_id = poll_uuid], under the caller's rights: the
    functions are not SECURITY DEFINER. *)
Definition votes_of (s : Supabase) (poll_uuid : uuid) : list Votes.row :=
  filter (fun v => votes_select_using s v && (Votes.poll_id v =? poll_uuid)%nat) (votes s).

(** The CTE [vote_counts]: [GROUP BY v.option_index] with [COUNT( * )]. *)
Definition vote_counts (s : Supabase) (poll_uuid : uuid) : list (Z * Z) :=
  let chosen := map Votes.option_index (votes_of s poll_uuid) in
  map (fun k => (k, Z.of_nat (count_occ Z.eq_dec chosen k))) (nodup Z.eq_dec chosen).

(** The CTE [total_votes]. *)
Definition total_votes (vc : list (Z * Z)) : Z := COALESCE (SUM (map snd vc)) 0.

(** SQL function [get_poll_statistics(poll_uuid)] *)
Definition get_poll_statistics (s : Supabase) (poll_uuid : uuid) : list PollStatistics.t :=
  let vc := vote_counts s poll_uuid in
  let total := total_votes vc in
  order_by_option_index
    (map (fun '(k, count) =>
            {| PollStatistics.option_index := k;
               PollStatistics.vote_count := count;
               PollStatistics.percentage :=
                 if 0 <? total
                 then ROUND ((inject_Z count / inject_Z total) * 100) 2
                 else 0 # 100 |})
         vc).

(** SQL function [get_poll_total_votes(poll_uuid)] *)
Definition get_poll_total_votes (s : Supabase) (poll_uuid : uuid) : Z :=
  Z.of_nat (List.length (votes_of s poll_uuid)).

(** The sum of a list of percentages, to state what they add up to. *)
Definition Qsum (xs : list Q) : Q := fold_right Qplus 0%Q xs.

(** ** The interfaces of [lib/database.ts] *)

(** [new Date(created_at).toLocaleDateString()] depends on the browser's locale
    and time zone; the formatted date is kept symbolic. *)
Inductive LocaleDate :=
| toLocaleDateString (created_at : timestamptz).

(** The [Poll] interface of [lib/database.ts]. *)
Module Poll.
Record t := {
  id : uuid;
  question : string;
  options : list string;
  created_at : LocaleDate;
  user_id : option uuid;
  is_public : bool;
  share_token : option string
}.
End Poll.

(** The object literal every method builds from a returned row. *)
Definition to_Poll (data : Polls.row) : Poll.t :=
  {| Poll.id := Polls.id data;
     Poll.question := Polls.question data;
     Poll.options := Polls.options data;
     Poll.created_at := toLocaleDateString (Polls.created_at data);
     Poll.user_id := Polls.user_id data;
     Poll.is_public := Polls.is_public data;
     Poll.share_token := Polls.share_token data |}.

(** The [PollWithStats] interface: the fields of [Poll] and three more. *)
Module PollWithStats.
Record t := {
  poll : Poll.t;
  total_votes : Z;
  statistics : list PollStatistics.t;
  user_vote : option Z
}.
Definition options (p : t) : list string := Poll.options (poll p).
End PollWithStats.

(** [options.filter((option) => option.trim() !== "")] *)
Definition non_blank (option : string) : bool := negb (js_trim option =? "")%string.

(** ** Table [polls]: update, delete and ordered reads *)

(** [SET question = .., options = ..] *)
Definition set_content (question : string) (options : list string) (p : Polls.row) : Polls.row :=
  {| Polls.id := Polls.id p;
     Polls.question := question;
     Polls.options := options;
     Polls.created_at := Polls.created_at p;
     Polls.user_id := Polls.user_id p;
     Polls.is_public := Polls.is_public p;
     Polls.share_token := Polls.share_token p |}.

(** What refuses the new version of a row: the WITH CHECK of the update
    policy, the CHECK constraints in the order of their names, the select
    policy of RETURNING. *)
Definition new_row_error (s : Supabase) (p : Polls.row) : option PostgrestError :=
  if negb (polls_owner_policy s p) then Some (insufficient_privilege "polls")
  else if negb (polls_options_check p) then Some (check_violation "polls" "polls_options_check")
  else if negb (polls_question_check p) then Some (check_violation "polls" "polls_question_check")
  else if negb (polls_select_using s p) then Some (insufficient_privilege "polls")
  else None.

Fixpoint first_error {A : Type} (f : A -> option PostgrestError) (l : list A) : option PostgrestError :=
  match l with
  | [] => None
  | a :: l' =>
      match f a with
      | Some e => Some e
      | None => first_error f l'
      end
  end.

(** [UPDATE polls SET question = .., options = .. WHERE id = pollId RETURNING *]
    requested as a single object: when the statement does not return exactly
    one row, the answer is PGRST116 and the transaction is rolled back. *)
Definition update_poll (s : Supabase) (pollId : uuid) (question : string) (options : list string)
  : PostgrestError + option Polls.row * Supabase :=
  let rows := map (set_content question options) (filter (update_target s pollId) (polls s)) in
  match first_error (new_row_error s) rows with
  | Some e => inl e
  | None =>
      match rows with
      | [r] => inr (Some r,
                    with_polls s (map (fun p => if update_target s pollId p
                                                then set_content question options p
                                                else p)
                                      (polls s)))
      | _ => inl not_a_single_row
      end
  end.

(** [DELETE FROM polls WHERE id = pollId].  The delete policy has the
    expression of the update policy, and rows out of the caller's reach are
    skipped without an error.  [votes.poll_id] is declared ON DELETE CASCADE;
    the cascade is not subject to the policies of [votes]. *)
Definition delete_poll (s : Supabase) (pollId : uuid) : PostgrestError + option unit * Supabase :=
  inr (None,
       {| health := health s;
          auth_uid := auth_uid s;
          now := now s;
          polls := filter (fun p => negb (update_target s pollId p)) (polls s);
          votes := if existsb (update_target s pollId) (polls s)
                   then filter (fun v => negb (Votes.poll_id v =? pollId)%nat) (votes s)
                   else votes s |}).

(** [ORDER BY created_at DESC].  Rows of equal [created_at], whose order
    PostgreSQL leaves open, stay in the order of the table. *)
Fixpoint insert_by_created_at (r : Polls.row) (rows : list Polls.row) : list Polls.row :=
  match rows with
  | [] => [r]
  | r' :: rows' =>
      if Polls.created_at r' <=? Polls.created_at r then r :: rows
      else r' :: insert_by_created_at r rows'
  end.

Definition order_by_created_at_desc (rows : list Polls.row) : list Polls.row :=
  fold_right insert_by_created_at [] rows.

(** ** [DatabaseService] *)

Module DatabaseService.

Definition table_not_found : string :=
  "Database table not found. Please run the setup script to create the polls table.".

(** [supabase.auth.getUser()] asks the auth server, which does not depend on
    the tables; when the request gets no answer, the user is [null]. *)
Definition getUser (s : Supabase) : option uuid :=
  match health s with
  | Some (Unreachable _) => None
  | _ => auth_uid s
  end.

(** [checkTableExists] *)
Definition checkTableExists (s : Supabase) : bool :=
  match query s (inr (firstn 1 (map Polls.id (select_polls s (fun _ => true))))) with
  | Threw _ => false
  | Resolved _ None => true
  | Resolved _ (Some error) => negb (code error =? "42P01")%string
  end.

(** [getPollStatistics] *)
Definition getPollStatistics (s : Supabase) (pollId : uuid) : list PollStatistics.t :=
  match query s (inr (get_poll_statistics s pollId)) with
  | Threw _ => []
  | Resolved _ (Some _) => []
  | Resolved data None => COALESCE data []
  end.

(** [getPollTotalVotes] *)
Definition getPollTotalVotes (s : Supabase) (pollId : uuid) : Z :=
  match query s (inr (get_poll_total_votes s pollId)) with
  | Threw _ => 0
  | Resolved _ (Some _) => 0
  | Resolved data None => COALESCE data 0
  end.

(** [castVote] *)
Definition castVote (s : Supabase) (pollId : uuid) (optionIndex : Z) (voterSession : string)
  : Outcome unit * Supabase :=
  let (reply, s') := mutate s (insert_vote s pollId optionIndex voterSession) in
  match reply with
  | Threw m => (Throws m, s')
  | Resolved _ (Some error) =>
      if (code error =? "23505")%string
      then (Throws "You have already voted on this poll", s')
      else (Throws ("Failed to cast vote: " ++ message error), s')
  | Resolved _ None => (Returns tt, s')
  end.

(** [getUserVote] *)
Definition getUserVote (s : Supabase) (pollId : uuid) (voterSession : string) : option Z :=
  let rows := filter (fun v => votes_select_using s v
                               && (Votes.poll_id v =? pollId)%nat
                               && match Votes.voter_session v with
                                  | Some a => (a =? voterSession)%string
                                  | None => false
                                  end)
                     (votes s) in
  match query s (single (map Votes.option_index rows)) with
  | Threw _ => None
  | Resolved _ (Some _) => None
  | Resolved data None => data
  end.

(** [createPoll] *)
Definition createPoll (s : Supabase) (question : string) (options : list string)
  : Outcome Poll.t * Supabase :=
  if negb (checkTableExists s) then (Throws table_not_found, s)
  else
    match getUser s with
    | None => (Throws "User not authenticated", s)
    | Some user =>
        let (reply, s') := mutate s (insert_poll s (js_trim question) (filter non_blank options) user) in
        match reply with
        | Threw m => (Throws m, s')
        | Resolved _ (Some error) => (Throws ("Failed to create poll: " ++ message error), s')
        | Resolved (Some data) None => (Returns (to_Poll data), s')
        | Resolved None None => (Throws "Cannot read properties of null", s')
        end
    end.

(** [generateShareLink].  The token is [null] only if the
    remote procedure answers without data and without error. *)
Definition generateShareLink (rnd : Entropy) (s : Supabase) (pollId : uuid)
  : Outcome (option string) * Supabase :=
  match query s (inr (generate_share_token rnd)) with
  | Threw m => (Throws m, s)
  | Resolved tokenData tokenError =>
      let shareToken := match tokenError with
                        | Some _ => Some (math_random rnd)
                        | None => tokenData
                        end in
      let (reply, s') := mutate s (update_sharing s pollId true shareToken) in
      match reply with
      | Threw m => (Throws m, s')
      | Resolved _ (Some error) => (Throws ("Failed to generate share link: " ++ message error), s')
      | Resolved _ None => (Returns shareToken, s')
      end
  end.

(** [disableSharing] *)
Definition disableSharing (s : Supabase) (pollId : uuid) : Outcome unit * Supabase :=
  let (reply, s') := mutate s (update_sharing s pollId false None) in
  match reply with
  | Threw m => (Throws m, s')
  | Resolved _ (Some error) => (Throws ("Failed to disable sharing: " ++ message error), s')
  | Resolved _ None => (Returns tt, s')
  end.

(** [getPollByShareToken] *)
Definition getPollByShareToken (s : Supabase) (shareToken : string) : Outcome (option Poll.t) :=
  match query s (single (select_polls s (fun p => token_is shareToken p && Polls.is_public p))) with
  | Threw m => Throws m
  | Resolved _ (Some error) =>
      if (code error =? "PGRST116")%string then Returns None
      else Throws ("Failed to fetch poll: " ++ message error)
  | Resolved (Some data) None => Returns (Some (to_Poll data))
  | Resolved None None => Throws "Cannot read properties of null"
  end.

(** [getPollById] *)
Definition getPollById (s : Supabase) (id : uuid) : Outcome (option Poll.t) :=
  if negb (checkTableExists s) then Throws table_not_found
  else
    match query s (single (select_polls s (fun p => (Polls.id p =? id)%nat))) with
    | Threw m => Throws m
    | Resolved _ (Some error) =>
        if (code error =? "PGRST116")%string then Returns None
        else Throws ("Failed to fetch poll: " ++ message error)
    | Resolved (Some data) None => Returns (Some (to_Poll data))
    | Resolved None None => Throws "Cannot read properties of null"
    end.

(** The [Promise.all] block shared by the two [...WithStats] methods; an empty
    session string is falsy, like an absent one. *)
Definition with_stats (s : Supabase) (p : Poll.t) (voterSession : option string) : PollWithStats.t :=
  {| PollWithStats.poll := p;
     PollWithStats.total_votes := getPollTotalVotes s (Poll.id p);
     PollWithStats.statistics := getPollStatistics s (Poll.id p);
     PollWithStats.user_vote :=
       match voterSession with
       | Some session => if (session =? "")%string then None
                         else getUserVote s (Poll.id p) session
       | None => None
       end |}.

(** [getPollWithStats] *)
Definition getPollWithStats (s : Supabase) (pollId : uuid) (voterSession : option string)
  : Outcome (option PollWithStats.t) :=
  match getPollById s pollId with
  | Throws m => Throws m
  | Returns None => Returns None
  | Returns (Some p) => Returns (Some (with_stats s p voterSession))
  end.

(** [getPollByShareTokenWithStats] *)
Definition getPollByShareTokenWithStats (s : Supabase) (shareToken : string)
           (voterSession : option string) : Outcome (option PollWithStats.t) :=
  match getPollByShareToken s shareToken with
  | Throws m => Throws m
  | Returns None => Returns None
  | Returns (Some p) => Returns (Some (with_stats s p voterSession))
  end.

(** [getAllPolls] *)
Definition getAllPolls (s : Supabase) : Outcome (list Poll.t) :=
  if negb (checkTableExists s) then Returns []
  else
    match query s (inr (order_by_created_at_desc (select_polls s (fun _ => true)))) with
    | Threw m => Throws m
    | Resolved _ (Some error) =>
        if (code error =? "42P01")%string then Throws table_not_found
        else Throws ("Failed to fetch polls: " ++ message error)
    | Resolved data None => Returns (map to_Poll (COALESCE data []))
    end.

(** [getUserPolls] *)
Definition getUserPolls (s : Supabase) : Outcome (list Poll.t) :=
  if negb (checkTableExists s) then Returns []
  else
    match getUser s with
    | None => Throws "User not authenticated"
    | Some user =>
        match query s (inr (order_by_created_at_desc
                              (select_polls s (fun p => match Polls.user_id p with
                                                        | Some o => (o =? user)%nat
                                                        | None => false
                                                        end)))) with
        | Threw m => Throws m
        | Resolved _ (Some error) => Throws ("Failed to fetch user polls: " ++ message error)
        | Resolved data None => Returns (map to_Poll (COALESCE data []))
        end
    end.

(** [getUserPollsWithStats]: the polls of [getUserPolls], each with its two
    aggregates and without [user_vote]. *)
Definition getUserPollsWithStats (s : Supabase) : Outcome (list PollWithStats.t) :=
  match getUserPolls s with
  | Throws m => Throws m
  | Returns polls =>
      Returns (map (fun poll => {| PollWithStats.poll := poll;
                                   PollWithStats.total_votes := getPollTotalVotes s (Poll.id poll);
                                   PollWithStats.statistics := getPollStatistics s (Poll.id poll);
                                   PollWithStats.user_vote := None |})
                   polls)
  end.

(** [updatePoll] *)
Definition updatePoll (s : Supabase) (id : uuid) (question : string) (options : list string)
  : Outcome Poll.t * Supabase :=
  if negb (checkTableExists s) then (Throws table_not_found, s)
  else
    let (reply, s') := mutate s (update_poll s id (js_trim question) (filter non_blank options)) in
    match reply with
    | Threw m => (Throws m, s')
    | Resolved _ (Some error) => (Throws ("Failed to update poll: " ++ message error), s')
    | Resolved (Some data) None => (Returns (to_Poll data), s')
    | Resolved None None => (Throws "Cannot read properties of null", s')
    end.

(** [deletePoll] *)
Definition deletePoll (s : Supabase) (id : uuid) : Outcome unit * Supabase :=
  if negb (checkTableExists s) then (Throws table_not_found, s)
  else
    let (reply, s') := mutate s (delete_poll s id) in
    match reply with
    | Threw m => (Throws m, s')
    | Resolved _ (Some error) => (Throws ("Failed to delete poll: " ++ message error), s')
    | Resolved _ None => (Returns tt, s')
    end.

End DatabaseService.

(** The page's test for the benign failure: [errorMessage.includes("already voted")]. *)
Fixpoint includes (needle hay : string) : bool :=
  prefix needle hay
  || match hay with
     | EmptyString => false
     | String _ hay' => includes needle hay'
     end.

Definition is_already_voted {A : Type} (o : Outcome A) : bool :=
  match o with
  | Throws m => includes "already voted" m
  | Returns _ => false
  end.

(** Rows of [votes] holding the ballot of session [voterSession] in poll
    [pollId]; the session is compared as the column stores it. *)
Definition ballots (s : Supabase) (pollId : uuid) (voterSession : string) : list Votes.row :=
  filter (fun v => (Votes.poll_id v =? pollId)%nat
                   && match Votes.voter_session v, varchar 255 voterSession with
                      | Some a, Some b => (a =? b)%string
                      | _, _ => false
                      end)
         (votes s).

(** ** Winner selection in the page components *)

(** [Math.max(...xs)]; [None] stands for [-Infinity], the value on no argument. *)
Definition Math_max (xs : list Z) : option Z :=
  match xs with
  | [] => None
  | x :: xs' => Some (fold_left Z.max xs' x)
  end.

(** [array[i]] for an integral [i]: [undefined] outside the array. *)
Definition js_index {A : Type} (array : list A) (i : Z) : option A :=
  if i <? 0 then None else nth_error array (Z.to_nat i).

(** [stat.vote_count === maxVotes] *)
Definition is_max (maxVotes : option Z) (stat : PollStatistics.t) : bool :=
  match maxVotes with
  | Some m => PollStatistics.vote_count stat =? m
  | None => false
  end.

Module PublicPollPage.

Record Winner := {
  option' : option string;
  optionIndex : Z;
  votes : Z;
  percentage : Q
}.

(** [getWinningOption] of the public poll page; [poll] is the page state. *)
Definition getWinningOption (poll : option PollWithStats.t) : option Winner :=
  match poll with
  | None => None
  | Some poll =>
      if (List.length (PollWithStats.statistics poll) =? 0)%nat then None
      else
        let maxVotes := Math_max (map PollStatistics.vote_count (PollWithStats.statistics poll)) in
        let winningStats := find (is_max maxVotes) (PollWithStats.statistics poll) in
        match winningStats, maxVotes with
        | None, _ => None
        | Some _, Some 0 => None
        | Some winningStats, _ =>
            Some {| option' := js_index (PollWithStats.options poll)
                                        (PollStatistics.option_index winningStats);
                    optionIndex := PollStatistics.option_index winningStats;
                    votes := PollStatistics.vote_count winningStats;
                    percentage := PollStatistics.percentage winningStats |}
        end
  end.

(** The state of the page: the poll it shows, the selected option, whether the
    visitor has voted, and the session identifier drawn when it mounted. *)
Record State := {
  poll : option PollWithStats.t;
  selectedOption : option Z;
  hasVoted : bool;
  voterSession : string
}.

Inductive Toast :=
| Poll_Not_Found
| Error_Loading_Poll
| Vote_Recorded
| Already_Voted
| Voting_Failed.

(** The effect run at mount: the session identifier [sessionId] is drawn and
    stored, then [loadPoll(sessionId)] runs for the token of the address. *)
Definition loadPoll (token : string) (s : Supabase) (sessionId : string) : State * option Toast :=
  let mounted := {| poll := None; selectedOption := None; hasVoted := false;
                    voterSession := sessionId |} in
  match DatabaseService.getPollByShareTokenWithStats s token (Some sessionId) with
  | Throws _ => (mounted, Some Error_Loading_Poll)
  | Returns None => (mounted, Some Poll_Not_Found)
  | Returns (Some pollData) =>
      match PollWithStats.user_vote pollData with
      | Some vote => ({| poll := Some pollData; selectedOption := Some vote; hasVoted := true;
                         voterSession := sessionId |}, None)
      | None => ({| poll := Some pollData; selectedOption := None; hasVoted := false;
                    voterSession := sessionId |}, None)
      end
  end.

(** What the [catch] block of [handleVote] does with a message. *)
Definition vote_failed (st : State) (message : string) : State * option Toast :=
  if includes "already voted" message
  then ({| poll := poll st; selectedOption := selectedOption st; hasVoted := true;
           voterSession := voterSession st |}, Some Already_Voted)
  else (st, Some Voting_Failed).

(** [handleVote] *)
Definition handleVote (token : string) (s : Supabase) (st : State)
  : State * option Toast * Supabase :=
  match selectedOption st, poll st with
  | Some selected, Some shown =>
      if (voterSession st =? "")%string then (st, None, s)
      else
        match DatabaseService.castVote s (Poll.id (PollWithStats.poll shown)) selected
                                       (voterSession st) with
        | (Throws m, s') => (vote_failed st m, s')
        | (Returns _, s') =>
            match DatabaseService.getPollByShareTokenWithStats s' token (Some (voterSession st)) with
            | Throws m => (vote_failed st m, s')
            | Returns updatedPoll =>
                ({| poll := match updatedPoll with
                            | Some _ => updatedPoll
                            | None => poll st
                            end;
                    selectedOption := selectedOption st;
                    hasVoted := true;
                    voterSession := voterSession st |}, Some Vote_Recorded, s')
            end
        end
  | _, _ => (st, None, s)
  end.

(** One entry of "Poll Results": the label, the votes and the percentage shown
    for an option, and whether it is marked as the winner. *)
Record Result := {
  label : string;
  shown_votes : Z;
  shown_percentage : Q;
  isWinning : bool
}.

(** The [poll.options.map((option, index) => ...)] of the results. *)
Definition results (shown : PollWithStats.t) : list Result :=
  let winningOption := getWinningOption (Some shown) in
  map (fun '(index, option) =>
         let stats := find (fun s => PollStatistics.option_index s =? Z.of_nat index)
                           (PollWithStats.statistics shown) in
         let votes := match stats with
                      | Some st => PollStatistics.vote_count st
                      | None => 0
                      end in
         {| label := option;
            shown_votes := votes;
            shown_percentage := match stats with
                                | Some st => PollStatistics.percentage st
                                | None => 0%Q
                                end;
            isWinning := match winningOption with
                         | Some w => (optionIndex w =? Z.of_nat index) && (0 <? votes)
                         | None => false
                         end |})
      (combine (seq 0 (List.length (PollWithStats.options shown))) (PollWithStats.options shown)).

End PublicPollPage.

Module UserDashboard.

Record Winner := {
  option' : option string;
  votes : Z;
  percentage : Q
}.

(** [getWinningOption] of the dashboard *)
Definition getWinningOption (poll : PollWithStats.t) : option Winner :=
  if (List.length (PollWithStats.statistics poll) =? 0)%nat then None
  else
    let maxVotes := Math_max (map PollStatistics.vote_count (PollWithStats.statistics poll)) in
    let winningStats := find (is_max maxVotes) (PollWithStats.statistics poll) in
    match winningStats, maxVotes with
    | None, _ => None
    | Some _, Some 0 => None
    | Some winningStats, _ =>
        Some {| option' := js_index (PollWithStats.options poll)
                                    (PollStatistics.option_index winningStats);
                votes := PollStatistics.vote_count winningStats;
                percentage := PollStatistics.percentage winningStats |}
    end.

(** The three figures of the overview. *)
Definition totalVotes (polls : list PollWithStats.t) : Z :=
  fold_left (fun sum poll => sum + PollWithStats.total_votes poll) polls 0.

Definition totalPolls (polls : list PollWithStats.t) : nat := List.length polls.

Definition activePolls (polls : list PollWithStats.t) : nat :=
  List.length (filter (fun poll => Poll.is_public (PollWithStats.poll poll)) polls).

(** The mark of the winner in "Vote Breakdown": the labels are compared. *)
Definition isWinning (shown : PollWithStats.t) (index : nat) (option : string) : bool :=
  let stats := find (fun s => PollStatistics.option_index s =? Z.of_nat index)
                    (PollWithStats.statistics shown) in
  let votes := match stats with
               | Some st => PollStatistics.vote_count st
               | None => 0
               end in
  match getWinningOption shown with
  | Some w => match option' w with
              | Some winner => (winner =? option)%string && (0 <? votes)
              | None => false
              end
  | None => false
  end.

End UserDashboard.

(** ** The poll form of the home page *)

Module PollForm.

(** [newErrors]: the optional [question] message and the sparse array of
    option messages, kept as the (index, message) pairs that were assigned. *)
Record Errors := {
  question : option string;
  options : option (list (nat * string))
}.

(** [Object.keys(newErrors).length] *)
Definition keys (e : Errors) : nat :=
  ((if is_null (question e) then 0 else 1) + (if is_null (options e) then 0 else 1))%nat.

(** [validateForm]: the value it returns and the errors it stores. *)
Definition validateForm (question : string) (options : list string) : bool * Errors :=
  let question_error :=
    if (js_trim question =? "")%string then Some "Question is required"
    else if (String.length (js_trim question) <? 5)%nat
         then Some "Question must be at least 5 characters long"
         else None in
  let optionErrors :=
    flat_map (fun '(index, option) =>
                if (index <? 2)%nat && negb (non_blank option)
                then [(index, "This option is required")]
                else [])
             (combine (seq 0 (List.length options)) options) in
  let newErrors := {| PollForm.question := question_error;
                      PollForm.options := Some optionErrors |} in
  ((keys newErrors =? 0)%nat
   || match PollForm.options newErrors with
      | Some errors => forallb (fun '(_, error) => (error =? "")%string) errors
      | None => false
      end,
   newErrors).

(** [addOption] and [removeOption] on the list of option inputs. *)
Definition addOption (options : list string) : list string :=
  if (List.length options <? 6)%nat then options ++ [""] else options.

Definition removeOption (options : list string) (index : nat) : list string :=
  if (2 <? List.length options)%nat
  then map snd (filter (fun '(i, _) => negb (i =? index)%nat)
                       (combine (seq 0 (List.length options)) options))
  else options.

(** [createPoll] of the page, for a configured client: the sign-in modal opens
    for an anonymous visitor, an invalid form stops the call. *)
Definition createPoll (s : Supabase) (question : string) (options : list string)
  : option (Outcome Poll.t) * Supabase :=
  match auth_uid s with
  | None => (None, s)
  | Some _ =>
      if negb (fst (validateForm question options)) then (None, s)
      else let (o, s') := DatabaseService.createPoll s question (filter non_blank options) in (Some o, s')
  end.

End PollForm.

(** ** The share button *)

Module ShareButton.

(** [updatePollSharing]: an empty token is stored as NULL. *)
Definition updatePollSharing (s : Supabase) (pollId : uuid) (isPublic : bool)
           (shareToken : option string) : Outcome unit * Supabase :=
  let token := match shareToken with
               | Some t => if (t =? "")%string then None else Some t
               | None => None
               end in
  let (reply, s') := mutate s (update_sharing s pollId isPublic token) in
  match reply with
  | Threw m => (Throws m, s')
  | Resolved _ (Some error) => (Throws ("Failed to update poll sharing: " ++ message error), s')
  | Resolved _ None => (Returns tt, s')
  end.

(** [generateShareLink] of the button; [local] is what [generateRandomToken]
    would draw.  The result is the pair given to [onShareUpdate], if it is
    called. *)
Definition generateShareLink (rnd : Entropy) (local : string) (s : Supabase) (pollId : uuid)
  : option (bool * option string) * Supabase :=
  match DatabaseService.generateShareLink rnd s pollId with
  | (Returns newShareToken, s') => (Some (true, newShareToken), s')
  | (Throws _, s') =>
      match updatePollSharing s' pollId true (Some local) with
      | (Returns _, s'') => (Some (true, Some local), s'')
      | (Throws _, s'') => (None, s'')
      end
  end.

(** [disableSharing] of the button *)
Definition disableSharing (s : Supabase) (pollId : uuid) : option (bool * option string) * Supabase :=
  match updatePollSharing s pollId false None with
  | (Returns _, s') => (Some (false, None), s')
  | (Throws _, s') => (None, s')
  end.

End ShareButton.

(** ** Sequences of calls *)

(** What happens to the state behind the client: a visitor signs in or out,
    the database fails or recovers, time passes, or a method of
    [DatabaseService] that writes is called. *)
Inductive Call :=
| Sign_in (user : uuid)
| Sign_out
| Outage (f : Failure)
| Recovery
| Clock (t : timestamptz)
| Cast_vote (pollId : uuid) (optionIndex : Z) (voterSession : string)
| Create_poll (question : string) (options : list string)
| Update_poll (id : uuid) (question : string) (options : list string)
| Delete_poll (id : uuid)
| Generate_share_link (rnd : Entropy) (pollId : uuid)
| Disable_sharing (pollId : uuid).

Definition step (s : Supabase) (c : Call) : Supabase :=
  match c with
  | Sign_in user =>
      {| health := health s; auth_uid := Some user; now := now s; polls := polls s; votes := votes s |}
  | Sign_out =>
      {| health := health s; auth_uid := None; now := now s; polls := polls s; votes := votes s |}
  | Outage f =>
      {| health := Some f; auth_uid := auth_uid s; now := now s; polls := polls s; votes := votes s |}
  | Recovery =>
      {| health := None; auth_uid := auth_uid s; now := now s; polls := polls s; votes := votes s |}
  | Clock t =>
      {| health := health s; auth_uid := auth_uid s; now := t; polls := polls s; votes := votes s |}
  | Cast_vote pollId optionIndex voterSession =>
      snd (DatabaseService.castVote s pollId optionIndex voterSession)
  | Create_poll question options => snd (DatabaseService.createPoll s question options)
  | Update_poll id question options => snd (DatabaseService.updatePoll s id question options)
  | Delete_poll id => snd (DatabaseService.deletePoll s id)
  | Generate_share_link rnd pollId => snd (DatabaseService.generateShareLink rnd s pollId)
  | Disable_sharing pollId => snd (DatabaseService.disableSharing s pollId)
  end.

Definition run (s : Supabase) (calls : list Call) : Supabase := fold_left step calls s.

(** What the constraints of the schema say of a state. *)
Record Constraints (s : Supabase) : Prop := {
  polls_pkey : NoDup (map Polls.id (polls s));
  votes_pkey : NoDup (map Votes.id (votes s));
  polls_checks : forall p, In p (polls s) ->
                           polls_question_check p = true /\ polls_options_check p = true;
  polls_share_token_key : forall p q t, In p (polls s) -> In q (polls s) ->
                                        Polls.share_token p = Some t ->
                                        Polls.share_token q = Some t -> p = q;
  votes_poll_id_voter_session_key : forall v w, In v (votes s) -> In w (votes s) ->
                                                same_ballot v w = true -> v = w;
  votes_poll_id_fkey : forall v, In v (votes s) ->
                                 exists p, In p (polls s) /\ Polls.id p = Votes.poll_id v
}.

(** A poll is public exactly when it has a share token. *)
Definition sharing_consistent (s : Supabase) : Prop :=
  forall p, In p (polls s) -> (Polls.is_public p = true <-> Polls.share_token p <> None).

(** ** Sample states *)

Module Sample.

(** A signed-in user on an empty, available database. *)
Definition empty : Supabase :=
  {| health := None; auth_uid := Some 7%nat; now := 1750001705; polls := []; votes := [] |}.

Definition entropy : Entropy :=
  {| gen_random_bytes := 12345678901234567890; math_random := "k3j2h1g0f9e8d7x6w5" |}.

(** The user creates the poll of the scenario and shares it. *)
Definition created : Supabase := snd (DatabaseService.createPoll empty "A or B?" ["A"; "B"]).

Definition shared : Supabase := snd (DatabaseService.generateShareLink entropy created 1%nat).
(** One visitor has voted for option A. *)
Definition one_vote : Supabase := snd (DatabaseService.castVote shared 1%nat 0 "voter_1").

(** The row of that poll once it is shared. *)
Definition shared_poll : Polls.row :=
  {| Polls.id := 1%nat;
     Polls.question := "A or B?";
     Polls.options := ["A"; "B"];
     Polls.created_at := 1750001705;
     Polls.user_id := Some 7%nat;
     Polls.is_public := true;
     Polls.share_token := Some "0000000000000000ab54a98ceb1f0ad2" |}.

(** The first row that the setup script inserts: a poll without owner. *)
Definition legacy_poll : Polls.row :=
  {| Polls.id := 1%nat;
     Polls.question := "What is your favorite programming language?";
     Polls.options := ["JavaScript"; "Python"; "TypeScript"; "Go"];
     Polls.created_at := 1750000000;
     Polls.user_id := None;
     Polls.is_public := false;
     Polls.share_token := None |}.

Definition legacy : Supabase :=
  {| health := None; auth_uid := Some 7%nat; now := 1750001705;
     polls := [legacy_poll]; votes := [] |}.

(** The database does not answer. *)
Definition offline : Supabase :=
  {| health := Some (Unreachable "TypeError: Failed to fetch");
     auth_uid := Some 7%nat; now := 1750001705; polls := polls shared; votes := [] |}.

(** What the public page holds when both options of the poll have two votes. *)
Definition tied : PollWithStats.t :=
  {| PollWithStats.poll := to_Poll shared_poll;
     PollWithStats.total_votes := 4;
     PollWithStats.statistics :=
       [ {| PollStatistics.option_index := 0;
            PollStatistics.vote_count := 2;
            PollStatistics.percentage := 50 # 1 |};
         {| PollStatistics.option_index := 1;
            PollStatistics.vote_count := 2;
            PollStatistics.percentage := 50 # 1 |} ];
     PollWithStats.user_vote := None |}.

(** The setup script was not run: every request meets the missing table. *)
Definition undefined_table : PostgrestError :=
  {| code := "42P01";
     message := "relation " ++ quoted "public.polls" ++ " does not exist" |}.

Definition not_set_up : Supabase :=
  {| health := Some (Errored undefined_table);
     auth_uid := Some 7%nat; now := 1750001705; polls := []; votes := [] |}.

(** The user creates a second poll beside the shared one. *)
Definition second : Supabase :=
  snd (DatabaseService.createPoll shared "Tea or coffee?" ["Tea"; "Coffee"]).

Definition second_poll : Polls.row :=
  {| Polls.id := 2%nat;
     Polls.question := "Tea or coffee?";
     Polls.options := ["Tea"; "Coffee"];
     Polls.created_at := 1750001705;
     Polls.user_id := Some 7%nat;
     Polls.is_public := false;
     Polls.share_token := None |}.

(** Another draw of random bytes. *)
Definition entropy' : Entropy :=
  {| gen_random_bytes := 98765432109876543210; math_random := "z9y8x7w6v5u4t3" |}.

End Sample.

(** * Properties *)

Import DatabaseService.

(** ** Trimming *)

Lemma trim_start_head (ws : ascii -> bool) (s : string) :
  trim_start ws s = EmptyString \/ exists c t, trim_start ws s = String c t /\ ws c = false.
Proof.
  induction s as [|c s IH]; simpl; [now left|].
  destruct (ws c) eqn:E; [exact IH|]. right. now exists c, s.
Qed.

Lemma trim_end_keeps_head (ws : ascii -> bool) (c : ascii) (s : string) :
  ws c = false -> exists t, trim_end ws (String c s) = String c t.
Proof.
  intros E. simpl. destruct (trim_end ws s) as [|d u].
  - rewrite E. now exists EmptyString.
  - now exists (String d u).
Qed.

Lemma trim_end_weaker (ws1 ws2 : ascii -> bool) (s : string) :
  (forall c, ws1 c = true -> ws2 c = true) ->
  trim_end ws1 (trim_end ws2 s) = trim_end ws2 s.
Proof.
  intros W. induction s as [|c s IH]; simpl; [reflexivity|].
  destruct (trim_end ws2 s) as [|d u] eqn:E.
  - destruct (ws2 c) eqn:E2; simpl; [reflexivity|].
    destruct (ws1 c) eqn:E1; [|reflexivity]. apply W in E1. congruence.
  - change (trim_end ws1 (String c (String d u))) with
      (match trim_end ws1 (String d u) with
       | EmptyString => if ws1 c then EmptyString else String c EmptyString
       | x => String c x
       end).
    rewrite IH. reflexivity.
Qed.

Lemma sql_space_is_js_whitespace (c : ascii) : sql_space c = true -> js_whitespace c = true.
Proof.
  unfold sql_space, js_whitespace. intros E. cbv zeta. rewrite E.
  now rewrite orb_true_r.
Qed.

(** [createPoll] sends [question.trim()]; the SQL [trim] of the CHECK
    constraint finds nothing left to remove. *)
Lemma sql_trim_js_trim (s : string) : sql_trim (js_trim s) = js_trim s.
Proof.
  unfold sql_trim.
  assert (H : trim_start sql_space (js_trim s) = js_trim s).
  { unfold js_trim. destruct (trim_start_head js_whitespace s) as [E|(c & t & E & Hc)]; rewrite E.
    - reflexivity.
    - destruct (trim_end_keeps_head js_whitespace c t Hc) as [u Hu]. rewrite Hu. simpl.
      destruct (sql_space c) eqn:Es; [|reflexivity].
      apply sql_space_is_js_whitespace in Es. congruence. }
  rewrite H. unfold js_trim. apply trim_end_weaker. exact sql_space_is_js_whitespace.
Qed.

(** ** Lists *)

Lemma filter_none {A : Type} (f : A -> bool) (l : list A) :
  (forall x, In x l -> f x = false) -> filter f l = [].
Proof.
  induction l as [|a l IH]; intros H; simpl; [reflexivity|].
  rewrite (H a) by now left. apply IH. intros x Hx. apply H. now right.
Qed.

(** ** Casting votes *)

Lemma votes_insert_check_poll_id (s s' : Supabase) (v v' : Votes.row) :
  polls s' = polls s -> auth_uid s' = auth_uid s -> Votes.poll_id v' = Votes.poll_id v ->
  votes_insert_check s' v' = votes_insert_check s v.
Proof.
  intros Hp Ha Hv. unfold votes_insert_check, polls_select_using, is_auth_uid.
  rewrite Hp, Ha, Hv. reflexivity.
Qed.

(** What a successful [castVote] went through. *)
Lemma castVote_returns_inv (s s1 : Supabase) (pollId : uuid) (i : Z) (voterSession : string) :
  castVote s pollId i voterSession = (Returns tt, s1) ->
  exists session v,
    health s = None /\ is_int4 i = true /\ varchar 255 voterSession = Some session
    /\ Votes.poll_id v = pollId /\ Votes.option_index v = i
    /\ Votes.voter_session v = Some session
    /\ votes_insert_check s v = true
    /\ existsb (same_ballot v) (votes s) = false
    /\ s1 = with_votes s (votes s ++ [v]).
Proof.
  unfold castVote, mutate, insert_vote. intros H.
  destruct (health s) as [[e|m]|] eqn:Hh.
  - destruct (code e =? "23505")%string; discriminate.
  - discriminate.
  - destruct (is_int4 i) eqn:Hi; simpl in H; [|discriminate].
    destruct (varchar 255 voterSession) as [session|] eqn:Hv; [|discriminate].
    match type of H with context [votes_insert_check s ?r] => set (v := r) in * end.
    destruct (votes_insert_check s v) eqn:Hc; simpl in H; [|discriminate].
    destruct (existsb (same_ballot v) (votes s)) eqn:Hu; [discriminate|].
    destruct (existsb _ (polls s)) eqn:Hf; simpl in H; [|discriminate].
    exists session, v. inversion H. repeat split; auto.
Qed.

Lemma same_ballot_refl (v w : Votes.row) (session : string) :
  Votes.poll_id v = Votes.poll_id w ->
  Votes.voter_session v = Some session -> Votes.voter_session w = Some session ->
  same_ballot v w = true.
Proof.
  intros Hp Hv Hw. unfold same_ballot. rewrite Hp, Hv, Hw, Nat.eqb_refl, String.eqb_refl.
  reflexivity.
Qed.

(** The unique index rejects a vote of a session that already holds a ballot. *)
Lemma insert_vote_duplicate (s : Supabase) (pollId : uuid) (j : Z) (voterSession session : string)
      (w : Votes.row) :
  is_int4 j = true -> varchar 255 voterSession = Some session ->
  In w (votes s) -> Votes.poll_id w = pollId -> Votes.voter_session w = Some session ->
  (forall v, Votes.poll_id v = pollId -> votes_insert_check s v = true) ->
  insert_vote s pollId j voterSession = inl (unique_violation "votes_poll_id_voter_session_key").
Proof.
  intros Hj Hv Hin Hp Hs Hc. unfold insert_vote. rewrite Hj, Hv. simpl.
  rewrite Hc by reflexivity. simpl.
  match goal with |- context [existsb (same_ballot ?r) _] => set (v := r) end.
  assert (E : existsb (same_ballot v) (votes s) = true).
  { apply existsb_exists. exists w. split; [exact Hin|].
    apply same_ballot_refl with session; auto. }
  rewrite E. reflexivity.
Qed.

Lemma ballots_unique_after_insert (s : Supabase) (pollId : uuid) (voterSession session : string)
      (v : Votes.row) :
  varchar 255 voterSession = Some session ->
  Votes.poll_id v = pollId -> Votes.voter_session v = Some session ->
  existsb (same_ballot v) (votes s) = false ->
  ballots (with_votes s (votes s ++ [v])) pollId voterSession = [v].
Proof.
  intros Hv Hp Hs Hu. unfold ballots. simpl. rewrite Hv, filter_app. simpl.
  rewrite Hp, Hs, Nat.eqb_refl, String.eqb_refl. simpl.
  replace (filter _ (votes s)) with (@nil Votes.row); [reflexivity|].
  symmetry. apply filter_none. intros w Hw.
  assert (F : same_ballot v w = false).
  { destruct (same_ballot v w) eqn:E; [|reflexivity].
    assert (X : existsb (same_ballot v) (votes s) = true)
      by (apply existsb_exists; exists w; auto).
    congruence. }
  unfold same_ballot in F. rewrite Hp, Hs in F.
  destruct (Votes.voter_session w) as [a|]; [|now rewrite andb_false_r].
  rewrite (Nat.eqb_sym (Votes.poll_id w)), (String.eqb_sym a). now rewrite F.
Qed.


Lemma varchar_fits (n : nat) (s : string) : (String.length s <= n)%nat -> varchar n s = Some s.
Proof.
  intros H. unfold varchar. now rewrite (proj2 (Nat.leb_le _ _) H).
Qed.

Lemma ballots_nil_no_conflict (s : Supabase) (pollId : uuid) (voterSession session : string)
      (v : Votes.row) :
  varchar 255 voterSession = Some session ->
  Votes.poll_id v = pollId -> Votes.voter_session v = Some session ->
  ballots s pollId voterSession = [] ->
  existsb (same_ballot v) (votes s) = false.
Proof.
  intros Hv Hp Hs Hb. destruct (existsb (same_ballot v) (votes s)) eqn:E; [|reflexivity].
  apply existsb_exists in E. destruct E as (w & Hw & Hsame).
  assert (In w (ballots s pollId voterSession)); [|rewrite Hb in *; contradiction].
  unfold ballots. apply filter_In. split; [exact Hw|].
  unfold same_ballot in Hsame. rewrite Hp, Hs in Hsame. rewrite Hv.
  destruct (Votes.voter_session w) as [a|]; [|now rewrite andb_false_r in Hsame].
  rewrite (Nat.eqb_sym (Votes.poll_id w)), (String.eqb_sym a). exact Hsame.
Qed.

(** The insert policy of [votes] asks for a public poll that the caller sees. *)
Lemma votes_insert_check_public (s : Supabase) (v : Votes.row) (p : Polls.row) :
  In p (polls s) -> Polls.id p = Votes.poll_id v ->
  Polls.is_public p = true -> polls_select_using s p = true ->
  votes_insert_check s v = true.
Proof.
  intros Hin Hid Hpub Hsel. unfold votes_insert_check. apply existsb_exists.
  exists p. split; [exact Hin|]. now rewrite Hsel, Hid, Nat.eqb_refl, Hpub.
Qed.

Lemma votes_insert_check_no_poll (s : Supabase) (v : Votes.row) :
  (forall p, In p (polls s) -> Polls.id p <> Votes.poll_id v) ->
  votes_insert_check s v = false.
Proof.
  intros H. destruct (votes_insert_check s v) eqn:E; [|reflexivity].
  apply existsb_exists in E. destruct E as (p & Hin & Hp).
  apply andb_prop in Hp. destruct Hp as [Hp _]. apply andb_prop in Hp. destruct Hp as [_ Hp].
  apply Nat.eqb_eq in Hp. now apply H in Hin.
Qed.

(** When [insert_vote] stores the row. *)
Lemma insert_vote_accepted (s : Supabase) (pollId : uuid) (i : Z) (voterSession : string)
      (p : Polls.row) :
  is_int4 i = true -> (String.length voterSession <= 255)%nat ->
  In p (polls s) -> Polls.id p = pollId ->
  Polls.is_public p = true -> polls_select_using s p = true ->
  ballots s pollId voterSession = [] ->
  insert_vote s pollId i voterSession
  = inr (None, with_votes s (votes s ++ [new_vote s pollId i voterSession])).
Proof.
  intros Hi Hl Hin Hid Hpub Hsel Hb. unfold insert_vote.
  rewrite Hi, (varchar_fits _ _ Hl). simpl.
  match goal with |- context [votes_insert_check s ?r] => set (v := r) end.
  rewrite (votes_insert_check_public s v p) by auto. simpl.
  rewrite (ballots_nil_no_conflict s pollId voterSession voterSession v)
    by (auto using varchar_fits).
  assert (F : existsb (fun q => (Polls.id q =? pollId)%nat) (polls s) = true).
  { apply existsb_exists. exists p. split; [exact Hin|]. now apply Nat.eqb_eq. }
  rewrite F. reflexivity.
Qed.

(** C2, as stated, fails: in the shared sample poll with the two options A and
    B, a vote for option index 7 is stored. *)
Lemma castVote_validates_bounds_counterexample :
  ~ (forall (s : Supabase) (p : Polls.row) (optionIndex : Z) (voterSession : string),
        In p (polls s) ->
        ~ (0 <= optionIndex < Z.of_nat (List.length (Polls.options p))) ->
        exists m, castVote s (Polls.id p) optionIndex voterSession = (Throws m, s)).
Proof.
  intros H.
  destruct (H Sample.shared Sample.shared_poll 7 "voter_1") as [m Hm].
  - now left.
  - simpl. lia.
  - vm_compute in Hm. discriminate.
Qed.


(** ** Creating polls *)

Lemma checkTableExists_available (s : Supabase) : health s = None -> checkTableExists s = true.
Proof.
  intros H. unfold checkTableExists, query. now rewrite H.
Qed.

Lemma getUser_available (s : Supabase) : health s = None -> getUser s = auth_uid s.
Proof.
  intros H. unfold getUser. now rewrite H.
Qed.

Lemma is_auth_uid_self (s : Supabase) (user : uuid) :
  auth_uid s = Some user -> is_auth_uid s (Some user) = true.
Proof.
  intros H. unfold is_auth_uid. rewrite H. apply Nat.eqb_refl.
Qed.

Lemma array_length_cons {A : Type} (a : list A) :
  a <> [] -> array_length a = Some (Z.of_nat (List.length a)).
Proof.
  destruct a; [congruence | reflexivity].
Qed.

(** The CHECK constraints refuse a short question and a single option. *)
Lemma insert_poll_rejected (s : Supabase) (question : string) (options : list string) (user : uuid) :
  (String.length (js_trim question) < 5)%nat \/ List.length options = 1%nat ->
  exists e, insert_poll s (js_trim question) options user = inl e.
Proof.
  intros H. unfold insert_poll.
  destruct (negb (polls_owner_policy s _)); [eauto|].
  unfold polls_options_check, polls_question_check. simpl.
  destruct (check_passes (sql_ge (array_length options) 2)) eqn:Eo; simpl; [|eauto].
  destruct H as [H|H].
  - rewrite sql_trim_js_trim. unfold sql_length.
    assert (F : (5 <=? Z.of_nat (String.length (js_trim question))) = false)
      by (apply Z.leb_gt; lia).
    rewrite F. simpl. eauto.
  - destruct options as [|o [|o' l]]; discriminate.
Qed.

Lemma insert_poll_accepted (s : Supabase) (question : string) (options : list string) (user : uuid) :
  auth_uid s = Some user ->
  (5 <= String.length (js_trim question))%nat -> (2 <= List.length options)%nat ->
  insert_poll s (js_trim question) options user
  = let p := {| Polls.id := fresh_uuid (map Polls.id (polls s));
                Polls.question := js_trim question;
                Polls.options := options;
                Polls.created_at := now s;
                Polls.user_id := Some user;
                Polls.is_public := false;
                Polls.share_token := None |} in
    inr (Some p, with_polls s (polls s ++ [p])).
Proof.
  intros Ha Hq Ho. unfold insert_poll, polls_owner_policy, polls_select_using.
  cbn [Polls.user_id]. rewrite (is_auth_uid_self s user Ha). cbn [negb orb].
  unfold polls_options_check, polls_question_check. cbn [Polls.options Polls.question].
  rewrite array_length_cons by (destruct options; simpl in *; [lia | congruence]).
  rewrite sql_trim_js_trim. unfold sql_ge, sql_length, check_passes.
  rewrite (proj2 (Z.leb_le 2 _)) by lia. rewrite (proj2 (Z.leb_le 5 _)) by lia.
  reflexivity.
Qed.

(** C5, as stated, fails: seven options are accepted. *)
Lemma createPoll_rejects_more_than_six_counterexample :
  ~ (forall (s : Supabase) (question : string) (options : list string),
        (String.length (js_trim question) < 5)%nat
        \/ (List.length (filter non_blank options) < 2)%nat
        \/ (6 < List.length options)%nat ->
        exists m, createPoll s question options = (Throws m, s)).
Proof.
  intros H.
  destruct (H Sample.empty "Best day of the week?" ["Mon"; "Tue"; "Wed"; "Thu"; "Fri"; "Sat"; "Sun"])
    as [m Hm].
  - right. right. simpl. lia.
  - vm_compute in Hm. discriminate.
Qed.

(** C5, amended.  [createPoll] fails, and leaves the tables as they were, when
    the trimmed question has fewer than 5 characters or when exactly one
    non-blank option remains after the blanks are filtered out.  A list of more
    than 6 options is not a reason for it to fail. *)
Theorem createPoll_rejects_short_question_or_single_option
        (s : Supabase) (question : string) (options : list string) :
  (String.length (js_trim question) < 5)%nat
  \/ List.length (filter non_blank options) = 1%nat ->
  exists m, createPoll s question options = (Throws m, s).
Proof.
  intros H. unfold createPoll.
  destruct (checkTableExists s); simpl; [|eauto].
  destruct (getUser s) as [user|]; [|eauto].
  unfold mutate. destruct (health s) as [[e|m]|]; [eauto | eauto |].
  destruct (insert_poll_rejected s question (filter non_blank options) user H) as [e He].
  rewrite He. eauto.
Qed.

Lemma createPoll_rejects_short_question_or_single_option_witness :
  (exists m, createPoll Sample.empty "  Hm?  " ["Yes"; "No"] = (Throws m, Sample.empty))
  /\ (exists m, createPoll Sample.empty "Best day of the week?" ["Mon"; "  "; ""]
                = (Throws m, Sample.empty)).
Proof.
  split.
  - apply (createPoll_rejects_short_question_or_single_option Sample.empty "  Hm?  " ["Yes"; "No"]).
    left. simpl. lia.
  - apply (createPoll_rejects_short_question_or_single_option
             Sample.empty "Best day of the week?" ["Mon"; "  "; ""]).
    right. reflexivity.
Defined.

(** The cap of six options lives in the form: [addOption] stops at six and
    [removeOption] stops at two. *)
Lemma addOption_at_most_six (options : list string) :
  (List.length options <= 6)%nat -> (List.length (PollForm.addOption options) <= 6)%nat.
Proof.
  intros H. unfold PollForm.addOption.
  destruct (List.length options <? 6)%nat eqn:E; [|exact H].
  apply Nat.ltb_lt in E. rewrite length_app. simpl. lia.
Qed.

Lemma fresh_uuid_unused (used : list uuid) (x : uuid) : In x used -> x <> fresh_uuid used.
Proof.
  intros H. unfold fresh_uuid.
  assert (L : Forall (fun k => (k <= list_max used)%nat) used) by now apply list_max_le.
  rewrite Forall_forall in L. apply L in H. unfold uuid in *. lia.
Qed.

(** Reading a row back by the identifier it was given at its insertion. *)
Lemma select_inserted_poll (s : Supabase) (p : Polls.row) :
  Polls.id p = fresh_uuid (map Polls.id (polls s)) ->
  polls_select_using s p = true ->
  select_polls (with_polls s (polls s ++ [p])) (fun q => (Polls.id q =? Polls.id p)%nat) = [p].
Proof.
  intros Hid Hsel. unfold select_polls. cbn [polls with_polls]. rewrite filter_app.
  rewrite filter_none.
  - cbn [filter app]. 
    replace (polls_select_using (with_polls s (polls s ++ [p])) p) with (polls_select_using s p)
      by reflexivity.
    now rewrite Hsel, Nat.eqb_refl.
  - intros q Hq. apply andb_false_iff. right. apply Nat.eqb_neq. rewrite Hid.
    apply fresh_uuid_unused. now apply in_map.
Qed.

(** C6.  On an available database and for a signed-in user, a question of at
    least 5 characters after trimming with 2 to 6 non-blank options is stored:
    [createPoll] returns a poll whose options are the non-blank options of the
    input in the order of the input, one row is added to [polls], and reading
    the poll back by its identifier returns the same poll. *)
Theorem createPoll_keeps_option_order
        (s : Supabase) (question : string) (options : list string) (user : uuid) :
  health s = None -> auth_uid s = Some user ->
  (5 <= String.length (js_trim question))%nat ->
  (2 <= List.length (filter non_blank options) <= 6)%nat ->
  exists p r,
    createPoll s question options = (Returns p, with_polls s (polls s ++ [r]))
    /\ p = to_Poll r
    /\ Poll.options p = filter non_blank options
    /\ Polls.options r = filter non_blank options
    /\ Poll.question p = js_trim question
    /\ getPollById (with_polls s (polls s ++ [r])) (Poll.id p) = Returns (Some p).
Proof.
  intros Hh Ha Hq [Ho _].
  pose proof (insert_poll_accepted s question (filter non_blank options) user Ha Hq Ho) as E.
  cbv zeta in E.
  match type of E with _ = inr (Some ?row, _) => set (r := row) in * end.
  exists (to_Poll r), r. unfold createPoll, mutate.
  rewrite (checkTableExists_available s Hh), (getUser_available s Hh), Ha, Hh, E. cbn [negb].
  repeat split.
  unfold getPollById. rewrite checkTableExists_available by exact Hh. cbn [negb].
  unfold query. cbn [health with_polls].  rewrite Hh.
  change (Poll.id (to_Poll r)) with (Polls.id r).
  rewrite select_inserted_poll; [reflexivity | reflexivity |].
  unfold polls_select_using. cbn [Polls.user_id r]. now rewrite (is_auth_uid_self s user Ha).
Qed.

Lemma createPoll_keeps_option_order_witness :
  exists p s', createPoll Sample.empty "  A or B?  " ["A"; " "; "B"; ""] = (Returns p, s')
               /\ Poll.options p = ["A"; "B"].
Proof.
  destruct (createPoll_keeps_option_order Sample.empty "  A or B?  " ["A"; " "; "B"; ""] 7%nat)
    as (p & r & H & _ & Ho & _); [reflexivity | reflexivity | simpl; lia | simpl; lia |].
  exists p, (with_polls Sample.empty (polls Sample.empty ++ [r])). split; [exact H | exact Ho].
Defined.

(** [createPoll] keeps the identifiers of [polls] distinct. *)
Lemma createPoll_keeps_primary_key (s : Supabase) (question : string) (options : list string) :
  NoDup (map Polls.id (polls s)) ->
  NoDup (map Polls.id (polls (snd (createPoll s question options)))).
Proof.
  intros Hnd. unfold createPoll.
  destruct (checkTableExists s); [|exact Hnd]. cbn [negb].
  destruct (getUser s) as [user|]; [|exact Hnd].
  unfold mutate. destruct (health s) as [[e|m]|]; [exact Hnd | exact Hnd |].
  unfold insert_poll.
  repeat match goal with
         | |- context [if ?b then _ else _] => destruct b; [exact Hnd|]
         end.
  cbn [snd polls with_polls]. rewrite map_app. cbn [map Polls.id].
  apply NoDup_app; [exact Hnd | constructor; [intros [] | constructor] |].
  intros x Hx [<-|[]]. now apply (fresh_uuid_unused _ _ Hx).
Qed.

(** ** Share links *)

Lemma encode_hex_length (n : nat) (bytes : N) (acc : string) :
  String.length (encode_hex n bytes acc) = (n + String.length acc)%nat.
Proof.
  revert bytes acc. induction n as [|n IH]; intros bytes acc; simpl; [reflexivity|].
  rewrite IH. simpl. lia.
Qed.

Lemma generate_share_token_fits (rnd : Entropy) :
  varchar 32 (generate_share_token rnd) = Some (generate_share_token rnd).
Proof.
  apply varchar_fits. unfold generate_share_token. rewrite encode_hex_length. simpl. lia.
Qed.

Lemma update_target_owner (s : Supabase) (p : Polls.row) :
  polls_owner_policy s p = true -> update_target s (Polls.id p) p = true.
Proof.
  intros H. unfold update_target, polls_select_using. unfold polls_owner_policy in H.
  now rewrite Nat.eqb_refl, H.
Qed.

Lemma update_target_other (s : Supabase) (pollId : uuid) (q : Polls.row) :
  Polls.id q <> pollId -> update_target s pollId q = false.
Proof.
  intros H. unfold update_target. now rewrite (proj2 (Nat.eqb_neq _ _) H).
Qed.

(** The new rows keep their owner, so the WITH CHECK of the update holds. *)
Lemma update_with_check (s : Supabase) (pollId : uuid) (isPublic : bool) (token : option string) :
  forallb (polls_owner_policy s)
          (map (set_sharing isPublic token) (filter (update_target s pollId) (polls s))) = true.
Proof.
  apply forallb_forall. intros r Hr. apply in_map_iff in Hr. destruct Hr as (q & <- & Hq).
  apply filter_In in Hq. destruct Hq as [_ Hq]. unfold update_target in Hq.
  apply andb_prop in Hq. exact (proj2 Hq).
Qed.

(** In a table with a primary key, the row of an identifier is one row. *)
Lemma primary_key (l : list Polls.row) (p q : Polls.row) :
  NoDup (map Polls.id l) -> In p l -> In q l -> Polls.id q = Polls.id p -> q = p.
Proof.
  induction l as [|a l IH]; intros Hnd Hp Hq Hid; [contradiction|].
  simpl in Hnd. inversion Hnd as [|x xs Hnotin Hnd']; subst.
  destruct Hp as [->|Hp], Hq as [->|Hq]; auto.
  - exfalso. apply Hnotin. rewrite <- Hid. now apply in_map.
  - exfalso. apply Hnotin. rewrite Hid. now apply in_map.
Qed.

Lemma filter_map_single {A B : Type} (f : B -> bool) (g : A -> B) (l : list A) (p : A) :
  In p l -> f (g p) = true -> (forall q, In q l -> q <> p -> f (g q) = false) ->
  (forall q, In q l -> q = p \/ q <> p) -> NoDup l ->
  filter f (map g l) = [g p].
Proof.
  induction l as [|a l IH]; intros Hp Hf Hother Hdec Hnd; [contradiction|].
  inversion Hnd as [|x xs Hnotin Hnd']; subst. simpl.
  destruct (Hdec a (or_introl eq_refl)) as [->|Hne].
  - rewrite Hf. f_equal. apply filter_none. intros y Hy.
    apply in_map_iff in Hy. destruct Hy as (q & <- & Hq).
    apply Hother; [now right|]. intros ->. contradiction.
  - rewrite (Hother a) by (auto; now left).
    destruct Hp as [->|Hp]; [congruence|].
    apply IH; auto.
    + intros q Hq. apply Hother. now right.
    + intros q Hq. apply Hdec. now right.
Qed.

Lemma NoDup_map_inv_rows (l : list Polls.row) : NoDup (map Polls.id l) -> NoDup l.
Proof.
  apply NoDup_map_inv.
Qed.

(** The update of the owner's own poll goes through when the token is free. *)
Lemma update_sharing_owner (s : Supabase) (p : Polls.row) (isPublic : bool) (token : option string) :
  (forall t, token = Some t ->
             (String.length t <= 32)%nat
             /\ forall q, In q (polls s) -> Polls.id q <> Polls.id p -> token_is t q = false) ->
  update_sharing s (Polls.id p) isPublic token = inr (None, updated s (Polls.id p) isPublic token).
Proof.
  intros H. unfold update_sharing.
  assert (S : match token with
              | None => Some None
              | Some t => option_map Some (varchar 32 t)
              end = Some token).
  { destruct token as [t|]; [|reflexivity].
    destruct (H t eq_refl) as [Hl _]. now rewrite (varchar_fits _ _ Hl). }
  rewrite S, update_with_check. cbn [negb].
  assert (T : match token with
              | None => false
              | Some t => existsb (fun q => negb (Polls.id q =? Polls.id p)%nat && token_is t q)
                                  (polls s)
              end = false).
  { destruct token as [t|]; [|reflexivity].
    destruct (H t eq_refl) as [_ Hfree].
    destruct (existsb _ (polls s)) eqn:E; [|reflexivity].
    apply existsb_exists in E. destruct E as (q & Hq & Hc).
    apply andb_prop in Hc. destruct Hc as [Hne Ht].
    apply negb_true_iff, Nat.eqb_neq in Hne. rewrite Hfree in Ht by auto. discriminate. }
  rewrite T, andb_false_r. reflexivity.
Qed.

(** After the owner's update, the rows of the table that carry token [t]. *)
Lemma select_by_token_after_share (s : Supabase) (p : Polls.row) (t : string) :
  NoDup (map Polls.id (polls s)) -> In p (polls s) -> polls_owner_policy s p = true ->
  (forall q, In q (polls s) -> Polls.id q <> Polls.id p -> token_is t q = false) ->
  select_polls (updated s (Polls.id p) true (Some t))
               (fun q => token_is t q && Polls.is_public q)
  = [set_sharing true (Some t) p].
Proof.
  intros Hnd Hp Ho Hfree. unfold select_polls, updated. cbn [polls with_polls].
  rewrite (filter_map_single _ _ (polls s) p).
  - now rewrite (update_target_owner s p Ho).
  - exact Hp.
  - rewrite (update_target_owner s p Ho).
    unfold polls_select_using, token_is. cbn [set_sharing Polls.user_id Polls.share_token Polls.is_public].
    unfold polls_owner_policy in Ho.
    replace (is_auth_uid (with_polls s _) (Polls.user_id p)) with (is_auth_uid s (Polls.user_id p))
      by reflexivity.
    now rewrite Ho, String.eqb_refl.
  - intros q Hq Hne.
    assert (Hid : Polls.id q <> Polls.id p).
    { intros E. apply Hne. now apply (primary_key (polls s)). }
    rewrite (update_target_other s _ q Hid), (Hfree q Hq Hid). cbn [andb].
    now rewrite andb_false_r.
  - intros q Hq. destruct (Nat.eq_dec (Polls.id q) (Polls.id p)) as [E|E].
    + left. now apply (primary_key (polls s)).
    + right. intros ->. now apply E.
  - now apply NoDup_map_inv_rows.
Qed.

Lemma select_by_token_after_unshare (s : Supabase) (p : Polls.row) (t : string) :
  NoDup (map Polls.id (polls s)) -> In p (polls s) -> polls_owner_policy s p = true ->
  (forall q, In q (polls s) -> Polls.id q <> Polls.id p -> token_is t q = false) ->
  select_polls (updated (updated s (Polls.id p) true (Some t)) (Polls.id p) false None)
               (fun q => token_is t q && Polls.is_public q)
  = [].
Proof.
  intros Hnd Hp Ho Hfree. unfold select_polls. apply filter_none. intros r Hr.
  apply andb_false_iff. right. apply andb_false_iff. left.
  unfold updated at 1 in Hr. cbn [polls with_polls] in Hr.
  apply in_map_iff in Hr. destruct Hr as (q1 & <- & Hq1).
  unfold updated in Hq1. cbn [polls with_polls] in Hq1.
  apply in_map_iff in Hq1. destruct Hq1 as (q & <- & Hq).
  destruct (Nat.eq_dec (Polls.id q) (Polls.id p)) as [E|E].
  - assert (q = p) by now apply (primary_key (polls s)). subst q.
    rewrite (update_target_owner s p Ho).
    replace (update_target _ (Polls.id p) (set_sharing true (Some t) p)) with true; [reflexivity|].
    symmetry. apply (update_target_owner _ (set_sharing true (Some t) p)). exact Ho.
  - rewrite (update_target_other s _ q E), (update_target_other _ _ q E). now apply Hfree.
Qed.

Lemma getPollByShareToken_public (s : Supabase) (t : string) (q : Poll.t) :
  getPollByShareToken s t = Returns (Some q) -> Poll.is_public q = true.
Proof.
  unfold getPollByShareToken, query. intros H.
  destruct (health s) as [[e|m]|].
  - destruct (code e =? "PGRST116")%string; discriminate.
  - discriminate.
  - destruct (select_polls s _) as [|r [|r' l]] eqn:E; simpl in H; try discriminate.
    inversion H. subst q.
    assert (Hr : In r (select_polls s (fun q => token_is t q && Polls.is_public q)))
      by (rewrite E; now left).
    unfold select_polls in Hr. apply filter_In in Hr. destruct Hr as [_ Hr].
    apply andb_prop in Hr. destruct Hr as [_ Hr]. apply andb_prop in Hr. exact (proj2 Hr).
Qed.

(** C7, as stated, fails: for the poll without owner that the setup script
    inserts, [generateShareLink] returns a token, the update reaches no row,
    and the token leads to no poll. *)
Lemma generateShareLink_every_poll_counterexample :
  ~ (forall (rnd : Entropy) (s s1 : Supabase) (p : Polls.row) (t : string),
        In p (polls s) ->
        generateShareLink rnd s (Polls.id p) = (Returns (Some t), s1) ->
        exists q, getPollByShareToken s1 t = Returns (Some q) /\ Poll.id q = Polls.id p).
Proof.
  intros H.
  destruct (H Sample.entropy Sample.legacy Sample.legacy Sample.legacy_poll
              "0000000000000000ab54a98ceb1f0ad2") as (q & Hq & _).
  - now left.
  - reflexivity.
  - vm_compute in Hq. discriminate.
Qed.

(** C7, amended.  For every poll owned by the signed-in caller, on an
    available database whose poll identifiers are distinct and where no other
    poll holds the drawn token: [generateShareLink] returns the token, a
    [getPollByShareToken] with it returns that poll, now public and carrying
    the token; after [disableSharing] the same lookup returns [null].
    Whatever the state, [getPollByShareToken] only returns public polls. *)
Theorem share_link_round_trip (rnd : Entropy) (s : Supabase) (p : Polls.row) :
  health s = None -> NoDup (map Polls.id (polls s)) ->
  In p (polls s) -> polls_owner_policy s p = true ->
  (forall q, In q (polls s) -> Polls.id q <> Polls.id p ->
             token_is (generate_share_token rnd) q = false) ->
  exists s1 s2,
    generateShareLink rnd s (Polls.id p) = (Returns (Some (generate_share_token rnd)), s1)
    /\ getPollByShareToken s1 (generate_share_token rnd)
       = Returns (Some (to_Poll (set_sharing true (Some (generate_share_token rnd)) p)))
    /\ disableSharing s1 (Polls.id p) = (Returns tt, s2)
    /\ getPollByShareToken s2 (generate_share_token rnd) = Returns None
    /\ (forall s' t q, getPollByShareToken s' t = Returns (Some q) -> Poll.is_public q = true).
Proof.
  intros Hh Hnd Hp Ho Hfree. set (t := generate_share_token rnd) in *.
  exists (updated s (Polls.id p) true (Some t)).
  exists (updated (updated s (Polls.id p) true (Some t)) (Polls.id p) false None).
  assert (Hl : (String.length t <= 32)%nat).
  { unfold t, generate_share_token. rewrite encode_hex_length. simpl. lia. }
  split; [|split; [|split; [|split]]].
  - unfold generateShareLink, query, mutate. rewrite Hh. fold t. cbv beta iota.
    rewrite (update_sharing_owner s p true (Some t)); [reflexivity|].
    intros t' [= <-]. split; [exact Hl | exact Hfree].
  - unfold getPollByShareToken, query. cbn [health updated with_polls]. rewrite Hh.
    now rewrite select_by_token_after_share.
  - unfold disableSharing, mutate. cbn [health updated with_polls]. rewrite Hh.
    change (Polls.id p) with (Polls.id (set_sharing true (Some t) p)) at 1 2.
    rewrite (update_sharing_owner _ (set_sharing true (Some t) p) false None); [reflexivity|].
    intros t' [=].
  - unfold getPollByShareToken, query. cbn [health updated with_polls]. rewrite Hh.
    now rewrite select_by_token_after_unshare.
  - exact getPollByShareToken_public.
Qed.

Lemma share_link_round_trip_witness :
  exists s1 s2,
    generateShareLink Sample.entropy Sample.created 1%nat
    = (Returns (Some "0000000000000000ab54a98ceb1f0ad2"), s1)
    /\ getPollByShareToken s1 "0000000000000000ab54a98ceb1f0ad2"
       = Returns (Some (to_Poll Sample.shared_poll))
    /\ disableSharing s1 1%nat = (Returns tt, s2)
    /\ getPollByShareToken s2 "0000000000000000ab54a98ceb1f0ad2" = Returns None.
Proof.
  destruct (share_link_round_trip Sample.entropy Sample.created
              (set_sharing false None Sample.shared_poll))
    as (s1 & s2 & H1 & H2 & H3 & H4 & _).
  - reflexivity.
  - vm_compute. constructor; [intros [] | constructor].
  - vm_compute. now left.
  - reflexivity.
  - intros q [<-|[]] Hne. now elim Hne.
  - exists s1, s2. repeat split; assumption.
Defined.

(** ** Reading statistics from an unavailable database *)

Lemma get_poll_statistics_no_votes (s : Supabase) (pollId : uuid) :
  votes_of s pollId = [] -> get_poll_statistics s pollId = [].
Proof.
  intros H. unfold get_poll_statistics, vote_counts. rewrite H. reflexivity.
Qed.

(** C9.  While the database is unavailable, whether it answers with an error
    object or not at all, [getPollStatistics] returns the empty list and
    [getPollTotalVotes] returns 0; these are the values that an available
    database gives for a poll without votes. *)
Theorem statistics_reads_mask_failures (s : Supabase) (pollId : uuid) (f : Failure) :
  health s = Some f ->
  getPollStatistics s pollId = []
  /\ getPollTotalVotes s pollId = 0
  /\ forall s', health s' = None -> votes_of s' pollId = [] ->
                getPollStatistics s' pollId = getPollStatistics s pollId
                /\ getPollTotalVotes s' pollId = getPollTotalVotes s pollId.
Proof.
  intros H.
  assert (A : getPollStatistics s pollId = [])
    by (unfold getPollStatistics, query; rewrite H; now destruct f).
  assert (B : getPollTotalVotes s pollId = 0)
    by (unfold getPollTotalVotes, query; rewrite H; now destruct f).
  split; [exact A|]. split; [exact B|]. intros s' Hs' Hv. split.
  - rewrite A. unfold getPollStatistics, query. rewrite Hs'. simpl.
    now apply get_poll_statistics_no_votes.
  - rewrite B. unfold getPollTotalVotes, query, get_poll_total_votes. rewrite Hs', Hv. reflexivity.
Qed.

Lemma statistics_reads_mask_failures_witness :
  getPollStatistics Sample.offline 1%nat = getPollStatistics Sample.shared 1%nat
  /\ getPollTotalVotes Sample.offline 1%nat = getPollTotalVotes Sample.shared 1%nat
  /\ getPollStatistics Sample.offline 1%nat = [].
Proof.
  destruct (statistics_reads_mask_failures Sample.offline 1%nat
              (Unreachable "TypeError: Failed to fetch") eq_refl) as (A & _ & C).
  destruct (C Sample.shared eq_refl eq_refl) as [E1 E2].
  split; [now symmetry|]. split; [now symmetry | exact A].
Defined.

(** ** The winning option *)










(** The dashboard picks the same entry as the public page; its result only
    lacks the option index. *)
Lemma UserDashboard_getWinningOption_agrees (poll : PollWithStats.t) :
  UserDashboard.getWinningOption poll
  = option_map (fun w => {| UserDashboard.option' := PublicPollPage.option' w;
                            UserDashboard.votes := PublicPollPage.votes w;
                            UserDashboard.percentage := PublicPollPage.percentage w |})
               (PublicPollPage.getWinningOption (Some poll)).
Proof.
  unfold UserDashboard.getWinningOption, PublicPollPage.getWinningOption.
  destruct (List.length (PollWithStats.statistics poll) =? 0)%nat; [reflexivity|].
  destruct (find _ (PollWithStats.statistics poll)); [|reflexivity].
  destruct (Math_max _) as [[|m|m]|]; reflexivity.
Qed.

(** ** Statistics: order and entries *)

Lemma insert_by_option_index_perm (r : PollStatistics.t) (rows : list PollStatistics.t) :
  Permutation (insert_by_option_index r rows) (r :: rows).
Proof.
  induction rows as [|a rows IH]; simpl; [reflexivity|].
  destruct (PollStatistics.option_index r <=? PollStatistics.option_index a); [reflexivity|].
  rewrite IH. apply perm_swap.
Qed.

Lemma order_by_option_index_perm (rows : list PollStatistics.t) :
  Permutation (order_by_option_index rows) rows.
Proof.
  induction rows as [|a rows IH]; simpl; [reflexivity|].
  rewrite insert_by_option_index_perm. now constructor.
Qed.

Lemma insert_by_option_index_sorted (r : PollStatistics.t) (rows : list PollStatistics.t) :
  StronglySorted (fun a b => PollStatistics.option_index a < PollStatistics.option_index b) rows ->
  (forall x, In x rows -> PollStatistics.option_index x <> PollStatistics.option_index r) ->
  StronglySorted (fun a b => PollStatistics.option_index a < PollStatistics.option_index b)
                 (insert_by_option_index r rows).
Proof.
  induction rows as [|a rows IH]; intros HS Hne; simpl.
  - constructor; constructor.
  - apply StronglySorted_inv in HS. destruct HS as [HS HF]. rewrite Forall_forall in HF.
    destruct (PollStatistics.option_index r <=? PollStatistics.option_index a) eqn:E.
    + apply Z.leb_le in E.
      assert (PollStatistics.option_index a <> PollStatistics.option_index r)
        by (apply Hne; now left).
      constructor; [constructor; [exact HS | now apply Forall_forall]|].
      apply Forall_forall. intros x [<-|Hx]; [lia|]. specialize (HF x Hx). lia.
    + apply Z.leb_gt in E. constructor.
      * apply IH; [exact HS|]. intros x Hx. apply Hne. now right.
      * apply Forall_forall. intros x Hx.
        apply (Permutation_in _ (insert_by_option_index_perm r rows)) in Hx.
        destruct Hx as [<-|Hx]; [lia | now apply HF].
Qed.

Lemma order_by_option_index_sorted (rows : list PollStatistics.t) :
  NoDup (map PollStatistics.option_index rows) ->
  StronglySorted (fun a b => PollStatistics.option_index a < PollStatistics.option_index b)
                 (order_by_option_index rows).
Proof.
  induction rows as [|a rows IH]; intros Hnd; simpl; [constructor|].
  inversion Hnd as [|x xs Hnotin Hnd']; subst.
  apply insert_by_option_index_sorted; [now apply IH|].
  intros x Hx Heq. apply Hnotin. rewrite <- Heq. apply in_map.
  now apply (Permutation_in _ (order_by_option_index_perm rows)).
Qed.

(** The rows of [get_poll_statistics] before they are ordered. *)
Lemma get_poll_statistics_perm (s : Supabase) (poll_uuid : uuid) :
  let chosen := map Votes.option_index (votes_of s poll_uuid) in
  let total := total_votes (vote_counts s poll_uuid) in
  Permutation
    (get_poll_statistics s poll_uuid)
    (map (fun k =>
            {| PollStatistics.option_index := k;
               PollStatistics.vote_count := Z.of_nat (count_occ Z.eq_dec chosen k);
               PollStatistics.percentage :=
                 if 0 <? total
                 then ROUND ((inject_Z (Z.of_nat (count_occ Z.eq_dec chosen k)) / inject_Z total) * 100) 2
                 else 0 # 100 |})
         (nodup Z.eq_dec chosen)).
Proof.
  intros chosen total. unfold get_poll_statistics.
  rewrite order_by_option_index_perm. unfold vote_counts. rewrite map_map. reflexivity.
Qed.

Lemma get_poll_statistics_indexes (s : Supabase) (poll_uuid : uuid) :
  Permutation (map PollStatistics.option_index (get_poll_statistics s poll_uuid))
              (nodup Z.eq_dec (map Votes.option_index (votes_of s poll_uuid))).
Proof.
  rewrite (Permutation_map _ (get_poll_statistics_perm s poll_uuid)).
  rewrite map_map. simpl. now rewrite map_id.
Qed.

Lemma get_poll_statistics_sorted (s : Supabase) (poll_uuid : uuid) :
  StronglySorted (fun a b => PollStatistics.option_index a < PollStatistics.option_index b)
                 (get_poll_statistics s poll_uuid).
Proof.
  unfold get_poll_statistics. apply order_by_option_index_sorted.
  unfold vote_counts. rewrite !map_map.
  rewrite (map_ext _ (fun k => k)) by reflexivity. rewrite map_id. apply NoDup_nodup.
Qed.

(** C4, as stated, fails: after one vote for option A of the sample poll the
    statistics have no entry for option B. *)
Lemma get_poll_statistics_every_option_counterexample :
  ~ (forall (s : Supabase) (p : Polls.row) (k : Z),
        In p (polls s) -> 0 <= k < Z.of_nat (List.length (Polls.options p)) ->
        In k (map PollStatistics.option_index (get_poll_statistics s (Polls.id p)))).
Proof.
  intros H.
  assert (K : In 1 (map PollStatistics.option_index
                        (get_poll_statistics Sample.one_vote (Polls.id Sample.shared_poll)))).
  { apply H; [now left | simpl; lia]. }
  vm_compute in K. destruct K as [K|K]; [discriminate | exact K].
Qed.


(** For a public poll that the caller sees, and for the caller's own poll,
    the statistics run over all the votes of the poll. *)
Lemma votes_of_visible_poll (s : Supabase) (p : Polls.row) :
  In p (polls s) -> polls_select_using s p = true ->
  Polls.is_public p || is_auth_uid s (Polls.user_id p) = true ->
  votes_of s (Polls.id p) = filter (fun v => (Votes.poll_id v =? Polls.id p)%nat) (votes s).
Proof.
  intros Hin Hsel Hvis. unfold votes_of. apply filter_ext_in. intros v _.
  destruct (Votes.poll_id v =? Polls.id p)%nat eqn:E; [|apply andb_false_r].
  rewrite andb_true_r. unfold votes_select_using. apply existsb_exists.
  exists p. split; [exact Hin|]. apply Nat.eqb_eq in E.
  now rewrite Hsel, E, Nat.eqb_refl, Hvis.
Qed.

(** ** Statistics: counts and percentages *)

Lemma COALESCE_SUM (xs : list Z) : COALESCE (SUM xs) 0 = fold_right Z.add 0 xs.
Proof.
  destruct xs; reflexivity.
Qed.

Lemma sum_count_occ_cons (K : list Z) (x : Z) (l : list Z) :
  NoDup K ->
  fold_right Z.add 0 (map (fun k => Z.of_nat (count_occ Z.eq_dec (x :: l) k)) K)
  = fold_right Z.add 0 (map (fun k => Z.of_nat (count_occ Z.eq_dec l k)) K)
    + (if in_dec Z.eq_dec x K then 1 else 0).
Proof.
  induction K as [|k K IH]; intros Hnd; [reflexivity|].
  inversion Hnd as [|y ys Hnotin Hnd']; subst.
  cbn [map fold_right]. rewrite (IH Hnd'). cbn [count_occ].
  destruct (Z.eq_dec x k) as [->|Hne].
  - destruct (in_dec Z.eq_dec k K); [contradiction|].
    destruct (in_dec Z.eq_dec k (k :: K)) as [_|Hn]; [lia | elim Hn; now left].
  - destruct (in_dec Z.eq_dec x K) as [Hin|Hin];
      destruct (in_dec Z.eq_dec x (k :: K)) as [Hin'|Hin']; try lia.
    + elim Hin'. now right.
    + destruct Hin' as [->|Hin']; [congruence | contradiction].
Qed.

(** The counts of the groups of [GROUP BY] add up to the number of rows. *)
Lemma sum_count_occ_nodup (l : list Z) :
  fold_right Z.add 0 (map (fun k => Z.of_nat (count_occ Z.eq_dec l k)) (nodup Z.eq_dec l))
  = Z.of_nat (List.length l).
Proof.
  induction l as [|x l IH]; [reflexivity|].
  cbn [nodup]. destruct (in_dec Z.eq_dec x l) as [Hin|Hin].
  - rewrite sum_count_occ_cons by apply NoDup_nodup. rewrite IH.
    destruct (in_dec Z.eq_dec x (nodup Z.eq_dec l)) as [_|Hn].
    + cbn [List.length]. lia.
    + elim Hn. now apply nodup_In.
  - cbn [map fold_right]. rewrite sum_count_occ_cons by apply NoDup_nodup. rewrite IH.
    destruct (in_dec Z.eq_dec x (nodup Z.eq_dec l)) as [Hn|_].
    + apply nodup_In in Hn. contradiction.
    + cbn [count_occ]. destruct (Z.eq_dec x x); [|congruence].
      rewrite (proj1 (count_occ_not_In Z.eq_dec l x) Hin). cbn [List.length]. lia.
Qed.

(** The CTE [total_votes] and [get_poll_total_votes] count the same votes. *)
Lemma total_votes_is_get_poll_total_votes (s : Supabase) (poll_uuid : uuid) :
  total_votes (vote_counts s poll_uuid) = get_poll_total_votes s poll_uuid.
Proof.
  unfold total_votes, vote_counts, get_poll_total_votes.
  rewrite COALESCE_SUM, map_map. cbn [snd].
  rewrite sum_count_occ_nodup. now rewrite length_map.
Qed.

Lemma round_half_away_spec (y : Q) : (Qabs (inject_Z (round_half_away y) - y) <= 1 # 2)%Q.
Proof.
  destruct y as [n d]. apply Qabs_Qle_condition.
  unfold round_half_away. cbn [Qnum Qden].
  set (q := (2 * Z.abs n + Z.pos d) / (2 * Z.pos d)).
  assert (H1 : 2 * Z.pos d * q <= 2 * Z.abs n + Z.pos d) by (apply Z.mul_div_le; lia).
  assert (H2 : 2 * Z.abs n + Z.pos d < 2 * Z.pos d * (q + 1)).
  { unfold q. rewrite Z.mul_add_distr_l, Z.mul_1_r.
    pose proof (Z.mod_pos_bound (2 * Z.abs n + Z.pos d) (2 * Z.pos d)).
    pose proof (Z.div_mod (2 * Z.abs n + Z.pos d) (2 * Z.pos d)). lia. }
  clearbody q.
  unfold Qle, Qminus, Qplus, Qopp, inject_Z. cbn [Qnum Qden].
  destruct n as [|n|n]; cbn [Z.sgn Z.abs] in *; split; lia.
Qed.

Lemma ROUND_spec (x : Q) (digits : nat) :
  (Qabs (ROUND x digits - x) <= 1 # (2 * Z.to_pos (10 ^ Z.of_nat digits)))%Q.
Proof.
  unfold ROUND. set (scale := Z.to_pos (10 ^ Z.of_nat digits)).
  pose proof (round_half_away_spec (x * inject_Z (Z.pos scale))) as H.
  set (r := round_half_away (x * inject_Z (Z.pos scale))) in *. clearbody r.
  apply Qabs_Qle_condition in H. apply Qabs_Qle_condition.
  assert (E : (r # scale == inject_Z r / inject_Z (Z.pos scale))%Q).
  { rewrite Qmake_Qdiv. reflexivity. }
  assert (P : (0 < inject_Z (Z.pos scale))%Q) by (unfold Qlt; simpl; lia).
  assert (F : ((1 # (2 * scale)) == (1 # 2) / inject_Z (Z.pos scale))%Q).
  { unfold Qeq, Qdiv, Qmult, Qinv, inject_Z; simpl. lia. }
  rewrite E, F.
  set (S := inject_Z (Z.pos scale)) in *. clearbody S.
  assert (I : (0 <= / S)%Q) by (apply Qinv_le_0_compat; lra).
  assert (T : (inject_Z r / S - x == (inject_Z r - x * S) * / S)%Q) by (field; lra).
  assert (U : ((1 # 2) / S == (1 # 2) * / S)%Q) by reflexivity.
  rewrite T, U. destruct H as [Ha Hb].
  split.
  - setoid_replace (- ((1 # 2) * / S))%Q with ((- (1 # 2)) * / S)%Q by ring.
    apply Qmult_le_compat_r; assumption.
  - apply Qmult_le_compat_r; assumption.
Qed.

Lemma Qsum_perm (l l' : list Q) : Permutation l l' -> (Qsum l == Qsum l')%Q.
Proof.
  induction 1; simpl; try lra. 
Qed.

Lemma Qsum_close {A : Type} (p x : A -> Q) (l : list A) (eps : Q) :
  (forall a, In a l -> (Qabs (p a - x a) <= eps)%Q) ->
  (Qabs (Qsum (map p l) - Qsum (map x l)) <= inject_Z (Z.of_nat (List.length l)) * eps)%Q.
Proof.
  induction l as [|a l IH]; intros H.
  - cbn [map Qsum fold_right List.length].
    change (inject_Z (Z.of_nat 0)) with 0%Q. apply Qabs_Qle_condition. lra.
  - assert (Ha := H a (or_introl eq_refl)).
    assert (Hl := IH (fun b Hb => H b (or_intror Hb))).
    apply Qabs_Qle_condition in Ha, Hl. apply Qabs_Qle_condition.
    cbn [map Qsum fold_right List.length]. fold (Qsum (map p l)) (Qsum (map x l)).
    rewrite Nat2Z.inj_succ, <- Z.add_1_r, inject_Z_plus.
    set (N := inject_Z (Z.of_nat (List.length l))) in *.
    setoid_replace ((N + inject_Z 1) * eps)%Q with (N * eps + eps)%Q by (unfold inject_Z; ring).
    set (M := (N * eps)%Q) in *. clearbody M. lra.
Qed.

Lemma Qsum_shares (cs : list Z) (total : Z) :
  0 < total ->
  (Qsum (map (fun c => inject_Z c / inject_Z total * 100) cs)
   == inject_Z (fold_right Z.add 0%Z cs) / inject_Z total * 100)%Q.
Proof.
  intros Ht.
  assert (Hn : ~ (inject_Z total == 0)%Q) by (unfold Qeq, inject_Z; simpl; lia).
  induction cs as [|c cs IH]; cbn [map Qsum fold_right].
  - field. exact Hn.
  - fold (Qsum (map (fun c => inject_Z c / inject_Z total * 100) cs))%Q.
    rewrite IH, inject_Z_plus. field. exact Hn.
Qed.


(** ** The scenario of three votes *)

Lemma castVote_fresh_session (s : Supabase) (p : Polls.row) (i : Z) (voterSession : string) :
  health s = None -> is_int4 i = true -> (String.length voterSession <= 255)%nat ->
  In p (polls s) -> Polls.is_public p = true -> polls_select_using s p = true ->
  ballots s (Polls.id p) voterSession = [] ->
  castVote s (Polls.id p) i voterSession
  = (Returns tt, with_votes s (votes s ++ [new_vote s (Polls.id p) i voterSession])).
Proof.
  intros Hh Hi Hl Hin Hpub Hsel Hb. unfold castVote, mutate.
  now rewrite Hh, (insert_vote_accepted s (Polls.id p) i voterSession p).
Qed.

Lemma ballots_after_other_session (s : Supabase) (pollId : uuid) (i : Z) (a b : string) :
  (String.length a <= 255)%nat -> (String.length b <= 255)%nat -> a <> b ->
  ballots s pollId b = [] ->
  ballots (with_votes s (votes s ++ [new_vote s pollId i a])) pollId b = [].
Proof.
  intros Ha Hb Hne H. unfold ballots in *. cbn [votes with_votes]. rewrite filter_app, H.
  cbn [filter new_vote Votes.poll_id Votes.voter_session app].
  rewrite (varchar_fits _ _ Hb), (proj2 (String.eqb_neq a b) Hne).
  now rewrite andb_false_r.
Qed.

Lemma votes_of_after_vote (s : Supabase) (p : Polls.row) (i : Z) (a : string) :
  In p (polls s) -> Polls.is_public p = true -> polls_select_using s p = true ->
  votes_of (with_votes s (votes s ++ [new_vote s (Polls.id p) i a])) (Polls.id p)
  = votes_of s (Polls.id p) ++ [new_vote s (Polls.id p) i a].
Proof.
  intros Hin Hpub Hsel. unfold votes_of. cbn [votes with_votes]. rewrite filter_app.
  f_equal. cbn [filter].
  replace (votes_select_using _ (new_vote s (Polls.id p) i a)) with true.
  - cbn [new_vote Votes.poll_id]. now rewrite Nat.eqb_refl.
  - symmetry. unfold votes_select_using. apply existsb_exists. exists p.
    split; [exact Hin|]. cbn [new_vote Votes.poll_id].
    replace (polls_select_using _ p) with (polls_select_using s p) by reflexivity.
    now rewrite Hsel, Nat.eqb_refl, Hpub.
Qed.

(** C8.  In a public poll with the options A and B that has no votes yet,
    three sessions, distinct from one another, vote for the option indexes 0,
    0 and 1.  The three votes are stored; the statistics are then
    (0, 2, 66.67) and (1, 1, 33.33), the total is 3 and the winning option is
    option 0, A. *)
Theorem three_votes_scenario (s : Supabase) (p : Polls.row) (a b c : string) :
  health s = None ->
  In p (polls s) -> Polls.options p = ["A"; "B"] ->
  Polls.is_public p = true -> polls_select_using s p = true ->
  (forall v, In v (votes s) -> Votes.poll_id v <> Polls.id p) ->
  a <> b -> a <> c -> b <> c ->
  (String.length a <= 255)%nat -> (String.length b <= 255)%nat -> (String.length c <= 255)%nat ->
  exists s1 s2 s3,
    castVote s (Polls.id p) 0 a = (Returns tt, s1)
    /\ castVote s1 (Polls.id p) 0 b = (Returns tt, s2)
    /\ castVote s2 (Polls.id p) 1 c = (Returns tt, s3)
    /\ getPollStatistics s3 (Polls.id p)
       = [ {| PollStatistics.option_index := 0;
              PollStatistics.vote_count := 2;
              PollStatistics.percentage := 6667 # 100 |};
           {| PollStatistics.option_index := 1;
              PollStatistics.vote_count := 1;
              PollStatistics.percentage := 3333 # 100 |} ]
    /\ getPollTotalVotes s3 (Polls.id p) = 3
    /\ PublicPollPage.getWinningOption (Some (with_stats s3 (to_Poll p) None))
       = Some {| PublicPollPage.option' := Some "A";
                 PublicPollPage.optionIndex := 0;
                 PublicPollPage.votes := 2;
                 PublicPollPage.percentage := 6667 # 100 |}.
Proof.
  intros Hh Hin Hopt Hpub Hsel Hnone Hab Hac Hbc La Lb Lc.
  set (s1 := with_votes s (votes s ++ [new_vote s (Polls.id p) 0 a])).
  set (s2 := with_votes s1 (votes s1 ++ [new_vote s1 (Polls.id p) 0 b])).
  set (s3 := with_votes s2 (votes s2 ++ [new_vote s2 (Polls.id p) 1 c])).
  assert (B0 : forall x, ballots s (Polls.id p) x = []).
  { intros x. unfold ballots. apply filter_none. intros v Hv.
    now rewrite (proj2 (Nat.eqb_neq _ _) (Hnone v Hv)). }
  assert (V0 : votes_of s (Polls.id p) = []).
  { unfold votes_of. apply filter_none. intros v Hv.
    rewrite (proj2 (Nat.eqb_neq _ _) (Hnone v Hv)). apply andb_false_r. }
  assert (V3 : votes_of s3 (Polls.id p)
               = [new_vote s (Polls.id p) 0 a; new_vote s1 (Polls.id p) 0 b;
                  new_vote s2 (Polls.id p) 1 c]).
  { unfold s3. rewrite (votes_of_after_vote s2 p) by assumption.
    unfold s2. rewrite (votes_of_after_vote s1 p) by assumption.
    unfold s1. rewrite (votes_of_after_vote s p) by assumption.
    now rewrite V0. }
  assert (S3 : get_poll_statistics s3 (Polls.id p)
               = [ {| PollStatistics.option_index := 0;
                      PollStatistics.vote_count := 2;
                      PollStatistics.percentage := 6667 # 100 |};
                   {| PollStatistics.option_index := 1;
                      PollStatistics.vote_count := 1;
                      PollStatistics.percentage := 3333 # 100 |} ]).
  { unfold get_poll_statistics, vote_counts. rewrite V3. reflexivity. }
  exists s1, s2, s3. split; [|split; [|split; [|split; [|split]]]].
  - now apply castVote_fresh_session.
  - apply (castVote_fresh_session s1 p); try assumption; try reflexivity.
    unfold s1. now apply ballots_after_other_session.
  - apply (castVote_fresh_session s2 p); try assumption; try reflexivity.
    unfold s2. apply ballots_after_other_session; try assumption.
    unfold s1. now apply ballots_after_other_session.
  - unfold getPollStatistics, query. cbn [health s3 s2 s1 with_votes]. rewrite Hh.
    exact S3.
  - unfold getPollTotalVotes, query, get_poll_total_votes. cbn [health s3 s2 s1 with_votes].
    now rewrite Hh, V3.
  - unfold with_stats, PublicPollPage.getWinningOption.
    change (Poll.id (to_Poll p)) with (Polls.id p).
    cbn [PollWithStats.statistics PollWithStats.options PollWithStats.poll].
    unfold getPollStatistics, query. cbn [health s3 s2 s1 with_votes]. rewrite Hh.
    cbn [COALESCE]. rewrite S3.
    cbv [PollWithStats.options PollWithStats.poll to_Poll Poll.options]. rewrite Hopt.
    reflexivity.
Qed.

Lemma three_votes_scenario_witness :
  exists s3,
    getPollStatistics s3 1%nat
    = [ {| PollStatistics.option_index := 0;
           PollStatistics.vote_count := 2;
           PollStatistics.percentage := 6667 # 100 |};
        {| PollStatistics.option_index := 1;
           PollStatistics.vote_count := 1;
           PollStatistics.percentage := 3333 # 100 |} ]
    /\ getPollTotalVotes s3 1%nat = 3.
Proof.
  destruct (three_votes_scenario Sample.shared Sample.shared_poll "voter_1" "voter_2" "voter_3")
    as (s1 & s2 & s3 & _ & _ & _ & Hs & Ht & _);
    try reflexivity; try discriminate; try (simpl; lia).
  - now left.
  - exists s3. split; [exact Hs | exact Ht].
Defined.

(** * Further properties of the code *)

(** ** Editing a poll *)

Lemma filter_all {A : Type} (f : A -> bool) (l : list A) :
  (forall x, In x l -> f x = true) -> filter f l = l.
Proof.
  induction l as [|a l IH]; intros H; simpl; [reflexivity|].
  rewrite (H a) by now left. f_equal. apply IH. intros x Hx. apply H. now right.
Qed.

(** With the primary key, the caller's update reaches the one row it owns. *)
Lemma update_target_rows (s : Supabase) (p : Polls.row) :
  NoDup (map Polls.id (polls s)) -> In p (polls s) -> polls_owner_policy s p = true ->
  filter (update_target s (Polls.id p)) (polls s) = [p].
Proof.
  intros Hnd Hin Ho.
  rewrite <- (map_id (polls s)) at 1.
  apply (filter_map_single (update_target s (Polls.id p)) (fun x => x) (polls s) p).
  - exact Hin.
  - now apply update_target_owner.
  - intros q Hq Hne. apply update_target_other. intros E. apply Hne.
    now apply (primary_key (polls s)).
  - intros q Hq. destruct (Nat.eq_dec (Polls.id q) (Polls.id p)) as [E|E].
    + left. now apply (primary_key (polls s)).
    + right. intros ->. now apply E.
  - now apply NoDup_map_inv_rows.
Qed.

Lemma update_target_none (s : Supabase) (pollId : uuid) :
  (forall p, In p (polls s) -> update_target s pollId p = false) ->
  filter (update_target s pollId) (polls s) = [].
Proof.
  intros H. now apply filter_none.
Qed.

Lemma new_row_error_valid (s : Supabase) (p : Polls.row) (question : string) (options : list string) :
  polls_owner_policy s p = true ->
  (5 <= String.length (js_trim question))%nat -> (2 <= List.length options)%nat ->
  new_row_error s (set_content (js_trim question) options p) = None.
Proof.
  intros Ho Hq Hn. unfold new_row_error, polls_owner_policy, polls_select_using in *.
  cbn [set_content Polls.user_id]. rewrite Ho. cbn [negb orb].
  unfold polls_options_check, polls_question_check.
  cbn [set_content Polls.options Polls.question].
  rewrite array_length_cons by (destruct options; simpl in *; [lia | congruence]).
  rewrite sql_trim_js_trim. unfold sql_ge, sql_length, check_passes.
  rewrite (proj2 (Z.leb_le 2 _)) by lia. rewrite (proj2 (Z.leb_le 5 _)) by lia.
  reflexivity.
Qed.

Lemma new_row_error_invalid (s : Supabase) (p : Polls.row) (question : string) (options : list string) :
  (String.length (js_trim question) < 5)%nat \/ List.length options = 1%nat ->
  exists e, new_row_error s (set_content (js_trim question) options p) = Some e.
Proof.
  intros H. unfold new_row_error.
  destruct (negb (polls_owner_policy s _)); [eauto|].
  unfold polls_options_check, polls_question_check. cbn [set_content Polls.options Polls.question].
  destruct (check_passes (sql_ge (array_length options) 2)) eqn:Eo; cbn [negb]; [|eauto].
  destruct H as [H|H].
  - rewrite sql_trim_js_trim. unfold sql_length, sql_ge, check_passes.
    rewrite (proj2 (Z.leb_gt _ _)) by lia. cbn [negb]. eauto.
  - destruct options as [|o [|o' l]]; discriminate.
Qed.

(** The row that an update of the content leaves in place of [p]. *)
Lemma select_updated_poll (s : Supabase) (p : Polls.row) (f : Polls.row -> Polls.row) :
  NoDup (map Polls.id (polls s)) -> In p (polls s) -> polls_owner_policy s p = true ->
  (forall q, Polls.id (f q) = Polls.id q) -> (forall q, Polls.user_id (f q) = Polls.user_id q) ->
  select_polls (with_polls s (map (fun q => if update_target s (Polls.id p) q then f q else q)
                                  (polls s)))
               (fun q => (Polls.id q =? Polls.id p)%nat)
  = [f p].
Proof.
  intros Hnd Hin Ho Hid Hu. unfold select_polls. cbn [polls with_polls].
  rewrite (filter_map_single _ _ (polls s) p).
  - now rewrite (update_target_owner s p Ho).
  - exact Hin.
  - rewrite (update_target_owner s p Ho). rewrite Hid, Nat.eqb_refl, andb_true_r.
    unfold polls_select_using. rewrite Hu. unfold polls_owner_policy in Ho.
    replace (is_auth_uid (with_polls s _) (Polls.user_id p)) with (is_auth_uid s (Polls.user_id p))
      by reflexivity.
    now rewrite Ho.
  - intros q Hq Hne.
    assert (E : Polls.id q <> Polls.id p).
    { intros E. apply Hne. now apply (primary_key (polls s)). }
    rewrite (update_target_other s _ q E). rewrite (proj2 (Nat.eqb_neq _ _) E).
    apply andb_false_r.
  - intros q Hq. destruct (Nat.eq_dec (Polls.id q) (Polls.id p)) as [E|E].
    + left. now apply (primary_key (polls s)).
    + right. intros ->. now apply E.
  - now apply NoDup_map_inv_rows.
Qed.

(** X1.  The owner of a poll edits it: with a question of at least 5
    characters after trimming and at least 2 non-blank options, [updatePoll]
    stores the trimmed question and the non-blank options in their order,
    keeps the identifier, the owner, the creation time, the visibility and the
    share token of the row, and a later [getPollById] returns the edited
    poll. *)
Theorem updatePoll_by_owner (s : Supabase) (p : Polls.row) (question : string) (options : list string) :
  health s = None -> NoDup (map Polls.id (polls s)) ->
  In p (polls s) -> polls_owner_policy s p = true ->
  (5 <= String.length (js_trim question))%nat ->
  (2 <= List.length (filter non_blank options))%nat ->
  exists s',
    updatePoll s (Polls.id p) question options
    = (Returns (to_Poll (set_content (js_trim question) (filter non_blank options) p)), s')
    /\ getPollById s' (Polls.id p)
       = Returns (Some (to_Poll (set_content (js_trim question) (filter non_blank options) p)))
    /\ votes s' = votes s
    /\ forall q, In q (polls s) -> Polls.id q <> Polls.id p -> In q (polls s').
Proof.
  intros Hh Hnd Hin Ho Hq Hn.
  set (edit := set_content (js_trim question) (filter non_blank options)).
  set (s' := with_polls s (map (fun q => if update_target s (Polls.id p) q then edit q else q)
                               (polls s))).
  exists s'.
  assert (U : update_poll s (Polls.id p) (js_trim question) (filter non_blank options)
              = inr (Some (edit p), s')).
  { unfold update_poll. rewrite (update_target_rows s p Hnd Hin Ho). cbn [map first_error].
    unfold edit. rewrite new_row_error_valid by assumption. reflexivity. }
  split; [|split; [|split]].
  - unfold updatePoll, mutate. rewrite (checkTableExists_available s Hh), Hh, U. reflexivity.
  - unfold getPollById. rewrite checkTableExists_available by exact Hh. cbn [negb].
    unfold query. change (health s') with (health s). rewrite Hh. unfold s'.
    rewrite (select_updated_poll s p edit) by (auto; reflexivity).
    reflexivity.
  - reflexivity.
  - intros q Hq' Hne. unfold s'. cbn [polls with_polls]. apply in_map_iff. exists q. split; [|exact Hq'].
    now rewrite (update_target_other s _ q Hne).
Qed.

Lemma updatePoll_by_owner_witness :
  exists s',
    updatePoll Sample.shared 1%nat "  A, B or C?  " ["A"; ""; "B"; "C"]
    = (Returns (to_Poll (set_content "A, B or C?" ["A"; "B"; "C"] Sample.shared_poll)), s').
Proof.
  destruct (updatePoll_by_owner Sample.shared Sample.shared_poll "  A, B or C?  " ["A"; ""; "B"; "C"])
    as (s' & H & _).
  - reflexivity.
  - vm_compute. constructor; [intros [] | constructor].
  - now left.
  - reflexivity.
  - simpl. lia.
  - simpl. lia.
  - exists s'. exact H.
Defined.

(** The two ways in which [updatePoll] ends. *)
Lemma updatePoll_cases (s : Supabase) (id : uuid) (question : string) (options : list string) :
  (exists m, updatePoll s id question options = (Throws m, s))
  \/ (exists r,
        updatePoll s id question options
        = (Returns (to_Poll r),
           with_polls s (map (fun p => if update_target s id p
                                       then set_content (js_trim question) (filter non_blank options) p
                                       else p)
                             (polls s)))
        /\ health s = None
        /\ map (set_content (js_trim question) (filter non_blank options))
               (filter (update_target s id) (polls s)) = [r]
        /\ new_row_error s r = None).
Proof.
  unfold updatePoll. destruct (checkTableExists s); cbn [negb]; [|eauto].
  unfold mutate. destruct (health s) as [[e|m]|]; [eauto | eauto |].
  unfold update_poll.
  destruct (first_error _ _) as [e|] eqn:Ef; [eauto|].
  destruct (map _ (filter _ (polls s))) as [|r [|r' l]] eqn:Er; [eauto | | eauto].
  right. exists r. repeat split. simpl in Ef. now destruct (new_row_error s r).
Qed.

(** X2.  [updatePoll] throws and leaves the database as it was when no row
    with the identifier is within the caller's reach (no such poll, or a poll
    of somebody else), when the trimmed question has fewer than 5 characters,
    and when exactly one non-blank option remains. *)
Theorem updatePoll_refused (s : Supabase) (id : uuid) (question : string) (options : list string) :
  (forall p, In p (polls s) -> update_target s id p = false)
  \/ (String.length (js_trim question) < 5)%nat
  \/ List.length (filter non_blank options) = 1%nat ->
  exists m, updatePoll s id question options = (Throws m, s).
Proof.
  intros H. destruct (updatePoll_cases s id question options) as [T|(r & _ & _ & Er & En)];
    [exact T|]. exfalso.
  destruct (filter (update_target s id) (polls s)) as [|p l] eqn:Ef; [discriminate|].
  destruct H as [H|H].
  - assert (Hp : In p (filter (update_target s id) (polls s))) by (rewrite Ef; now left).
    apply filter_In in Hp. destruct Hp as [Hp Ht]. rewrite (H p Hp) in Ht. discriminate.
  - injection Er as <- _.
    assert (X : (String.length (js_trim question) < 5)%nat
                \/ List.length (filter non_blank options) = 1%nat) by tauto.
    destruct (new_row_error_invalid s p question (filter non_blank options) X) as [e He].
    congruence.
Qed.

Lemma updatePoll_refused_witness :
  (exists m, updatePoll Sample.legacy 1%nat "Which language?" ["Go"; "Rust"] = (Throws m, Sample.legacy))
  /\ (exists m, updatePoll Sample.shared 1%nat "A?" ["A"; "B"] = (Throws m, Sample.shared)).
Proof.
  split.
  - apply (updatePoll_refused Sample.legacy 1%nat "Which language?" ["Go"; "Rust"]).
    left. intros p [<-|[]]. reflexivity.
  - apply (updatePoll_refused Sample.shared 1%nat "A?" ["A"; "B"]).
    right. left. simpl. lia.
Defined.

(** X3.  Whatever its arguments and the state, [updatePoll] leaves the table
    [votes] as it is and changes no identifier, owner, creation time,
    visibility or share token in [polls]: votes cast for an option that an
    edit removes stay stored. *)
Theorem updatePoll_frame (s : Supabase) (id : uuid) (question : string) (options : list string) :
  votes (snd (updatePoll s id question options)) = votes s
  /\ map (fun p => (Polls.id p, Polls.created_at p, Polls.user_id p,
                    Polls.is_public p, Polls.share_token p))
         (polls (snd (updatePoll s id question options)))
     = map (fun p => (Polls.id p, Polls.created_at p, Polls.user_id p,
                      Polls.is_public p, Polls.share_token p))
           (polls s).
Proof.
  destruct (updatePoll_cases s id question options) as [[m ->]|(r & -> & _)].
  - split; reflexivity.
  - split; [reflexivity|]. cbn [snd polls with_polls]. rewrite map_map.
    apply map_ext. intros p. now destruct (update_target s id p).
Qed.

(** ** Deleting a poll *)

Lemma deletePoll_available (s : Supabase) (id : uuid) :
  health s = None ->
  deletePoll s id
  = (Returns tt,
     {| health := health s;
        auth_uid := auth_uid s;
        now := now s;
        polls := filter (fun p => negb (update_target s id p)) (polls s);
        votes := if existsb (update_target s id) (polls s)
                 then filter (fun v => negb (Votes.poll_id v =? id)%nat) (votes s)
                 else votes s |}).
Proof.
  intros Hh. unfold deletePoll, mutate, delete_poll.
  now rewrite (checkTableExists_available s Hh), Hh.
Qed.

(** X4.  The owner deletes a poll: [deletePoll] removes the row of the poll
    and, by the cascade, every vote of the poll, and nothing else; afterwards
    [getPollById] returns [null] for the identifier and the aggregates of the
    poll are those of a poll without votes. *)
Theorem deletePoll_by_owner (s : Supabase) (p : Polls.row) :
  health s = None -> NoDup (map Polls.id (polls s)) ->
  In p (polls s) -> polls_owner_policy s p = true ->
  exists s',
    deletePoll s (Polls.id p) = (Returns tt, s')
    /\ polls s' = filter (fun q => negb (Polls.id q =? Polls.id p)%nat) (polls s)
    /\ votes s' = filter (fun v => negb (Votes.poll_id v =? Polls.id p)%nat) (votes s)
    /\ getPollById s' (Polls.id p) = Returns None
    /\ getPollTotalVotes s' (Polls.id p) = 0
    /\ getPollStatistics s' (Polls.id p) = [].
Proof.
  intros Hh Hnd Hin Ho. eexists. split; [apply (deletePoll_available s _ Hh)|].
  assert (P : filter (fun q => negb (update_target s (Polls.id p) q)) (polls s)
              = filter (fun q => negb (Polls.id q =? Polls.id p)%nat) (polls s)).
  { apply filter_ext_in. intros q Hq. f_equal.
    destruct (Nat.eq_dec (Polls.id q) (Polls.id p)) as [E|E].
    - assert (q = p) by now apply (primary_key (polls s)). subst q.
      now rewrite (update_target_owner s p Ho), Nat.eqb_refl.
    - now rewrite (update_target_other s _ q E), (proj2 (Nat.eqb_neq _ _) E). }
  assert (G : existsb (update_target s (Polls.id p)) (polls s) = true).
  { apply existsb_exists. exists p. split; [exact Hin | now apply update_target_owner]. }
  cbn [polls votes]. rewrite G, P.
  assert (V : forall s', votes s' = filter (fun v => negb (Votes.poll_id v =? Polls.id p)%nat) (votes s) ->
                         votes_of s' (Polls.id p) = []).
  { intros s' E. unfold votes_of. rewrite E. apply filter_none. intros v Hv.
    apply filter_In in Hv. destruct Hv as [_ Hv]. apply negb_true_iff in Hv.
    rewrite Hv. apply andb_false_r. }
  split; [reflexivity|]. split; [reflexivity|]. split; [|split].
  - unfold getPollById, checkTableExists, query. cbn [health]. rewrite Hh. cbn [negb].
    unfold select_polls. cbn [polls]. rewrite filter_none; [reflexivity|].
    intros q Hq. apply filter_In in Hq. destruct Hq as [_ Hq].
    apply negb_true_iff in Hq. rewrite Hq. apply andb_false_r.
  - unfold getPollTotalVotes, query, get_poll_total_votes. cbn [health]. rewrite Hh.
    now rewrite V.
  - unfold getPollStatistics, query. cbn [health]. rewrite Hh. cbn [COALESCE].
    apply get_poll_statistics_no_votes. now apply V.
Qed.

Lemma deletePoll_by_owner_witness :
  exists s', deletePoll Sample.one_vote 1%nat = (Returns tt, s') /\ polls s' = [] /\ votes s' = [].
Proof.
  destruct (deletePoll_by_owner Sample.one_vote Sample.shared_poll) as (s' & H & Hp & Hv & _).
  - reflexivity.
  - vm_compute. constructor; [intros [] | constructor].
  - now left.
  - reflexivity.
  - exists s'. split; [exact H|]. split; [rewrite Hp | rewrite Hv]; reflexivity.
Defined.

(** X5.  When no row with the identifier is within the caller's reach (the
    poll does not exist, or belongs to somebody else), [deletePoll] on an
    available database returns without an error and deletes nothing; deleting
    a poll a second time is such a call. *)
Theorem deletePoll_out_of_reach (s : Supabase) (id : uuid) :
  health s = None ->
  (forall p, In p (polls s) -> update_target s id p = false) ->
  deletePoll s id = (Returns tt, s).
Proof.
  intros Hh H. rewrite (deletePoll_available s id Hh). f_equal.
  assert (G : existsb (update_target s id) (polls s) = false).
  { destruct (existsb _ (polls s)) eqn:E; [|reflexivity].
    apply existsb_exists in E. destruct E as (p & Hp & Ht). rewrite (H p Hp) in Ht. discriminate. }
  rewrite G, filter_all.
  - now destruct s.
  - intros p Hp. now rewrite (H p Hp).
Qed.

Lemma deletePoll_out_of_reach_witness :
  deletePoll Sample.legacy 1%nat = (Returns tt, Sample.legacy)
  /\ deletePoll (snd (deletePoll Sample.one_vote 1%nat)) 1%nat
     = (Returns tt, snd (deletePoll Sample.one_vote 1%nat)).
Proof.
  split.
  - apply (deletePoll_out_of_reach Sample.legacy 1%nat); [reflexivity|].
    intros p [<-|[]]. reflexivity.
  - apply (deletePoll_out_of_reach (snd (deletePoll Sample.one_vote 1%nat)) 1%nat);
      [reflexivity|]. intros p [].
Defined.

(** ** Votes and their aggregates *)

(** The poll that lets a vote in. *)
Lemma votes_insert_check_inv (s : Supabase) (v : Votes.row) :
  votes_insert_check s v = true ->
  exists p, In p (polls s) /\ Polls.id p = Votes.poll_id v
            /\ Polls.is_public p = true /\ polls_select_using s p = true.
Proof.
  intros H. apply existsb_exists in H. destruct H as (p & Hin & Hp).
  apply andb_prop in Hp. destruct Hp as [Hp Hpub].
  apply andb_prop in Hp. destruct Hp as [Hsel Hid]. apply Nat.eqb_eq in Hid.
  now exists p.
Qed.

Lemma votes_select_using_public (s : Supabase) (v : Votes.row) (p : Polls.row) :
  In p (polls s) -> Polls.id p = Votes.poll_id v ->
  Polls.is_public p = true -> polls_select_using s p = true ->
  votes_select_using s v = true.
Proof.
  intros Hin Hid Hpub Hsel. unfold votes_select_using. apply existsb_exists.
  exists p. split; [exact Hin|]. now rewrite Hsel, Hid, Nat.eqb_refl, Hpub.
Qed.

(** X6.  After a successful [castVote] with a session of at most 255
    characters, [getUserVote] for the poll and the session returns the option
    index that was cast.  On an available database where the session holds no
    ballot in the poll it returns [null]. *)
Theorem getUserVote_after_castVote
        (s s1 : Supabase) (pollId : uuid) (i : Z) (voterSession : string) :
  (String.length voterSession <= 255)%nat ->
  (castVote s pollId i voterSession = (Returns tt, s1) ->
   getUserVote s1 pollId voterSession = Some i)
  /\ (health s = None -> ballots s pollId voterSession = [] ->
      getUserVote s pollId voterSession = None).
Proof.
  intros Hl. pose proof (varchar_fits 255 voterSession Hl) as Hv. split.
  - intros H.
    destruct (castVote_returns_inv _ _ _ _ _ H)
      as (session & v & Hh & _ & Hv' & Hp & Ho & Hs & Hc & Hu & ->).
    assert (session = voterSession) by congruence. subst session.
    destruct (votes_insert_check_inv s v Hc) as (p & Hin & Hid & Hpub & Hsel).
    unfold getUserVote, query. cbn [health votes with_votes]. rewrite Hh, filter_app.
    rewrite filter_none.
    + cbn [filter app].
      replace (votes_select_using _ v) with true
        by (symmetry; now apply (votes_select_using_public _ v p)).
      now rewrite Hp, Hs, Nat.eqb_refl, String.eqb_refl, <- Ho.
    + intros w Hw.
      assert (F : same_ballot v w = false).
      { destruct (same_ballot v w) eqn:E; [|reflexivity].
        assert (X : existsb (same_ballot v) (votes s) = true)
          by (apply existsb_exists; exists w; auto).
        congruence. }
      unfold same_ballot in F. rewrite Hp, Hs in F.
      destruct (Votes.voter_session w) as [a|]; [|now rewrite andb_false_r].
      rewrite (Nat.eqb_sym (Votes.poll_id w)), (String.eqb_sym a).
      rewrite <- andb_assoc, F. apply andb_false_r.
  - intros Hh Hb. unfold getUserVote, query. rewrite Hh. rewrite filter_none; [reflexivity|].
    intros w Hw. rewrite <- andb_assoc. apply andb_false_iff. right.
    assert (N : ~ In w (ballots s pollId voterSession)) by (rewrite Hb; intros []).
    unfold ballots in N. rewrite filter_In, Hv in N.
    destruct ((Votes.poll_id w =? pollId)%nat && _) eqn:E; [|reflexivity].
    elim N. split; [exact Hw | reflexivity].
Qed.

Lemma getUserVote_after_castVote_witness :
  getUserVote (snd (castVote Sample.shared 1%nat 1 "voter_1")) 1%nat "voter_1" = Some 1
  /\ getUserVote Sample.shared 1%nat "voter_1" = None.
Proof.
  destruct (getUserVote_after_castVote Sample.shared (snd (castVote Sample.shared 1%nat 1 "voter_1"))
              1%nat 1 "voter_1") as [A B]; [simpl; lia|].
  split; [apply A | apply B]; reflexivity.
Defined.

Lemma Zsum_perm (l l' : list Z) :
  Permutation l l' -> fold_right Z.add 0 l = fold_right Z.add 0 l'.
Proof.
  induction 1; simpl; lia.
Qed.

(** X7.  On an available database, where both requests are answered, the
    number that [getPollTotalVotes] returns is the sum of the vote counts that
    [getPollStatistics] returns for the poll, whoever the caller is. *)
Theorem total_is_sum_of_counts (s : Supabase) (pollId : uuid) :
  health s = None ->
  getPollTotalVotes s pollId
  = fold_right Z.add 0 (map PollStatistics.vote_count (getPollStatistics s pollId)).
Proof.
  intros Hh. unfold getPollTotalVotes, getPollStatistics, query. rewrite Hh. cbn [COALESCE].
  rewrite (Zsum_perm _ _ (Permutation_map PollStatistics.vote_count
                            (get_poll_statistics_perm s pollId))).
  rewrite map_map. cbn [PollStatistics.vote_count].
  rewrite sum_count_occ_nodup. unfold get_poll_total_votes. now rewrite length_map.
Qed.

Lemma total_is_sum_of_counts_witness :
  getPollTotalVotes Sample.one_vote 1%nat
  = fold_right Z.add 0 (map PollStatistics.vote_count (getPollStatistics Sample.one_vote 1%nat)).
Proof.
  apply (total_is_sum_of_counts Sample.one_vote 1%nat). reflexivity.
Defined.

(** The two ways in which [castVote] ends. *)
Lemma castVote_cases (s : Supabase) (pollId : uuid) (i : Z) (voterSession : string) :
  (exists m, castVote s pollId i voterSession = (Throws m, s))
  \/ (exists s1, castVote s pollId i voterSession = (Returns tt, s1)).
Proof.
  unfold castVote, mutate.
  destruct (health s) as [[e|m]|].
  - left. destruct (code e =? "23505")%string; eauto.
  - left. cbn. eauto.
  - destruct (insert_vote s pollId i voterSession) as [e|[d s1]]; [|eauto].
    left. destruct (code e =? "23505")%string; eauto.
Qed.

Lemma votes_of_after_insert (s : Supabase) (v : Votes.row) (poll_uuid : uuid) :
  votes_of (with_votes s (votes s ++ [v])) poll_uuid
  = votes_of s poll_uuid
    ++ (if votes_select_using s v && (Votes.poll_id v =? poll_uuid)%nat then [v] else []).
Proof.
  unfold votes_of. cbn [votes with_votes]. rewrite filter_app. f_equal.
Qed.

(** X8.  A successful [castVote] counts once: the total of the poll grows by
    one, the number of its votes for the chosen option index grows by one, the
    numbers for the other indexes stay, and the aggregates of every other poll
    stay as they were. *)
Theorem castVote_counts_once (s s1 : Supabase) (pollId : uuid) (i : Z) (voterSession : string) :
  castVote s pollId i voterSession = (Returns tt, s1) ->
  get_poll_total_votes s1 pollId = get_poll_total_votes s pollId + 1
  /\ (forall k,
        Z.of_nat (count_occ Z.eq_dec (map Votes.option_index (votes_of s1 pollId)) k)
        = Z.of_nat (count_occ Z.eq_dec (map Votes.option_index (votes_of s pollId)) k)
          + (if k =? i then 1 else 0))
  /\ (forall other, other <> pollId ->
        get_poll_total_votes s1 other = get_poll_total_votes s other
        /\ get_poll_statistics s1 other = get_poll_statistics s other).
Proof.
  intros H.
  destruct (castVote_returns_inv _ _ _ _ _ H)
    as (session & v & Hh & _ & _ & Hp & Ho & _ & Hc & _ & ->).
  destruct (votes_insert_check_inv s v Hc) as (p & Hin & Hid & Hpub & Hsel).
  assert (E : votes_of (with_votes s (votes s ++ [v])) pollId = votes_of s pollId ++ [v]).
  { rewrite votes_of_after_insert.
    now rewrite (votes_select_using_public s v p), Hp, Nat.eqb_refl. }
  split; [|split].
  - unfold get_poll_total_votes. rewrite E, length_app. simpl. lia.
  - intros k. rewrite E, map_app, count_occ_app. cbn [map count_occ]. rewrite Ho.
    destruct (Z.eq_dec i k) as [->|Hne].
    + rewrite Z.eqb_refl. lia.
    + rewrite (proj2 (Z.eqb_neq k i)) by congruence. lia.
  - intros other Hne.
    assert (E' : votes_of (with_votes s (votes s ++ [v])) other = votes_of s other).
    { rewrite votes_of_after_insert, Hp.
      rewrite (proj2 (Nat.eqb_neq pollId other)) by congruence.
      rewrite andb_false_r. apply app_nil_r. }
    unfold get_poll_total_votes, get_poll_statistics, vote_counts. now rewrite E'.
Qed.

Lemma castVote_counts_once_witness :
  get_poll_total_votes (snd (castVote Sample.one_vote 1%nat 1 "voter_2")) 1%nat
  = get_poll_total_votes Sample.one_vote 1%nat + 1.
Proof.
  apply (castVote_counts_once Sample.one_vote _ 1%nat 1 "voter_2"). reflexivity.
Defined.

(** X9.  Votes go to public polls only: when no poll with the identifier is
    public, [castVote] throws and stores nothing, for every caller, the owner
    of the poll included. *)
Theorem castVote_private_poll (s : Supabase) (pollId : uuid) (i : Z) (voterSession : string) :
  (forall p, In p (polls s) -> Polls.id p = pollId -> Polls.is_public p = false) ->
  exists m, castVote s pollId i voterSession = (Throws m, s).
Proof.
  intros H. destruct (castVote_cases s pollId i voterSession) as [T|[s1 R]]; [exact T|].
  exfalso.
  destruct (castVote_returns_inv _ _ _ _ _ R) as (session & v & _ & _ & _ & Hp & _ & _ & Hc & _).
  destruct (votes_insert_check_inv s v Hc) as (p & Hin & Hid & Hpub & _).
  rewrite (H p Hin) in Hpub by congruence. discriminate.
Qed.

Lemma castVote_private_poll_witness :
  exists m, castVote Sample.created 1%nat 0 "voter_1" = (Throws m, Sample.created).
Proof.
  apply (castVote_private_poll Sample.created 1%nat 0 "voter_1").
  intros p [<-|[]] _. reflexivity.
Defined.

(** ** Reading polls *)

Lemma insert_by_created_at_perm (r : Polls.row) (rows : list Polls.row) :
  Permutation (insert_by_created_at r rows) (r :: rows).
Proof.
  induction rows as [|a rows IH]; simpl; [reflexivity|].
  destruct (Polls.created_at a <=? Polls.created_at r); [reflexivity|].
  rewrite IH. apply perm_swap.
Qed.

Lemma order_by_created_at_desc_perm (rows : list Polls.row) :
  Permutation (order_by_created_at_desc rows) rows.
Proof.
  induction rows as [|a rows IH]; simpl; [reflexivity|].
  rewrite insert_by_created_at_perm. now constructor.
Qed.

Lemma insert_by_created_at_sorted (r : Polls.row) (rows : list Polls.row) :
  StronglySorted (fun a b => Polls.created_at b <= Polls.created_at a) rows ->
  StronglySorted (fun a b => Polls.created_at b <= Polls.created_at a)
                 (insert_by_created_at r rows).
Proof.
  induction rows as [|a rows IH]; intros HS; simpl.
  - constructor; constructor.
  - apply StronglySorted_inv in HS. destruct HS as [HS HF]. rewrite Forall_forall in HF.
    destruct (Polls.created_at a <=? Polls.created_at r) eqn:E.
    + apply Z.leb_le in E.
      constructor; [constructor; [exact HS | now apply Forall_forall]|].
      apply Forall_forall. intros x [<-|Hx]; [lia|]. specialize (HF x Hx). lia.
    + apply Z.leb_gt in E. constructor; [now apply IH|].
      apply Forall_forall. intros x Hx.
      apply (Permutation_in _ (insert_by_created_at_perm r rows)) in Hx.
      destruct Hx as [<-|Hx]; [lia | now apply HF].
Qed.

Lemma order_by_created_at_desc_sorted (rows : list Polls.row) :
  StronglySorted (fun a b => Polls.created_at b <= Polls.created_at a)
                 (order_by_created_at_desc rows).
Proof.
  induction rows as [|a rows IH]; simpl; [constructor|].
  now apply insert_by_created_at_sorted.
Qed.

Lemma single_inv {A : Type} (rows : list A) (r : A) : single rows = inr r -> rows = [r].
Proof.
  destruct rows as [|a [|b l]]; simpl; intros H; try discriminate. now injection H as ->.
Qed.

(** What a lookup of one poll returns. *)
Lemma lookup_returns (s : Supabase) (cond : Polls.row -> bool) (q : Poll.t) :
  match query s (single (select_polls s cond)) with
  | Threw m => Throws m
  | Resolved _ (Some error) =>
      if (code error =? "PGRST116")%string then Returns None
      else Throws ("Failed to fetch poll: " ++ message error)
  | Resolved (Some data) None => Returns (Some (to_Poll data))
  | Resolved None None => Throws "Cannot read properties of null"
  end = Returns (Some q) ->
  exists p, In p (polls s) /\ q = to_Poll p /\ polls_select_using s p = true /\ cond p = true.
Proof.
  unfold query. intros H. destruct (health s) as [[e|m]|].
  - destruct (code e =? "PGRST116")%string; discriminate.
  - discriminate.
  - destruct (single (select_polls s cond)) as [e|r] eqn:E.
    + destruct (code e =? "PGRST116")%string; discriminate.
    + injection H as <-. apply single_inv in E.
      assert (Hr : In r (select_polls s cond)) by (rewrite E; now left).
      unfold select_polls in Hr. apply filter_In in Hr. destruct Hr as [Hin Hc].
      apply andb_prop in Hc. exists r. tauto.
Qed.

(** X10.  No read shows a poll that the select policy of [polls] hides from
    the caller: every poll that [getPollById], [getPollByShareToken],
    [getAllPolls] or [getUserPolls] returns is a row of the table that the
    caller owns, that has no owner, or that is public with a share token.
    What [getPollById] returns has the identifier asked for, what
    [getPollByShareToken] returns has the token asked for, and
    [getUserPolls] returns polls of the caller only. *)
Theorem reads_respect_policy (s : Supabase) :
  (forall id q, getPollById s id = Returns (Some q) ->
     exists p, In p (polls s) /\ q = to_Poll p /\ polls_select_using s p = true
               /\ Polls.id p = id)
  /\ (forall t q, getPollByShareToken s t = Returns (Some q) ->
        exists p, In p (polls s) /\ q = to_Poll p /\ polls_select_using s p = true
                  /\ Polls.share_token p = Some t)
  /\ (forall qs q, getAllPolls s = Returns qs -> In q qs ->
        exists p, In p (polls s) /\ q = to_Poll p /\ polls_select_using s p = true)
  /\ (forall qs q, getUserPolls s = Returns qs -> In q qs ->
        exists p user, In p (polls s) /\ q = to_Poll p /\ polls_select_using s p = true
                       /\ auth_uid s = Some user /\ Polls.user_id p = Some user).
Proof.
  split; [|split; [|split]].
  - intros id q H. unfold getPollById in H.
    destruct (checkTableExists s); cbn [negb] in H; [|discriminate].
    destruct (lookup_returns s _ q H) as (p & Hin & Hq & Hsel & Hc).
    apply Nat.eqb_eq in Hc. now exists p.
  - intros t q H. unfold getPollByShareToken in H.
    destruct (lookup_returns s _ q H) as (p & Hin & Hq & Hsel & Hc).
    apply andb_prop in Hc. destruct Hc as [Hc _]. unfold token_is in Hc.
    destruct (Polls.share_token p) as [u|] eqn:Eu; [|discriminate].
    apply String.eqb_eq in Hc. subst u. now exists p.
  - intros qs q H Hq. unfold getAllPolls in H.
    destruct (checkTableExists s); cbn [negb] in H; [|injection H as <-; contradiction].
    unfold query in H. destruct (health s) as [[e|m]|].
    + destruct (code e =? "42P01")%string; discriminate.
    + discriminate.
    + injection H as <-. cbn [COALESCE] in Hq. apply in_map_iff in Hq.
      destruct Hq as (p & <- & Hp).
      apply (Permutation_in _ (order_by_created_at_desc_perm _)) in Hp.
      unfold select_polls in Hp. apply filter_In in Hp. destruct Hp as [Hin Hc].
      apply andb_prop in Hc. exists p. tauto.
  - intros qs q H Hq. unfold getUserPolls in H.
    destruct (checkTableExists s); cbn [negb] in H; [|injection H as <-; contradiction].
    destruct (getUser s) as [user|] eqn:Eu; [|discriminate].
    unfold query in H. destruct (health s) as [[e|m]|] eqn:Hh; try discriminate.
    rewrite (getUser_available s Hh) in Eu.
    injection H as <-. cbn [COALESCE] in Hq. apply in_map_iff in Hq.
    destruct Hq as (p & <- & Hp).
    apply (Permutation_in _ (order_by_created_at_desc_perm _)) in Hp.
    unfold select_polls in Hp. apply filter_In in Hp. destruct Hp as [Hin Hc].
    apply andb_prop in Hc. destruct Hc as [Hsel Hc].
    destruct (Polls.user_id p) as [o|] eqn:Eo; [|discriminate].
    apply Nat.eqb_eq in Hc. subst o. exists p, user. tauto.
Qed.

Lemma reads_respect_policy_witness :
  exists p, In p (polls Sample.shared) /\ to_Poll Sample.shared_poll = to_Poll p
            /\ polls_select_using Sample.shared p = true /\ Polls.id p = 1%nat.
Proof.
  apply (proj1 (reads_respect_policy Sample.shared) 1%nat (to_Poll Sample.shared_poll)).
  reflexivity.
Defined.

(** X11.  For a signed-in user on an available database, [getUserPolls]
    returns the polls of the user, all of them and each once, newest first;
    [getAllPolls] returns the polls that the select policy shows the caller,
    newest first.  Without a signed-in user [getUserPolls] throws. *)
Theorem polls_listed_newest_first (s : Supabase) :
  health s = None ->
  (exists rows,
     getAllPolls s = Returns (map to_Poll rows)
     /\ Permutation rows (filter (polls_select_using s) (polls s))
     /\ StronglySorted (fun a b => Polls.created_at b <= Polls.created_at a) rows)
  /\ (forall user, auth_uid s = Some user ->
        exists rows,
          getUserPolls s = Returns (map to_Poll rows)
          /\ Permutation rows
               (filter (fun p => match Polls.user_id p with
                                 | Some o => (o =? user)%nat
                                 | None => false
                                 end) (polls s))
          /\ StronglySorted (fun a b => Polls.created_at b <= Polls.created_at a) rows)
  /\ (auth_uid s = None -> getUserPolls s = Throws "User not authenticated").
Proof.
  intros Hh. split; [|split].
  - exists (order_by_created_at_desc (select_polls s (fun _ => true))). split; [|split].
    + unfold getAllPolls, query. rewrite (checkTableExists_available s Hh), Hh. reflexivity.
    + rewrite order_by_created_at_desc_perm. unfold select_polls.
      erewrite filter_ext; [reflexivity|]. intros p. apply andb_true_r.
    + apply order_by_created_at_desc_sorted.
  - intros user Ha.
    exists (order_by_created_at_desc
              (select_polls s (fun p => match Polls.user_id p with
                                        | Some o => (o =? user)%nat
                                        | None => false
                                        end))).
    split; [|split].
    + unfold getUserPolls, query.
      rewrite (checkTableExists_available s Hh), (getUser_available s Hh), Ha, Hh. reflexivity.
    + rewrite order_by_created_at_desc_perm. unfold select_polls.
      erewrite filter_ext; [reflexivity|]. intros p. cbv beta.
      destruct (Polls.user_id p) as [o|] eqn:Eo; [|apply andb_false_r].
      destruct (o =? user)%nat eqn:E; [|apply andb_false_r].
      apply Nat.eqb_eq in E. subst o. unfold polls_select_using, is_auth_uid.
      now rewrite Eo, Ha, Nat.eqb_refl.
    + apply order_by_created_at_desc_sorted.
  - intros Ha. unfold getUserPolls.
    now rewrite (checkTableExists_available s Hh), (getUser_available s Hh), Ha.
Qed.

Lemma polls_listed_newest_first_witness :
  getUserPolls Sample.shared = Returns [to_Poll Sample.shared_poll]
  /\ exists rows, getAllPolls Sample.shared = Returns (map to_Poll rows)
                  /\ Permutation rows (filter (polls_select_using Sample.shared) (polls Sample.shared)).
Proof.
  split; [reflexivity|].
  destruct (polls_listed_newest_first Sample.shared eq_refl) as [(rows & H & P & _) _].
  exists rows. split; [exact H | exact P].
Defined.

(** ** An unavailable database *)

(** X12.  While the table is missing, so that every request is answered with
    error 42P01 (the relation does not exist), [getAllPolls] and
    [getUserPolls] return the empty list without an error, and [createPoll],
    [updatePoll], [deletePoll] and [getPollById] throw the message that asks
    to run the setup script, leaving the state as it is. *)
Theorem missing_table_reported (s : Supabase) (e : PostgrestError) :
  health s = Some (Errored e) -> code e = "42P01" ->
  getAllPolls s = Returns []
  /\ getUserPolls s = Returns []
  /\ (forall question options,
        createPoll s question options = (Throws table_not_found, s))
  /\ (forall id question options,
        updatePoll s id question options = (Throws table_not_found, s))
  /\ (forall id, deletePoll s id = (Throws table_not_found, s))
  /\ (forall id, getPollById s id = Throws table_not_found).
Proof.
  intros Hh Hc.
  assert (C : checkTableExists s = false).
  { unfold checkTableExists, query. rewrite Hh. now rewrite Hc. }
  unfold getAllPolls, getUserPolls, createPoll, updatePoll, deletePoll, getPollById.
  rewrite C. repeat split.
Qed.

Lemma missing_table_reported_witness :
  getAllPolls Sample.not_set_up = Returns []
  /\ createPoll Sample.not_set_up "A or B?" ["A"; "B"] = (Throws table_not_found, Sample.not_set_up).
Proof.
  destruct (missing_table_reported Sample.not_set_up Sample.undefined_table eq_refl eq_refl)
    as (A & _ & B & _).
  split; [exact A | apply B].
Defined.

(** X28.  While no request is answered, the client resolves each request to
    an error object without code, so [checkTableExists] returns true and an
    unreachable database is not taken for a missing table: [getAllPolls],
    [getPollById], [updatePoll] and [deletePoll] throw their own failure with
    the reason of the failed request, [createPoll] and [getUserPolls] throw
    "User not authenticated" because no user is returned, and the state stays
    as it is. *)
Theorem unreachable_is_not_missing_table (s : Supabase) (reason : string) :
  health s = Some (Unreachable reason) ->
  checkTableExists s = true
  /\ getAllPolls s = Throws ("Failed to fetch polls: " ++ reason)
  /\ getUserPolls s = Throws "User not authenticated"
  /\ (forall question options,
        createPoll s question options = (Throws "User not authenticated", s))
  /\ (forall id question options,
        updatePoll s id question options = (Throws ("Failed to update poll: " ++ reason), s))
  /\ (forall id, deletePoll s id = (Throws ("Failed to delete poll: " ++ reason), s))
  /\ (forall id, getPollById s id = Throws ("Failed to fetch poll: " ++ reason)).
Proof.
  intros Hh.
  assert (C : checkTableExists s = true).
  { unfold checkTableExists, query. now rewrite Hh. }
  unfold getAllPolls, getUserPolls, createPoll, updatePoll, deletePoll, getPollById, getUser.
  unfold query, mutate. rewrite C, Hh. repeat split.
Qed.

Lemma unreachable_is_not_missing_table_witness :
  getAllPolls Sample.offline = Throws "Failed to fetch polls: TypeError: Failed to fetch"
  /\ createPoll Sample.offline "A or B?" ["A"; "B"]
     = (Throws "User not authenticated", Sample.offline).
Proof.
  destruct (unreachable_is_not_missing_table Sample.offline "TypeError: Failed to fetch" eq_refl)
    as (_ & A & _ & B & _).
  split; [exact A | apply B].
Defined.

(** ** Share tokens *)

Lemma hex_digit_is_hex (d : N) :
  (d < 16)%N -> In (hex_digit d) (list_ascii_of_string "0123456789abcdef").
Proof.
  intros H.
  assert (C : (d = 0 \/ d = 1 \/ d = 2 \/ d = 3 \/ d = 4 \/ d = 5 \/ d = 6 \/ d = 7 \/ d = 8
               \/ d = 9 \/ d = 10 \/ d = 11 \/ d = 12 \/ d = 13 \/ d = 14 \/ d = 15)%N) by lia.
  repeat (destruct C as [->|C]; [vm_compute; tauto|]). subst d. vm_compute. tauto.
Qed.

Lemma encode_hex_digits (n : nat) (bytes : N) (acc : string) (c : ascii) :
  In c (list_ascii_of_string (encode_hex n bytes acc)) ->
  In c (list_ascii_of_string "0123456789abcdef") \/ In c (list_ascii_of_string acc).
Proof.
  revert bytes acc. induction n as [|n IH]; intros bytes acc H; [now right|].
  cbn [encode_hex] in H. apply IH in H. destruct H as [H|H]; [now left|].
  cbn [list_ascii_of_string] in H. destruct H as [<-|H]; [|now right].
  left. apply hex_digit_is_hex. apply N.mod_lt. discriminate.
Qed.

(** X13.  Whatever bytes are drawn, the token of [generate_share_token] has
    exactly 32 characters, each a digit or a letter from a to f, so that it
    is stored in [share_token VARCHAR(32)] unchanged. *)
Theorem generate_share_token_format (rnd : Entropy) :
  String.length (generate_share_token rnd) = 32%nat
  /\ (forall c, In c (list_ascii_of_string (generate_share_token rnd)) ->
                In c (list_ascii_of_string "0123456789abcdef"))
  /\ varchar 32 (generate_share_token rnd) = Some (generate_share_token rnd).
Proof.
  split; [|split].
  - unfold generate_share_token. now rewrite encode_hex_length.
  - intros c H. unfold generate_share_token in H.
    destruct (encode_hex_digits _ _ _ _ H) as [K|[]]. exact K.
  - apply generate_share_token_fits.
Qed.

(** X14.  When another poll already holds the drawn token, [generateShareLink]
    on the caller's own poll throws "Failed to generate share link: " followed
    by the message of the unique constraint's failure (code 23505), and
    changes nothing: the method does not draw again. *)
Theorem generateShareLink_token_taken (rnd : Entropy) (s : Supabase) (p q : Polls.row) :
  health s = None ->
  In p (polls s) -> polls_owner_policy s p = true ->
  In q (polls s) -> Polls.id q <> Polls.id p ->
  Polls.share_token q = Some (generate_share_token rnd) ->
  code (unique_violation "polls_share_token_key") = "23505"
  /\ generateShareLink rnd s (Polls.id p)
     = (Throws ("Failed to generate share link: "
                ++ message (unique_violation "polls_share_token_key")), s).
Proof.
  intros Hh Hp Ho Hq Hne Ht. unfold generateShareLink, query, mutate. rewrite Hh.
  cbv beta iota. unfold update_sharing. rewrite generate_share_token_fits. cbn [option_map].
  rewrite update_with_check. cbn [negb].
  assert (A : existsb (update_target s (Polls.id p)) (polls s) = true).
  { apply existsb_exists. exists p. split; [exact Hp | now apply update_target_owner]. }
  assert (B : existsb (fun r => negb (Polls.id r =? Polls.id p)%nat
                                && token_is (generate_share_token rnd) r) (polls s) = true).
  { apply existsb_exists. exists q. split; [exact Hq|].
    unfold token_is. now rewrite (proj2 (Nat.eqb_neq _ _) Hne), Ht, String.eqb_refl. }
  split; [reflexivity|]. rewrite A, B. reflexivity.
Qed.

Lemma generateShareLink_token_taken_witness :
  generateShareLink Sample.entropy Sample.second 2%nat
  = (Throws ("Failed to generate share link: "
             ++ message (unique_violation "polls_share_token_key")), Sample.second).
Proof.
  apply (generateShareLink_token_taken Sample.entropy Sample.second
           Sample.second_poll Sample.shared_poll).
  - reflexivity.
  - vm_compute. right. now left.
  - reflexivity.
  - vm_compute. now left.
  - discriminate.
  - reflexivity.
Defined.

(** X15.  When the owner of a shared poll draws a new, different token, the
    new token replaces the old one: a lookup by the new token returns the
    poll, a lookup by the old token returns [null], and the votes of the poll
    stay. *)
Theorem generateShareLink_replaces_token (rnd : Entropy) (s : Supabase) (p : Polls.row) (old : string) :
  health s = None -> NoDup (map Polls.id (polls s)) ->
  In p (polls s) -> polls_owner_policy s p = true ->
  Polls.share_token p = Some old -> old <> generate_share_token rnd ->
  (forall q, In q (polls s) -> Polls.id q <> Polls.id p ->
             token_is (generate_share_token rnd) q = false /\ token_is old q = false) ->
  exists s1,
    generateShareLink rnd s (Polls.id p) = (Returns (Some (generate_share_token rnd)), s1)
    /\ getPollByShareToken s1 (generate_share_token rnd)
       = Returns (Some (to_Poll (set_sharing true (Some (generate_share_token rnd)) p)))
    /\ getPollByShareToken s1 old = Returns None
    /\ votes s1 = votes s.
Proof.
  intros Hh Hnd Hp Ho Hold Hne Hfree. set (t := generate_share_token rnd) in *.
  exists (updated s (Polls.id p) true (Some t)).
  assert (Hl : (String.length t <= 32)%nat).
  { unfold t, generate_share_token. rewrite encode_hex_length. simpl. lia. }
  split; [|split; [|split]].
  - unfold generateShareLink, query, mutate. rewrite Hh. fold t. cbv beta iota.
    rewrite (update_sharing_owner s p true (Some t)); [reflexivity|].
    intros t' [= <-]. split; [exact Hl|]. intros q Hq Hq'. now apply Hfree.
  - unfold getPollByShareToken, query. cbn [health updated with_polls]. rewrite Hh.
    rewrite select_by_token_after_share; auto. intros q Hq Hq'. now apply Hfree.
  - unfold getPollByShareToken, query. cbn [health updated with_polls]. rewrite Hh.
    unfold select_polls. rewrite filter_none; [reflexivity|].
    intros r Hr. apply andb_false_iff. right. apply andb_false_iff. left.
    unfold updated in Hr. cbn [polls with_polls] in Hr.
    apply in_map_iff in Hr. destruct Hr as (q & <- & Hq).
    destruct (Nat.eq_dec (Polls.id q) (Polls.id p)) as [E|E].
    + assert (q = p) by now apply (primary_key (polls s)). subst q.
      rewrite (update_target_owner s p Ho). unfold token_is. cbn [set_sharing Polls.share_token].
      apply String.eqb_neq. congruence.
    + rewrite (update_target_other s _ q E). now apply Hfree.
  - reflexivity.
Qed.

Lemma generateShareLink_replaces_token_witness :
  exists s1,
    generateShareLink Sample.entropy' Sample.one_vote 1%nat
    = (Returns (Some (generate_share_token Sample.entropy')), s1)
    /\ getPollByShareToken s1 "0000000000000000ab54a98ceb1f0ad2" = Returns None
    /\ votes s1 = votes Sample.one_vote.
Proof.
  destruct (generateShareLink_replaces_token Sample.entropy' Sample.one_vote Sample.shared_poll
              "0000000000000000ab54a98ceb1f0ad2") as (s1 & A & _ & B & C).
  - reflexivity.
  - vm_compute. constructor; [intros [] | constructor].
  - now left.
  - reflexivity.
  - reflexivity.
  - vm_compute. discriminate.
  - intros q [<-|[]] Hne. now elim Hne.
  - exists s1. split; [exact A|]. split; [exact B | exact C].
Defined.

(** ** The share button *)

(** X16.  The share button draws again where [DatabaseService.generateShareLink]
    does not: when that method throws on an available database, as it does
    when the token drawn by the database is held by another poll, the button
    stores the token it generates itself, provided that this one is not empty,
    has at most 32 characters and is free; the caller's poll is then public
    under that token. *)
Theorem ShareButton_falls_back_to_local_token
        (rnd : Entropy) (local m : string) (s : Supabase) (p : Polls.row) :
  health s = None -> NoDup (map Polls.id (polls s)) ->
  In p (polls s) -> polls_owner_policy s p = true ->
  generateShareLink rnd s (Polls.id p) = (Throws m, s) ->
  local <> "" -> (String.length local <= 32)%nat ->
  (forall r, In r (polls s) -> Polls.id r <> Polls.id p -> token_is local r = false) ->
  exists s1,
    ShareButton.generateShareLink rnd local s (Polls.id p) = (Some (true, Some local), s1)
    /\ getPollByShareToken s1 local
       = Returns (Some (to_Poll (set_sharing true (Some local) p))).
Proof.
  intros Hh Hnd Hp Ho Hthrows Hl Hlen Hfree.
  exists (updated s (Polls.id p) true (Some local)).
  unfold ShareButton.generateShareLink. rewrite Hthrows.
  unfold ShareButton.updatePollSharing, mutate. rewrite Hh.
  rewrite (proj2 (String.eqb_neq local "") Hl).
  rewrite (update_sharing_owner s p true (Some local)).
  - split; [reflexivity|].
    unfold getPollByShareToken, query. cbn [health updated with_polls]. rewrite Hh.
    now rewrite select_by_token_after_share.
  - intros t' [= <-]. split; assumption.
Qed.

Lemma ShareButton_falls_back_to_local_token_witness :
  exists s1,
    ShareButton.generateShareLink Sample.entropy "k3j2h1g0f9e8d7" Sample.second 2%nat
    = (Some (true, Some "k3j2h1g0f9e8d7"), s1).
Proof.
  destruct (ShareButton_falls_back_to_local_token Sample.entropy "k3j2h1g0f9e8d7"
              ("Failed to generate share link: "
               ++ message (unique_violation "polls_share_token_key"))
              Sample.second Sample.second_poll) as (s1 & A & _).
  - reflexivity.
  - vm_compute. repeat constructor; simpl; intuition discriminate.
  - vm_compute. right. now left.
  - reflexivity.
  - reflexivity.
  - discriminate.
  - simpl. lia.
  - intros r Hr Hne. vm_compute in Hr. destruct Hr as [<-|[<-|[]]]; [reflexivity|].
    now elim Hne.
  - exists s1. exact A.
Defined.

(** ** Unpublishing *)

Lemma updated_row (s : Supabase) (p q : Polls.row) (isPublic : bool) (token : option string) :
  NoDup (map Polls.id (polls s)) -> In p (polls s) -> polls_owner_policy s p = true ->
  In q (polls (updated s (Polls.id p) isPublic token)) -> Polls.id q = Polls.id p ->
  q = set_sharing isPublic token p.
Proof.
  intros Hnd Hp Ho Hq Hid. unfold updated in Hq. cbn [polls with_polls] in Hq.
  apply in_map_iff in Hq. destruct Hq as (q0 & <- & Hq0).
  assert (E : Polls.id q0 = Polls.id p).
  { destruct (update_target s (Polls.id p) q0); [exact Hid | exact Hid]. }
  assert (q0 = p) by now apply (primary_key (polls s)). subst q0.
  now rewrite (update_target_owner s p Ho).
Qed.

Lemma updated_row_in (s : Supabase) (p : Polls.row) (isPublic : bool) (token : option string) :
  In p (polls s) -> polls_owner_policy s p = true ->
  In (set_sharing isPublic token p) (polls (updated s (Polls.id p) isPublic token)).
Proof.
  intros Hp Ho. unfold updated. cbn [polls with_polls]. apply in_map_iff.
  exists p. split; [|exact Hp]. now rewrite (update_target_owner s p Ho).
Qed.

(** X17.  When the owner stops sharing a poll, no vote is deleted.  The owner
    still reads the total over all the votes of the poll; for everybody else,
    signed in or not, the total is 0, the statistics are empty and
    [getPollById] returns [null]. *)
Theorem disableSharing_hides_votes (s : Supabase) (p : Polls.row) (owner : uuid) :
  health s = None -> NoDup (map Polls.id (polls s)) ->
  In p (polls s) -> Polls.user_id p = Some owner -> auth_uid s = Some owner ->
  exists s2,
    disableSharing s (Polls.id p) = (Returns tt, s2)
    /\ votes s2 = votes s
    /\ getPollTotalVotes s2 (Polls.id p)
       = Z.of_nat (List.length (filter (fun v => (Votes.poll_id v =? Polls.id p)%nat) (votes s)))
    /\ forall visitor, visitor <> Some owner ->
         let seen := {| health := health s2; auth_uid := visitor; now := now s2;
                        polls := polls s2; votes := votes s2 |} in
         getPollTotalVotes seen (Polls.id p) = 0
         /\ getPollStatistics seen (Polls.id p) = []
         /\ getPollById seen (Polls.id p) = Returns None.
Proof.
  intros Hh Hnd Hp Hu Ha.
  assert (Ho : polls_owner_policy s p = true).
  { unfold polls_owner_policy, is_auth_uid. now rewrite Hu, Ha, Nat.eqb_refl. }
  exists (updated s (Polls.id p) false None). split; [|split; [|split]].
  - unfold disableSharing, mutate. rewrite Hh.
    rewrite (update_sharing_owner s p false None); [reflexivity|]. intros t [=].
  - reflexivity.
  - unfold getPollTotalVotes, query, get_poll_total_votes. cbn [health updated with_polls].
    rewrite Hh. cbn [COALESCE]. do 2 f_equal.
    pose proof (votes_of_visible_poll (updated s (Polls.id p) false None)
                                      (set_sharing false None p)) as K.
    cbn [set_sharing Polls.id] in K. apply K.
    + now apply updated_row_in.
    + unfold polls_select_using. cbn [set_sharing Polls.user_id].
      change (is_auth_uid (updated s _ false None) (Polls.user_id p))
        with (polls_owner_policy s p). now rewrite Ho.
    + cbn [set_sharing Polls.user_id Polls.is_public].
      change (is_auth_uid (updated s _ false None) (Polls.user_id p))
        with (polls_owner_policy s p). now rewrite Ho.
  - intros visitor Hv seen.
    assert (A : is_auth_uid seen (Some owner) = false).
    { unfold is_auth_uid. cbn [auth_uid seen]. destruct visitor as [w|]; [|reflexivity].
      apply Nat.eqb_neq. congruence. }
    assert (V : votes_of seen (Polls.id p) = []).
    { unfold votes_of. apply filter_none. intros v _.
      destruct (Votes.poll_id v =? Polls.id p)%nat eqn:E; [|apply andb_false_r].
      apply Nat.eqb_eq in E. rewrite andb_true_r.
      unfold votes_select_using.
      destruct (existsb _ (polls seen)) eqn:X; [|reflexivity].
      apply existsb_exists in X. destruct X as (q & Hq & Hc).
      apply andb_prop in Hc. destruct Hc as [Hc Hc3].
      apply andb_prop in Hc. destruct Hc as [_ Hc2]. apply Nat.eqb_eq in Hc2.
      assert (q = set_sharing false None p).
      { apply (updated_row s p q false None); auto. congruence. }
      subst q. cbn [set_sharing Polls.is_public Polls.user_id] in Hc3.
      rewrite Hu, A in Hc3. discriminate. }
    split; [|split].
    + unfold getPollTotalVotes, query, get_poll_total_votes. cbn [health seen updated with_polls].
      now rewrite Hh, V.
    + unfold getPollStatistics, query. cbn [health seen updated with_polls]. rewrite Hh.
      cbn [COALESCE]. now apply get_poll_statistics_no_votes.
    + unfold getPollById, checkTableExists, query. cbn [health seen updated with_polls].
      rewrite Hh. cbn [negb]. unfold select_polls. rewrite filter_none; [reflexivity|].
      intros q Hq.
      destruct (Polls.id q =? Polls.id p)%nat eqn:E; [|apply andb_false_r].
      apply Nat.eqb_eq in E.
      assert (q = set_sharing false None p) by (apply (updated_row s p q false None); auto).
      subst q. unfold polls_select_using. cbn [set_sharing Polls.user_id Polls.is_public].
      now rewrite Hu, A.
Qed.

Lemma disableSharing_hides_votes_witness :
  exists s2,
    disableSharing Sample.one_vote 1%nat = (Returns tt, s2)
    /\ getPollTotalVotes s2 1%nat = 1
    /\ getPollTotalVotes {| health := health s2; auth_uid := None; now := now s2;
                            polls := polls s2; votes := votes s2 |} 1%nat = 0.
Proof.
  destruct (disableSharing_hides_votes Sample.one_vote Sample.shared_poll 7%nat)
    as (s2 & A & _ & B & C).
  - reflexivity.
  - vm_compute. constructor; [intros [] | constructor].
  - now left.
  - reflexivity.
  - reflexivity.
  - exists s2. split; [exact A|]. split; [exact B|].
    apply (C None). discriminate.
Defined.

(** ** The poll form *)

Lemma option_errors_from (k : nat) (options : list string) :
  (2 <= k)%nat ->
  flat_map (fun '(index, option) =>
              if (index <? 2)%nat && negb (non_blank option)
              then [(index, "This option is required")]
              else [])
           (combine (seq k (List.length options)) options) = [].
Proof.
  revert k. induction options as [|o options IH]; intros k Hk; [reflexivity|].
  cbn [List.length seq combine flat_map].
  rewrite (proj2 (Nat.ltb_ge k 2)) by lia. cbn [andb app]. apply IH. lia.
Qed.

(** [DatabaseService.createPoll] refuses a question that is too short. *)
Lemma createPoll_rejects_short (options : list string) (s : Supabase) (question : string) :
  (String.length (js_trim question) < 5)%nat ->
  exists m, createPoll s question options = (Throws m, s).
Proof.
  intros H. unfold createPoll.
  destruct (checkTableExists s); cbn [negb]; [|eauto].
  destruct (getUser s) as [user|]; [|eauto].
  unfold mutate. destruct (health s) as [[e|m]|]; [eauto | eauto |].
  destruct (insert_poll_rejected s question (filter non_blank options) user (or_introl H)) as [e He].
  rewrite He. eauto.
Qed.

(** X18.  [validateForm] lets the form through exactly when each of the first
    two option inputs that exist is non-blank; the question has no influence
    on the result.  So for a signed-in user the page sends a question that is
    too short to [DatabaseService.createPoll], and it is the database that
    refuses it. *)
Theorem validateForm_ignores_question (s : Supabase) (question : string) (options : list string) :
  fst (PollForm.validateForm question options) = forallb non_blank (firstn 2 options)
  /\ (auth_uid s <> None -> forallb non_blank (firstn 2 options) = true ->
      (String.length (js_trim question) < 5)%nat ->
      exists m, PollForm.createPoll s question options = (Some (Throws m), s)).
Proof.
  assert (V : fst (PollForm.validateForm question options) = forallb non_blank (firstn 2 options)).
  { unfold PollForm.validateForm. cbn [fst PollForm.options].
    replace (PollForm.keys _ =? 0)%nat with false
      by (unfold PollForm.keys; cbn [PollForm.question PollForm.options is_null];
          now destruct (is_null _)).
    cbn [orb].
    destruct options as [|a [|b l]]; [reflexivity | |].
    - cbn. now destruct (non_blank a).
    - cbn [List.length seq combine flat_map firstn forallb].
      rewrite option_errors_from by lia.
      cbn. now destruct (non_blank a), (non_blank b). }
  split; [exact V|].
  intros Ha Hv Hq. unfold PollForm.createPoll.
  destruct (auth_uid s) as [user|] eqn:Eu; [|congruence].
  rewrite V, Hv. cbn [negb].
  destruct (createPoll_rejects_short (filter non_blank options) s question) as [m Hm];
    [exact Hq|].
  rewrite Hm. now exists m.
Qed.

Lemma validateForm_ignores_question_witness :
  exists m, PollForm.createPoll Sample.empty "Hm?" ["Yes"; "No"] = (Some (Throws m), Sample.empty).
Proof.
  apply (proj2 (validateForm_ignores_question Sample.empty "Hm?" ["Yes"; "No"]));
    [discriminate | reflexivity | vm_compute; lia].
Defined.

Lemma remove_index (k i : nat) (l : list string) :
  map snd (filter (fun '(j, _) => negb (j =? i)%nat) (combine (seq k (List.length l)) l))
  = if (i <? k)%nat then l else firstn (i - k) l ++ skipn (S (i - k)) l.
Proof.
  revert k. induction l as [|a l IH]; intros k.
  - cbn [List.length seq combine filter map]. destruct (i <? k)%nat; [reflexivity|].
    now destruct (i - k)%nat.
  - cbn [List.length seq combine filter].
    destruct (Nat.eq_dec k i) as [->|Hne].
    + rewrite Nat.eqb_refl. cbn [negb]. rewrite IH.
      rewrite (proj2 (Nat.ltb_lt i (S i))) by lia.
      rewrite (proj2 (Nat.ltb_ge i i)) by lia. now rewrite Nat.sub_diag.
    + rewrite (proj2 (Nat.eqb_neq k i) Hne). cbn [negb map snd]. rewrite IH.
      destruct (i <? k)%nat eqn:E.
      * apply Nat.ltb_lt in E. now rewrite (proj2 (Nat.ltb_lt i (S k))) by lia.
      * apply Nat.ltb_ge in E. rewrite (proj2 (Nat.ltb_ge i (S k))) by lia.
        replace (i - k)%nat with (S (i - S k)) by lia. reflexivity.
Qed.

(** X19.  The form keeps between 2 and 6 option inputs: [addOption] appends
    an empty input unless there are six, [removeOption] drops the input at the
    index and keeps the others in order unless only two are left.  An added
    empty input does not change the options that are submitted. *)
Theorem form_keeps_two_to_six_options (options : list string) (index : nat) :
  (2 <= List.length options <= 6)%nat ->
  (2 <= List.length (PollForm.addOption options) <= 6)%nat
  /\ (2 <= List.length (PollForm.removeOption options index) <= 6)%nat
  /\ PollForm.addOption options
     = (if (List.length options <? 6)%nat then options ++ [""] else options)
  /\ PollForm.removeOption options index
     = (if (2 <? List.length options)%nat
        then firstn index options ++ skipn (S index) options
        else options)
  /\ filter non_blank (PollForm.addOption options) = filter non_blank options.
Proof.
  intros H.
  assert (R : PollForm.removeOption options index
              = (if (2 <? List.length options)%nat
                 then firstn index options ++ skipn (S index) options
                 else options)).
  { unfold PollForm.removeOption. destruct (2 <? List.length options)%nat; [|reflexivity].
    rewrite remove_index. cbn. now rewrite Nat.sub_0_r. }
  split; [|split; [|split; [|split]]].
  - unfold PollForm.addOption. destruct (List.length options <? 6)%nat eqn:E; [|exact H].
    apply Nat.ltb_lt in E. rewrite length_app. simpl. lia.
  - rewrite R. destruct (2 <? List.length options)%nat eqn:E; [|exact H].
    apply Nat.ltb_lt in E. rewrite length_app, length_firstn, length_skipn. lia.
  - reflexivity.
  - exact R.
  - unfold PollForm.addOption. destruct (List.length options <? 6)%nat; [|reflexivity].
    rewrite filter_app. cbn. apply app_nil_r.
Qed.

Lemma form_keeps_two_to_six_options_witness :
  PollForm.removeOption ["A"; "B"; "C"] 1 = ["A"; "C"]
  /\ PollForm.removeOption ["A"; "B"] 1 = ["A"; "B"]
  /\ (2 <= List.length (PollForm.addOption ["A"; "B"; "C"; "D"; "E"; "F"]) <= 6)%nat.
Proof.
  split; [reflexivity|]. split; [reflexivity|].
  apply (form_keeps_two_to_six_options ["A"; "B"; "C"; "D"; "E"; "F"] 0). simpl. lia.
Defined.

(** ** The constraints of the schema along sequences of calls *)

Lemma Constraints_same_tables (s s' : Supabase) :
  polls s' = polls s -> votes s' = votes s -> Constraints s -> Constraints s'.
Proof.
  intros Hp Hv [A B C D E F]. constructor; rewrite ?Hp, ?Hv; assumption.
Qed.

Lemma NoDup_snoc {A : Type} (l : list A) (x : A) : NoDup l -> ~ In x l -> NoDup (l ++ [x]).
Proof.
  intros Hl Hx. apply NoDup_app; [exact Hl | constructor; [intros [] | constructor] |].
  intros y Hy [<-|[]]. contradiction.
Qed.

Lemma fresh_uuid_not_in (used : list uuid) : ~ In (fresh_uuid used) used.
Proof.
  intros H. now apply (fresh_uuid_unused used _ H).
Qed.

Lemma same_ballot_sym (v w : Votes.row) : same_ballot v w = same_ballot w v.
Proof.
  unfold same_ballot. rewrite (Nat.eqb_sym (Votes.poll_id v)).
  destruct (Votes.voter_session v) as [a|], (Votes.voter_session w) as [b|]; try reflexivity.
  now rewrite (String.eqb_sym a).
Qed.

(** A successful [castVote], in the terms of the constraints. *)
Lemma castVote_returns_row (s s1 : Supabase) (pollId : uuid) (i : Z) (voterSession : string) :
  castVote s pollId i voterSession = (Returns tt, s1) ->
  exists v, s1 = with_votes s (votes s ++ [v])
            /\ Votes.id v = fresh_uuid (map Votes.id (votes s))
            /\ existsb (same_ballot v) (votes s) = false
            /\ votes_insert_check s v = true.
Proof.
  unfold castVote, mutate, insert_vote. intros H.
  destruct (health s) as [[e|m]|] eqn:Hh.
  - destruct (code e =? "23505")%string; discriminate.
  - discriminate.
  - destruct (is_int4 i); simpl in H; [|discriminate].
    destruct (varchar 255 voterSession) as [session|]; [|discriminate].
    destruct (votes_insert_check s _) eqn:Hc; simpl in H; [|discriminate].
    destruct (existsb (same_ballot _) (votes s)) eqn:Hu; [discriminate|].
    destruct (existsb _ (polls s)); simpl in H; [|discriminate].
    injection H as <-. eexists. repeat split; eauto.
Qed.

Lemma Constraints_castVote (s : Supabase) (pollId : uuid) (i : Z) (voterSession : string) :
  Constraints s -> Constraints (snd (castVote s pollId i voterSession)).
Proof.
  intros K. destruct (castVote_cases s pollId i voterSession) as [[m ->]|[s1 R]]; [exact K|].
  rewrite R. cbn [snd].
  destruct (castVote_returns_row _ _ _ _ _ R) as (v & -> & Hid & Hu & Hc).
  destruct K as [A B C D E F]. constructor; cbn [polls votes with_votes]; auto.
  - rewrite map_app. cbn [map]. apply NoDup_snoc; [exact B|]. rewrite Hid.
    apply fresh_uuid_not_in.
  - assert (N : forall w, In w (votes s) -> same_ballot v w = false).
    { intros w Hw. destruct (same_ballot v w) eqn:X; [|reflexivity].
      assert (existsb (same_ballot v) (votes s) = true)
        by (apply existsb_exists; exists w; auto). congruence. }
    intros a b Ha Hb Hab. apply in_app_or in Ha, Hb.
    destruct Ha as [Ha|[<-|[]]], Hb as [Hb|[<-|[]]]; auto.
    + rewrite same_ballot_sym, (N a Ha) in Hab. discriminate.
    + rewrite (N b Hb) in Hab. discriminate.
  - intros w Hw. apply in_app_or in Hw. destruct Hw as [Hw|[<-|[]]]; [now apply F|].
    destruct (votes_insert_check_inv s v Hc) as (p & Hin & Hp & _). now exists p.
Qed.

(** The two ways in which [createPoll] ends. *)
Lemma createPoll_cases (s : Supabase) (question : string) (options : list string) :
  (exists m, createPoll s question options = (Throws m, s))
  \/ (exists r,
        createPoll s question options = (Returns (to_Poll r), with_polls s (polls s ++ [r]))
        /\ Polls.id r = fresh_uuid (map Polls.id (polls s))
        /\ polls_question_check r = true /\ polls_options_check r = true
        /\ Polls.is_public r = false /\ Polls.share_token r = None
        /\ Polls.user_id r = auth_uid s).
Proof.
  unfold createPoll. destruct (checkTableExists s); cbn [negb]; [|eauto].
  destruct (getUser s) as [user|] eqn:Eu; [|eauto].
  unfold mutate. destruct (health s) as [[e|m]|] eqn:Hh; [eauto | eauto |].
  rewrite (getUser_available s Hh) in Eu.
  unfold insert_poll.
  destruct (negb (polls_owner_policy s _)); [eauto|].
  destruct (polls_options_check _) eqn:Eo; cbn [negb]; [|eauto].
  destruct (polls_question_check _) eqn:Eq; cbn [negb]; [|eauto].
  destruct (negb (polls_select_using s _)); [eauto|].
  right. eexists. repeat split; eauto.
Qed.

Lemma Constraints_createPoll (s : Supabase) (question : string) (options : list string) :
  Constraints s -> Constraints (snd (createPoll s question options)).
Proof.
  intros K. destruct (createPoll_cases s question options)
    as [[m ->]|(r & -> & Hid & Hq & Ho & _ & Ht & _)]; [exact K|].
  cbn [snd]. destruct K as [A B C D E F]. constructor; cbn [polls votes with_polls]; auto.
  - rewrite map_app. cbn [map]. apply NoDup_snoc; [exact A|]. rewrite Hid.
    apply fresh_uuid_not_in.
  - intros p Hp. apply in_app_or in Hp. destruct Hp as [Hp|[<-|[]]]; auto.
  - intros p q t Hp Hq' Hpt Hqt. apply in_app_or in Hp, Hq'.
    destruct Hp as [Hp|[<-|[]]], Hq' as [Hq'|[<-|[]]]; try congruence. now apply (D p q t).
  - intros v Hv. destruct (F v Hv) as (p & Hp & E'). exists p. split; [|exact E'].
    apply in_or_app. now left.
Qed.

Lemma new_row_error_checks (s : Supabase) (r : Polls.row) :
  new_row_error s r = None -> polls_question_check r = true /\ polls_options_check r = true.
Proof.
  unfold new_row_error. intros H.
  destruct (negb (polls_owner_policy s r)); [discriminate|].
  destruct (polls_options_check r); cbn [negb] in H; [|discriminate].
  destruct (polls_question_check r); cbn [negb] in H; [|discriminate]. tauto.
Qed.

Lemma Constraints_updatePoll (s : Supabase) (id : uuid) (question : string) (options : list string) :
  Constraints s -> Constraints (snd (updatePoll s id question options)).
Proof.
  intros K. destruct (updatePoll_cases s id question options)
    as [[m ->]|(r & -> & _ & Er & En)]; [exact K|].
  cbn [snd]. destruct K as [A B C D E F].
  set (edit := set_content (js_trim question) (filter non_blank options)) in *.
  set (g := fun p => if update_target s id p then edit p else p).
  assert (Gid : forall p, Polls.id (g p) = Polls.id p)
    by (intros p; unfold g; now destruct (update_target s id p)).
  assert (Gtok : forall p, Polls.share_token (g p) = Polls.share_token p)
    by (intros p; unfold g; now destruct (update_target s id p)).
  constructor; cbn [polls votes with_polls]; auto.
  - rewrite map_map. now rewrite (map_ext _ Polls.id Gid).
  - intros p' Hp'. apply in_map_iff in Hp'. destruct Hp' as (p & <- & Hp).
    unfold g. destruct (update_target s id p) eqn:T; [|now apply C].
    assert (Hr : In (edit p) (map edit (filter (update_target s id) (polls s)))).
    { apply in_map. apply filter_In. now split. }
    rewrite Er in Hr. destruct Hr as [<-|[]]. now apply (new_row_error_checks s).
  - intros p' q' t Hp' Hq' Hpt Hqt.
    apply in_map_iff in Hp', Hq'. destruct Hp' as (p & <- & Hp), Hq' as (q & <- & Hq).
    rewrite Gtok in Hpt, Hqt. now rewrite (D p q t Hp Hq Hpt Hqt).
  - intros v Hv. destruct (F v Hv) as (p & Hp & E'). exists (g p). split.
    + now apply in_map.
    + now rewrite Gid.
Qed.

Lemma NoDup_map_filter {A B : Type} (f : A -> B) (g : A -> bool) (l : list A) :
  NoDup (map f l) -> NoDup (map f (filter g l)).
Proof.
  induction l as [|a l IH]; intros H; [constructor|].
  inversion H as [|x xs Hn Hl]; subst. simpl. destruct (g a); [|now apply IH].
  simpl. constructor; [|now apply IH]. intros X. apply Hn.
  apply in_map_iff in X. destruct X as (y & Ey & Hy). apply filter_In in Hy.
  rewrite <- Ey. apply in_map. tauto.
Qed.

(** The two ways in which [deletePoll] ends. *)
Lemma deletePoll_cases (s : Supabase) (id : uuid) :
  (exists m, deletePoll s id = (Throws m, s))
  \/ deletePoll s id
     = (Returns tt,
        {| health := health s;
           auth_uid := auth_uid s;
           now := now s;
           polls := filter (fun p => negb (update_target s id p)) (polls s);
           votes := if existsb (update_target s id) (polls s)
                    then filter (fun v => negb (Votes.poll_id v =? id)%nat) (votes s)
                    else votes s |}).
Proof.
  unfold deletePoll. destruct (checkTableExists s); cbn [negb]; [|eauto].
  unfold mutate, delete_poll. destruct (health s) as [[e|m]|]; eauto.
Qed.

Lemma Constraints_deletePoll (s : Supabase) (id : uuid) :
  Constraints s -> Constraints (snd (deletePoll s id)).
Proof.
  intros K. destruct (deletePoll_cases s id) as [[m ->] | ->]; [exact K|].
  cbn [snd]. destruct K as [A B C D E F].
  assert (V : forall v, In v (if existsb (update_target s id) (polls s)
                              then filter (fun v => negb (Votes.poll_id v =? id)%nat) (votes s)
                              else votes s) -> In v (votes s)).
  { intros v Hv. destruct (existsb _ (polls s)); [|exact Hv]. apply filter_In in Hv. tauto. }
  constructor; cbn [polls votes].
  - now apply NoDup_map_filter.
  - destruct (existsb _ (polls s)); [now apply NoDup_map_filter | exact B].
  - intros p Hp. apply filter_In in Hp. now apply C.
  - intros p q t Hp Hq. apply filter_In in Hp, Hq. now apply D.
  - intros v w Hv Hw. now apply E; apply V.
  - intros v Hv. destruct (F v (V v Hv)) as (p & Hp & Ep). exists p. split; [|exact Ep].
    apply filter_In. split; [exact Hp|]. apply negb_true_iff.
    destruct (existsb (update_target s id) (polls s)) eqn:G.
    + apply filter_In in Hv. destruct Hv as [_ Hv]. apply negb_true_iff, Nat.eqb_neq in Hv.
      apply update_target_other. congruence.
    + destruct (update_target s id p) eqn:T; [|reflexivity].
      assert (existsb (update_target s id) (polls s) = true)
        by (apply existsb_exists; exists p; auto). congruence.
Qed.

(** A successful update of the sharing columns. *)
Lemma update_sharing_inv (s s' : Supabase) (pollId : uuid) (isPublic : bool)
      (shareToken : option string) (d : option unit) :
  update_sharing s pollId isPublic shareToken = inr (d, s') ->
  exists token,
    s' = updated s pollId isPublic token
    /\ (shareToken = None -> token = None)
    /\ (shareToken <> None -> token <> None)
    /\ (forall p t q, In p (polls s) -> update_target s pollId p = true -> token = Some t ->
                      In q (polls s) -> Polls.id q <> pollId -> token_is t q = false).
Proof.
  unfold update_sharing. intros H.
  destruct (match shareToken with
            | Some t => option_map Some (varchar 32 t)
            | None => Some None
            end) as [token|] eqn:Es; [|discriminate].
  destruct (negb (forallb _ _)); [discriminate|].
  destruct (existsb (update_target s pollId) (polls s) && _) eqn:X; [discriminate|].
  injection H as _ <-. exists token. split; [reflexivity|]. split; [|split].
  - intros ->. congruence.
  - intros Hn. destruct shareToken as [t|]; [|congruence].
    destruct (varchar 32 t); [|discriminate]. cbn in Es. congruence.
  - intros p t q Hp Ht -> Hq Hne.
    assert (G : existsb (update_target s pollId) (polls s) = true)
      by (apply existsb_exists; exists p; auto).
    rewrite G in X. cbn [andb] in X.
    destruct (token_is t q) eqn:T; [|reflexivity].
    assert (existsb (fun r => negb (Polls.id r =? pollId)%nat && token_is t r) (polls s) = true).
    { apply existsb_exists. exists q. split; [exact Hq|].
      now rewrite (proj2 (Nat.eqb_neq _ _) Hne), T. }
    congruence.
Qed.

Lemma update_target_id (s : Supabase) (pollId : uuid) (p : Polls.row) :
  update_target s pollId p = true -> Polls.id p = pollId.
Proof.
  unfold update_target. intros H. apply andb_prop in H. destruct H as [H _].
  apply andb_prop in H. destruct H as [H _]. now apply Nat.eqb_eq.
Qed.

Lemma Constraints_updated (s : Supabase) (pollId : uuid) (isPublic : bool) (token : option string) :
  Constraints s ->
  (forall p t q, In p (polls s) -> update_target s pollId p = true -> token = Some t ->
                 In q (polls s) -> Polls.id q <> pollId -> token_is t q = false) ->
  Constraints (updated s pollId isPublic token).
Proof.
  intros [A B C D E F] Hfree.
  set (g := fun p => if update_target s pollId p then set_sharing isPublic token p else p).
  assert (Gid : forall p, Polls.id (g p) = Polls.id p)
    by (intros p; unfold g; now destruct (update_target s pollId p)).
  assert (Clash : forall p q t, In p (polls s) -> In q (polls s) ->
                    update_target s pollId p = true -> update_target s pollId q = false ->
                    token = Some t -> Polls.share_token q = Some t -> False).
  { intros p q t Hp Hq Tp Tq Et Hqt.
    destruct (Nat.eq_dec (Polls.id q) pollId) as [I|I].
    - assert (q = p).
      { apply (primary_key (polls s)); auto. rewrite I. symmetry.
        now apply (update_target_id s). }
      subst q. congruence.
    - pose proof (Hfree p t q Hp Tp Et Hq I) as X. unfold token_is in X.
      rewrite Hqt, String.eqb_refl in X. discriminate. }
  constructor; unfold updated; cbn [polls votes with_polls]; auto.
  - rewrite map_map. now rewrite (map_ext _ Polls.id Gid).
  - intros p' Hp'. apply in_map_iff in Hp'. destruct Hp' as (p & <- & Hp).
    destruct (update_target s pollId p); exact (C p Hp).
  - intros p' q' t Hp' Hq' Hpt Hqt.
    apply in_map_iff in Hp', Hq'. destruct Hp' as (p & <- & Hp), Hq' as (q & <- & Hq).
    destruct (update_target s pollId p) eqn:Tp, (update_target s pollId q) eqn:Tq.
    + assert (q = p).
      { apply (primary_key (polls s)); auto.
        rewrite (update_target_id s _ _ Tp). now apply (update_target_id s). }
      now subst q.
    + exfalso. cbn [set_sharing Polls.share_token] in Hpt. now apply (Clash p q t).
    + exfalso. cbn [set_sharing Polls.share_token] in Hqt. now apply (Clash q p t).
    + now apply (D p q t).
  - intros v Hv. destruct (F v Hv) as (p & Hp & E'). exists (g p). split.
    + now apply in_map.
    + now rewrite Gid.
Qed.

(** The state after a call of one of the two methods that change the
    sharing of a poll. *)
Lemma generateShareLink_state (rnd : Entropy) (s : Supabase) (pollId : uuid) :
  snd (generateShareLink rnd s pollId) = s
  \/ exists token,
       snd (generateShareLink rnd s pollId) = updated s pollId true (Some token)
       /\ (forall p t q, In p (polls s) -> update_target s pollId p = true -> Some token = Some t ->
                         In q (polls s) -> Polls.id q <> pollId -> token_is t q = false).
Proof.
  unfold generateShareLink, query, mutate.
  destruct (health s) as [[e|m]|]; [now left | now left |]. cbv beta iota.
  destruct (update_sharing s pollId true (Some (generate_share_token rnd))) as [e|[d s']] eqn:U;
    [now left|].
  destruct (update_sharing_inv _ _ _ _ _ _ U) as (token & -> & _ & Hs & Hfree).
  destruct token as [t|]; [|elim Hs; [discriminate | reflexivity]].
  right. exists t. split; [reflexivity | exact Hfree].
Qed.

Lemma disableSharing_state (s : Supabase) (pollId : uuid) :
  snd (disableSharing s pollId) = s \/ snd (disableSharing s pollId) = updated s pollId false None.
Proof.
  unfold disableSharing, mutate.
  destruct (health s) as [[e|m]|]; [now left | now left |].
  destruct (update_sharing s pollId false None) as [e|[d s']] eqn:U; [now left|].
  destruct (update_sharing_inv _ _ _ _ _ _ U) as (token & -> & Hn & _).
  right. now rewrite (Hn eq_refl).
Qed.

Lemma Constraints_step (s : Supabase) (c : Call) : Constraints s -> Constraints (step s c).
Proof.
  intros K. destruct c; cbn [step];
    try (apply (Constraints_same_tables s); [reflexivity | reflexivity | exact K]).
  - now apply Constraints_castVote.
  - now apply Constraints_createPoll.
  - now apply Constraints_updatePoll.
  - now apply Constraints_deletePoll.
  - destruct (generateShareLink_state rnd s pollId) as [->|(token & -> & Hfree)]; [exact K|].
    now apply Constraints_updated.
  - destruct (disableSharing_state s pollId) as [->| ->]; [exact K|].
    apply Constraints_updated; [exact K|]. intros p t q _ _ [=].
Qed.

(** X20.  The constraints of the schema hold along every sequence of calls:
    if in a state the identifiers of polls and of votes are distinct, every
    poll passes the two CHECK constraints, no two polls have the same share
    token, no session has two ballots in one poll and every vote belongs to a
    poll of the table, then the same is true after any sequence of sign-ins,
    sign-outs, outages and calls of [castVote], [createPoll], [updatePoll],
    [deletePoll], [generateShareLink] and [disableSharing]. *)
Theorem constraints_hold_along_calls (s : Supabase) (calls : list Call) :
  Constraints s -> Constraints (run s calls).
Proof.
  revert s. induction calls as [|c calls IH]; intros s K; [exact K|].
  cbn [run fold_left]. apply IH. now apply Constraints_step.
Qed.

Lemma constraints_hold_along_calls_witness :
  Constraints (run Sample.empty
                   [ Create_poll "A or B?" ["A"; "B"];
                     Generate_share_link Sample.entropy 1%nat;
                     Sign_out;
                     Cast_vote 1%nat 0 "voter_1";
                     Cast_vote 1%nat 1 "voter_1";
                     Sign_in 7%nat;
                     Update_poll 1%nat "A, B or C?" ["A"; "B"; "C"];
                     Delete_poll 1%nat ]).
Proof.
  apply (constraints_hold_along_calls Sample.empty).
  constructor; simpl; try (intros; contradiction); constructor.
Defined.

Lemma sharing_consistent_updated (s : Supabase) (pollId : uuid) (isPublic : bool)
      (token : option string) :
  (isPublic = true <-> token <> None) ->
  sharing_consistent s -> sharing_consistent (updated s pollId isPublic token).
Proof.
  intros H K p' Hp'. unfold updated in Hp'. cbn [polls with_polls] in Hp'.
  apply in_map_iff in Hp'. destruct Hp' as (p & <- & Hp).
  destruct (update_target s pollId p); [exact H | now apply K].
Qed.

Lemma sharing_consistent_step (s : Supabase) (c : Call) :
  sharing_consistent s -> sharing_consistent (step s c).
Proof.
  intros K. destruct c; cbn [step]; try exact K.
  - destruct (castVote_cases s pollId optionIndex voterSession) as [[m ->]|[s1 R]]; [exact K|].
    rewrite R. destruct (castVote_returns_row _ _ _ _ _ R) as (v & -> & _). exact K.
  - destruct (createPoll_cases s question options)
      as [[m ->]|(r & -> & _ & _ & _ & Hpub & Ht & _)]; [exact K|].
    intros p Hp. cbn [snd polls with_polls] in Hp. apply in_app_or in Hp.
    destruct Hp as [Hp|[<-|[]]]; [now apply K|]. rewrite Hpub, Ht. split; [discriminate | congruence].
  - destruct (updatePoll_cases s id question options) as [[m ->]|(r & -> & _)]; [exact K|].
    intros p' Hp'. cbn [snd polls with_polls] in Hp'. apply in_map_iff in Hp'.
    destruct Hp' as (p & <- & Hp). destruct (update_target s id p); exact (K p Hp).
  - destruct (deletePoll_cases s id) as [[m ->] | ->]; [exact K|].
    intros p Hp. cbn [snd polls] in Hp. apply filter_In in Hp. now apply K.
  - destruct (generateShareLink_state rnd s pollId) as [->|(token & -> & _)]; [exact K|].
    apply sharing_consistent_updated; [|exact K]. split; [discriminate | reflexivity].
  - destruct (disableSharing_state s pollId) as [->| ->]; [exact K|].
    apply sharing_consistent_updated; [|exact K]. split; [discriminate | congruence].
Qed.

(** X21.  A poll is public exactly when it has a share token, along every
    sequence of calls of the methods of [DatabaseService]: what holds of the
    rows of [polls] in a state holds after any sequence of sign-ins,
    sign-outs, outages and calls of the six methods that write. *)
Theorem public_iff_share_token_along_calls (s : Supabase) (calls : list Call) :
  sharing_consistent s -> sharing_consistent (run s calls).
Proof.
  revert s. induction calls as [|c calls IH]; intros s K; [exact K|].
  cbn [run fold_left]. apply IH. now apply sharing_consistent_step.
Qed.

Lemma public_iff_share_token_along_calls_witness :
  sharing_consistent (run Sample.legacy
                          [ Sign_in 7%nat;
                            Create_poll "A or B?" ["A"; "B"];
                            Generate_share_link Sample.entropy 2%nat;
                            Disable_sharing 2%nat;
                            Generate_share_link Sample.entropy' 2%nat ]).
Proof.
  apply (public_iff_share_token_along_calls Sample.legacy).
  intros p [<-|[]]. split; [discriminate | intros H; now elim H].
Defined.

(** ** What the pages show *)

Lemma nth_error_combine_seq {A : Type} (k : nat) (l : list A) (index : nat) (a : A) :
  nth_error l index = Some a ->
  nth_error (combine (seq k (List.length l)) l) index = Some ((k + index)%nat, a).
Proof.
  revert k index. induction l as [|x l IH]; intros k index H; [now destruct index|].
  destruct index as [|index]; cbn [List.length seq combine nth_error] in *.
  - injection H as ->. now rewrite Nat.add_0_r.
  - rewrite (IH (S k) index H). do 2 f_equal. lia.
Qed.

(** The count that the pages read for an option index: the one of its row, or
    0 when the statistics have no row for it. *)
Lemma find_statistics_count (s : Supabase) (poll_uuid : uuid) (k : Z) :
  match find (fun e => PollStatistics.option_index e =? k) (get_poll_statistics s poll_uuid) with
  | Some e => PollStatistics.vote_count e
  | None => 0
  end
  = Z.of_nat (count_occ Z.eq_dec (map Votes.option_index (votes_of s poll_uuid)) k).
Proof.
  pose proof (get_poll_statistics_perm s poll_uuid) as P. cbv zeta in P.
  set (chosen := map Votes.option_index (votes_of s poll_uuid)) in *.
  destruct (find _ (get_poll_statistics s poll_uuid)) as [e|] eqn:Ef.
  - apply find_some in Ef. destruct Ef as [He Hk]. apply Z.eqb_eq in Hk.
    apply (Permutation_in _ P) in He. apply in_map_iff in He.
    destruct He as (k' & <- & _). cbn in *. now subst k'.
  - destruct (in_dec Z.eq_dec k chosen) as [Hin|Hin].
    + exfalso. apply (nodup_In Z.eq_dec) in Hin.
      apply (in_map (fun k0 =>
               {| PollStatistics.option_index := k0;
                  PollStatistics.vote_count := Z.of_nat (count_occ Z.eq_dec chosen k0);
                  PollStatistics.percentage :=
                    if 0 <? total_votes (vote_counts s poll_uuid)
                    then ROUND (inject_Z (Z.of_nat (count_occ Z.eq_dec chosen k0))
                                / inject_Z (total_votes (vote_counts s poll_uuid)) * 100) 2
                    else 0 # 100 |})) in Hin.
      apply (Permutation_in _ (Permutation_sym P)) in Hin.
      apply (find_none _ _ Ef) in Hin. cbn in Hin. rewrite Z.eqb_refl in Hin. discriminate.
    + now rewrite (proj1 (count_occ_not_In Z.eq_dec chosen k) Hin).
Qed.

(** X22.  On an available database the results of the public page have one
    entry for each option of the poll, in the order of the options, and the
    votes shown for an option are the number of votes of the poll (that the
    caller may read) for the index of the option: 0 when [get_poll_statistics]
    has no row for it. *)
Theorem results_show_every_option (s : Supabase) (p : Poll.t) (voterSession : option string) :
  health s = None ->
  List.length (PublicPollPage.results (with_stats s p voterSession)) = List.length (Poll.options p)
  /\ forall index option,
       nth_error (Poll.options p) index = Some option ->
       exists r,
         nth_error (PublicPollPage.results (with_stats s p voterSession)) index = Some r
         /\ PublicPollPage.label r = option
         /\ PublicPollPage.shown_votes r
            = Z.of_nat (count_occ Z.eq_dec (map Votes.option_index (votes_of s (Poll.id p)))
                                  (Z.of_nat index)).
Proof.
  intros Hh. unfold PublicPollPage.results.
  change (PollWithStats.options (with_stats s p voterSession)) with (Poll.options p).
  assert (S : PollWithStats.statistics (with_stats s p voterSession)
              = get_poll_statistics s (Poll.id p)).
  { cbn [with_stats PollWithStats.statistics]. unfold getPollStatistics, query. now rewrite Hh. }
  split.
  - rewrite length_map, length_combine, length_seq. lia.
  - intros index option Hn.
    erewrite map_nth_error; [|apply nth_error_combine_seq; exact Hn].
    eexists. split; [reflexivity|]. cbn [PublicPollPage.label PublicPollPage.shown_votes].
    split; [reflexivity|]. rewrite S. cbn [Nat.add]. apply find_statistics_count.
Qed.

Lemma results_show_every_option_witness :
  map PublicPollPage.shown_votes
      (PublicPollPage.results (with_stats Sample.one_vote (to_Poll Sample.shared_poll) None))
  = [1; 0]
  /\ List.length (PublicPollPage.results (with_stats Sample.one_vote (to_Poll Sample.shared_poll) None))
     = 2%nat.
Proof.
  split; [reflexivity|].
  apply (results_show_every_option Sample.one_vote (to_Poll Sample.shared_poll) None).
  reflexivity.
Defined.

Lemma getPollByShareTokenWithStats_available (s : Supabase) (token : string)
      (voterSession : option string) :
  health s = None ->
  exists updatedPoll, getPollByShareTokenWithStats s token voterSession = Returns updatedPoll.
Proof.
  intros Hh. unfold getPollByShareTokenWithStats, getPollByShareToken, query. rewrite Hh.
  destruct (select_polls s _) as [|r [|r' l]]; cbn; eauto.
Qed.

(** X23.  The visitor of a public poll presses "Cast Your Vote" with an option
    selected: on an available database [handleVote] always ends with
    [hasVoted] set and with a ballot of the page's session in the poll.  It
    announces "Vote Recorded" when the session had no ballot, and the selected
    option is then stored; it announces "Already Voted" and stores nothing
    when the session had one. *)
Theorem handleVote_public_poll (token : string) (s : Supabase) (st : PublicPollPage.State)
        (shown : PollWithStats.t) (p : Polls.row) (selected : Z) :
  health s = None ->
  PublicPollPage.poll st = Some shown -> PublicPollPage.selectedOption st = Some selected ->
  is_int4 selected = true ->
  PublicPollPage.voterSession st <> "" ->
  (String.length (PublicPollPage.voterSession st) <= 255)%nat ->
  In p (polls s) -> Polls.id p = Poll.id (PollWithStats.poll shown) ->
  Polls.is_public p = true -> polls_select_using s p = true ->
  exists st' toast s',
    PublicPollPage.handleVote token s st = (st', Some toast, s')
    /\ PublicPollPage.hasVoted st' = true
    /\ ballots s' (Polls.id p) (PublicPollPage.voterSession st) <> []
    /\ (ballots s (Polls.id p) (PublicPollPage.voterSession st) = [] ->
        toast = PublicPollPage.Vote_Recorded
        /\ exists v, votes s' = votes s ++ [v] /\ Votes.option_index v = selected)
    /\ (ballots s (Polls.id p) (PublicPollPage.voterSession st) <> [] ->
        toast = PublicPollPage.Already_Voted /\ s' = s).
Proof.
  intros Hh Hpoll Hsel Hint Hne Hlen Hin Hid Hpub Hvis.
  set (session := PublicPollPage.voterSession st) in *.
  unfold PublicPollPage.handleVote. rewrite Hsel, Hpoll. fold session.
  rewrite (proj2 (String.eqb_neq session "") Hne), <- Hid.
  destruct (ballots s (Polls.id p) session) as [|w l] eqn:Hb.
  - rewrite (castVote_fresh_session s p selected session) by assumption.
    set (s1 := with_votes s (votes s ++ [new_vote s (Polls.id p) selected session])).
    destruct (getPollByShareTokenWithStats_available s1 token (Some session) Hh) as [up ->].
    eexists _, _, s1. split; [reflexivity|]. split; [reflexivity|]. split; [|split].
    + unfold ballots, s1. cbn [votes with_votes]. rewrite filter_app.
      cbn [filter new_vote Votes.poll_id Votes.voter_session].
      rewrite (varchar_fits _ _ Hlen), Nat.eqb_refl, String.eqb_refl. cbn.
      intros X. apply app_eq_nil in X. destruct X as [_ X]. discriminate.
    + intros _. split; [reflexivity|]. eexists. split; reflexivity.
    + intros X. now elim X.
  - assert (Hw : In w (ballots s (Polls.id p) session)) by (rewrite Hb; now left).
    unfold ballots in Hw. apply filter_In in Hw. destruct Hw as [Hw Hc].
    rewrite (varchar_fits _ _ Hlen) in Hc. apply andb_prop in Hc. destruct Hc as [Hc1 Hc2].
    apply Nat.eqb_eq in Hc1.
    destruct (Votes.voter_session w) as [a|] eqn:Ea; [|discriminate].
    apply String.eqb_eq in Hc2. subst a.
    assert (D : insert_vote s (Polls.id p) selected session
                = inl (unique_violation "votes_poll_id_voter_session_key")).
    { apply insert_vote_duplicate with session w; auto using varchar_fits.
      intros v Hv. now apply (votes_insert_check_public s v p). }
    unfold castVote, mutate. rewrite Hh, D. cbn.
    eexists _, _, s. split; [reflexivity|]. split; [reflexivity|]. split; [|split].
    + rewrite Hb. discriminate.
    + intros X. discriminate X.
    + intros _. split; reflexivity.
Qed.

Lemma handleVote_public_poll_witness :
  exists st' s',
    PublicPollPage.handleVote
      "0000000000000000ab54a98ceb1f0ad2" Sample.one_vote
      {| PublicPollPage.poll := Some Sample.tied;
         PublicPollPage.selectedOption := Some 1;
         PublicPollPage.hasVoted := false;
         PublicPollPage.voterSession := "voter_1" |}
    = (st', Some PublicPollPage.Already_Voted, s')
    /\ PublicPollPage.hasVoted st' = true.
Proof.
  destruct (handleVote_public_poll
              "0000000000000000ab54a98ceb1f0ad2" Sample.one_vote
              {| PublicPollPage.poll := Some Sample.tied;
                 PublicPollPage.selectedOption := Some 1;
                 PublicPollPage.hasVoted := false;
                 PublicPollPage.voterSession := "voter_1" |}
              Sample.tied Sample.shared_poll 1)
    as (st' & toast & s' & H & Hv & _ & _ & Ha); try reflexivity.
  - discriminate.
  - simpl. lia.
  - now left.
  - exists st', s'. destruct Ha as [-> _]; [vm_compute; discriminate|].
    split; [exact H | exact Hv].
Defined.

(** ** The figures of the dashboard *)

Lemma fold_left_add {A : Type} (f : A -> Z) (l : list A) (a : Z) :
  fold_left (fun sum x => sum + f x) l a = a + fold_right Z.add 0 (map f l).
Proof.
  revert a. induction l as [|x l IH]; intros a; simpl; [lia|]. rewrite IH. lia.
Qed.

Lemma length_filter_orb {A : Type} (f g : A -> bool) (l : list A) :
  (forall x, In x l -> f x = true -> g x = false) ->
  List.length (filter (fun x => f x || g x) l)
  = (List.length (filter f l) + List.length (filter g l))%nat.
Proof.
  induction l as [|a l IH]; intros H; [reflexivity|]. simpl.
  assert (IH' := IH (fun x Hx => H x (or_intror Hx))).
  destruct (f a) eqn:Ef.
  - rewrite (H a (or_introl eq_refl) Ef). simpl. now rewrite IH'.
  - destruct (g a); simpl; rewrite IH'; lia.
Qed.

(** Each vote is counted for one poll: with distinct identifiers, the totals
    of a list of polls add up to the number of votes cast in them. *)
Lemma votes_by_poll (P : list Polls.row) (V : list Votes.row) :
  NoDup (map Polls.id P) ->
  fold_right Z.add 0
    (map (fun p => Z.of_nat (List.length
                               (filter (fun v => (Votes.poll_id v =? Polls.id p)%nat) V))) P)
  = Z.of_nat (List.length
                (filter (fun v => existsb (fun p => (Votes.poll_id v =? Polls.id p)%nat) P) V)).
Proof.
  induction P as [|a P IH]; intros Hnd.
  - cbn. now rewrite filter_none.
  - inversion Hnd as [|x xs Hn Hnd']; subst. cbn [map fold_right existsb].
    rewrite (IH Hnd'), length_filter_orb; [lia|].
    intros v _ Hv. apply Nat.eqb_eq in Hv.
    destruct (existsb _ P) eqn:E; [|reflexivity].
    apply existsb_exists in E. destruct E as (p & Hp & Ep). apply Nat.eqb_eq in Ep.
    elim Hn. rewrite <- Hv, Ep. now apply in_map.
Qed.

Lemma filter_perm {A : Type} (f : A -> bool) (l l' : list A) :
  Permutation l l' -> Permutation (filter f l) (filter f l').
Proof.
  induction 1 as [|x l l' _ IH|x y l|l l' l'' _ IH1 _ IH2]; simpl.
  - constructor.
  - destruct (f x); [now constructor | exact IH].
  - destruct (f x), (f y); try reflexivity. apply perm_swap.
  - now transitivity (filter f l').
Qed.

(** The rows behind [getUserPolls]. *)
Lemma polls_listed_by_owner (s : Supabase) (user : uuid) :
  health s = None -> auth_uid s = Some user ->
  exists rows,
    getUserPolls s = Returns (map to_Poll rows)
    /\ Permutation rows
         (filter (fun p => match Polls.user_id p with
                           | Some o => (o =? user)%nat
                           | None => false
                           end) (polls s))
    /\ StronglySorted (fun a b => Polls.created_at b <= Polls.created_at a) rows.
Proof.
  intros Hh Ha.
  exists (order_by_created_at_desc
            (select_polls s (fun p => match Polls.user_id p with
                                      | Some o => (o =? user)%nat
                                      | None => false
                                      end))).
  split; [|split].
  - unfold getUserPolls, query.
    rewrite (checkTableExists_available s Hh), (getUser_available s Hh), Ha, Hh. reflexivity.
  - rewrite order_by_created_at_desc_perm. unfold select_polls.
    erewrite filter_ext; [reflexivity|]. intros p. cbv beta.
    destruct (Polls.user_id p) as [o|] eqn:Eo; [|apply andb_false_r].
    destruct (o =? user)%nat eqn:E; [|apply andb_false_r].
    apply Nat.eqb_eq in E. subst o. unfold polls_select_using, is_auth_uid.
    now rewrite Eo, Ha, Nat.eqb_refl.
  - apply order_by_created_at_desc_sorted.
Qed.

(** X24.  For a signed-in user on an available database with distinct poll
    identifiers, the dashboard built from [getUserPollsWithStats] shows as
    "Total Polls" the number of the user's polls, as active polls the number
    of the public ones among them, and as total votes the number of votes
    stored for the user's polls, each vote counted once. *)
Theorem dashboard_figures (s : Supabase) (user : uuid) :
  health s = None -> auth_uid s = Some user -> NoDup (map Polls.id (polls s)) ->
  let owned := filter (fun p => match Polls.user_id p with
                                | Some o => (o =? user)%nat
                                | None => false
                                end) (polls s) in
  exists shown,
    getUserPollsWithStats s = Returns shown
    /\ UserDashboard.totalPolls shown = List.length owned
    /\ UserDashboard.activePolls shown = List.length (filter Polls.is_public owned)
    /\ UserDashboard.totalVotes shown
       = Z.of_nat (List.length
                     (filter (fun v => existsb (fun p => (Votes.poll_id v =? Polls.id p)%nat) owned)
                             (votes s))).
Proof.
  intros Hh Ha Hnd owned.
  destruct (polls_listed_by_owner s user Hh Ha) as (rows & Hget & Hperm & _).
  fold owned in Hperm.
  unfold getUserPollsWithStats. rewrite Hget. eexists. split; [reflexivity|].
  unfold UserDashboard.totalPolls, UserDashboard.activePolls, UserDashboard.totalVotes.
  split; [|split].
  - rewrite !length_map. now apply Permutation_length.
  - rewrite <- (Permutation_length (filter_perm Polls.is_public _ _ Hperm)).
    rewrite map_map. clear. induction rows as [|r rows IH]; [reflexivity|].
    cbn [map filter PollWithStats.poll to_Poll Poll.is_public].
    destruct (Polls.is_public r); cbn [List.length]; now rewrite IH.
  - rewrite fold_left_add, !map_map. cbn [PollWithStats.total_votes to_Poll Poll.id].
    rewrite <- (votes_by_poll owned (votes s)) by now apply NoDup_map_filter.
    rewrite <- (Zsum_perm _ _ (Permutation_map _ Hperm)). cbn [Z.add].
    f_equal. apply map_ext_in. intros r Hr.
    assert (Hr' : In r owned) by now apply (Permutation_in _ Hperm).
    unfold owned in Hr'. apply filter_In in Hr'. destruct Hr' as [Hin Ho].
    destruct (Polls.user_id r) as [o|] eqn:Eo; [|discriminate].
    apply Nat.eqb_eq in Ho. subst o.
    assert (Auth : is_auth_uid s (Polls.user_id r) = true).
    { unfold is_auth_uid. now rewrite Eo, Ha, Nat.eqb_refl. }
    unfold getPollTotalVotes, query, get_poll_total_votes. rewrite Hh. cbn [COALESCE].
    rewrite (votes_of_visible_poll s r); [reflexivity | exact Hin | |].
    + unfold polls_select_using. now rewrite Auth.
    + rewrite Auth. apply orb_true_r.
Qed.

Lemma dashboard_figures_witness :
  exists shown,
    getUserPollsWithStats Sample.one_vote = Returns shown
    /\ UserDashboard.totalVotes shown = 1
    /\ UserDashboard.activePolls shown = 1%nat.
Proof.
  destruct (dashboard_figures Sample.one_vote 7%nat) as (shown & A & _ & B & C).
  - reflexivity.
  - reflexivity.
  - vm_compute. constructor; [intros [] | constructor].
  - exists shown. split; [exact A|]. split; [rewrite C | rewrite B]; reflexivity.
Defined.

(** ** Loading the public page *)

Lemma all_equal_NoDup {A : Type} (l : list A) (a : A) :
  NoDup l -> In a l -> (forall x, In x l -> x = a) -> l = [a].
Proof.
  intros Hnd Hin Hall. destruct l as [|x l]; [contradiction|].
  assert (x = a) by (apply Hall; now left). subst x.
  destruct l as [|y l]; [reflexivity|].
  assert (y = a) by (apply Hall; right; now left). subst y.
  inversion Hnd as [|? ? Hn _]; subst. elim Hn. now left.
Qed.

Lemma at_most_one_NoDup {A : Type} (l : list A) :
  NoDup l -> (forall x y, In x l -> In y l -> x = y) -> l = [] \/ exists a, l = [a].
Proof.
  intros Hnd Hall. destruct l as [|a l]; [now left|]. right. exists a.
  apply all_equal_NoDup; [exact Hnd | now left|]. intros x Hx. apply Hall; [exact Hx | now left].
Qed.

(** With the unique constraint on [share_token], a token leads to one poll. *)
Lemma getPollByShareToken_shared (s : Supabase) (p : Polls.row) (token : string) :
  health s = None -> Constraints s ->
  In p (polls s) -> Polls.share_token p = Some token -> Polls.is_public p = true ->
  getPollByShareToken s token = Returns (Some (to_Poll p)).
Proof.
  intros Hh K Hp Ht Hpub. unfold getPollByShareToken, query. rewrite Hh.
  assert (Hsel : polls_select_using s p = true).
  { unfold polls_select_using. rewrite Hpub, Ht. cbn. apply orb_true_r. }
  rewrite (all_equal_NoDup (select_polls s _) p); [reflexivity | | |].
  - unfold select_polls. apply NoDup_filter. apply NoDup_map_inv_rows. apply (polls_pkey s K).
  - unfold select_polls. apply filter_In. split; [exact Hp|].
    unfold token_is. now rewrite Hsel, Ht, String.eqb_refl, Hpub.
  - intros q Hq. unfold select_polls in Hq. apply filter_In in Hq. destruct Hq as [Hq Hc].
    apply andb_prop in Hc. destruct Hc as [_ Hc]. apply andb_prop in Hc. destruct Hc as [Hc _].
    unfold token_is in Hc. destruct (Polls.share_token q) as [u|] eqn:Eu; [|discriminate].
    apply String.eqb_eq in Hc. subst u. now apply (polls_share_token_key s K q p token).
Qed.

(** X25.  The public page is opened with the token of a shared poll and a
    session identifier of at most 255 characters, not empty: on an available
    database that satisfies its constraints, [loadPoll] shows the poll; if the
    session holds a ballot in the poll, the page starts with [hasVoted] set
    and the option of the ballot selected, otherwise with neither. *)
Theorem loadPoll_restores_vote (s : Supabase) (p : Polls.row) (token sessionId : string) :
  health s = None -> Constraints s ->
  In p (polls s) -> Polls.share_token p = Some token -> Polls.is_public p = true ->
  sessionId <> "" -> (String.length sessionId <= 255)%nat ->
  exists st,
    PublicPollPage.loadPoll token s sessionId = (st, None)
    /\ option_map PollWithStats.poll (PublicPollPage.poll st) = Some (to_Poll p)
    /\ PublicPollPage.voterSession st = sessionId
    /\ (forall v, In v (ballots s (Polls.id p) sessionId) ->
                  PublicPollPage.hasVoted st = true
                  /\ PublicPollPage.selectedOption st = Some (Votes.option_index v))
    /\ (ballots s (Polls.id p) sessionId = [] ->
        PublicPollPage.hasVoted st = false /\ PublicPollPage.selectedOption st = None).
Proof.
  intros Hh K Hp Ht Hpub Hne Hlen.
  assert (Hsel : polls_select_using s p = true).
  { unfold polls_select_using. rewrite Hpub, Ht. cbn. apply orb_true_r. }
  unfold PublicPollPage.loadPoll, getPollByShareTokenWithStats.
  rewrite (getPollByShareToken_shared s p token) by assumption.
  assert (U : PollWithStats.user_vote (with_stats s (to_Poll p) (Some sessionId))
              = match ballots s (Polls.id p) sessionId with
                | [v] => Some (Votes.option_index v)
                | _ => None
                end).
  { cbn [with_stats PollWithStats.user_vote]. rewrite (proj2 (String.eqb_neq _ _) Hne).
    change (Poll.id (to_Poll p)) with (Polls.id p).
    unfold getUserVote, query. rewrite Hh.
    replace (filter _ (votes s)) with (ballots s (Polls.id p) sessionId).
    - now destruct (ballots s (Polls.id p) sessionId) as [|v [|w l]].
    - unfold ballots. rewrite (varchar_fits _ _ Hlen). apply filter_ext_in. intros v Hv.
      destruct (Votes.poll_id v =? Polls.id p)%nat eqn:E; [|now rewrite andb_false_r].
      apply Nat.eqb_eq in E.
      rewrite (votes_select_using_public s v p) by (auto; congruence). reflexivity. }
  assert (B : ballots s (Polls.id p) sessionId = []
              \/ exists v, ballots s (Polls.id p) sessionId = [v]).
  { apply at_most_one_NoDup.
    - unfold ballots. apply NoDup_filter. apply (NoDup_map_inv Votes.id). apply (votes_pkey s K).
    - intros v w Hv Hw. unfold ballots in Hv, Hw. apply filter_In in Hv, Hw.
      destruct Hv as [Hv Cv], Hw as [Hw Cw].
      apply (votes_poll_id_voter_session_key s K v w Hv Hw).
      rewrite (varchar_fits _ _ Hlen) in Cv, Cw.
      apply andb_prop in Cv, Cw. destruct Cv as [Cv1 Cv2], Cw as [Cw1 Cw2].
      apply Nat.eqb_eq in Cv1, Cw1. unfold same_ballot. rewrite Cv1, Cw1, Nat.eqb_refl.
      destruct (Votes.voter_session v) as [a|]; [|discriminate].
      destruct (Votes.voter_session w) as [b|]; [|discriminate].
      apply String.eqb_eq in Cv2, Cw2. subst a b. cbn. apply String.eqb_refl. }
  rewrite U. destruct B as [B|[v B]]; rewrite B.
  - eexists. split; [reflexivity|]. cbn.
    split; [reflexivity|]. split; [reflexivity|]. split; [intros w []|]. now split.
  - eexists. split; [reflexivity|]. cbn.
    split; [reflexivity|]. split; [reflexivity|]. split; [|discriminate].
    intros w [<-|[]]. now split.
Qed.

Lemma loadPoll_restores_vote_witness :
  exists st,
    PublicPollPage.loadPoll "0000000000000000ab54a98ceb1f0ad2" Sample.one_vote "voter_1" = (st, None)
    /\ PublicPollPage.hasVoted st = true
    /\ PublicPollPage.selectedOption st = Some 0.
Proof.
  destruct (loadPoll_restores_vote Sample.one_vote Sample.shared_poll
              "0000000000000000ab54a98ceb1f0ad2" "voter_1") as (st & A & _ & _ & B & _).
  - reflexivity.
  - constructor.
    + vm_compute. constructor; [intros [] | constructor].
    + vm_compute. constructor; [intros [] | constructor].
    + intros p Hp. vm_compute in Hp. destruct Hp as [<-|[]]. split; reflexivity.
    + intros p q t Hp Hq. vm_compute in Hp, Hq. destruct Hp as [<-|[]], Hq as [<-|[]]. reflexivity.
    + intros v w Hv Hw. vm_compute in Hv, Hw. destruct Hv as [<-|[]], Hw as [<-|[]]. reflexivity.
    + intros v Hv. vm_compute in Hv. destruct Hv as [<-|[]].
      exists Sample.shared_poll. split; [vm_compute; now left | reflexivity].
  - vm_compute. now left.
  - reflexivity.
  - reflexivity.
  - discriminate.
  - cbn. lia.
  - assert (H : exists v, In v (ballots Sample.one_vote 1%nat "voter_1")
                          /\ Votes.option_index v = 0)
      by (vm_compute; eexists; split; [left; reflexivity | reflexivity]).
    destruct H as (v & Hv & E). destruct (B v Hv) as [B1 B2]. rewrite E in B2.
    exists st. split; [exact A|]. split; [exact B1 | exact B2].
Defined.

(** ** The winner's mark on the two pages *)

Lemma getWinningOption_label (shown : PollWithStats.t) (w : PublicPollPage.Winner) :
  PublicPollPage.getWinningOption (Some shown) = Some w ->
  PublicPollPage.option' w
  = js_index (PollWithStats.options shown) (PublicPollPage.optionIndex w).
Proof.
  unfold PublicPollPage.getWinningOption.
  destruct (List.length (PollWithStats.statistics shown) =? 0)%nat; [discriminate|].
  destruct (find _ (PollWithStats.statistics shown)); [|discriminate].
  destruct (Math_max _) as [[|m|m]|]; try discriminate; intros [= <-]; reflexivity.
Qed.

(** X26.  The dashboard marks the winner by comparing labels, the public page
    by comparing indices.  When the labels of the options of a poll are
    distinct, both mark the same options. *)
Theorem dashboard_marks_same_winner (shown : PollWithStats.t) (index : nat) (option : string) :
  NoDup (PollWithStats.options shown) ->
  nth_error (PollWithStats.options shown) index = Some option ->
  exists r,
    nth_error (PublicPollPage.results shown) index = Some r
    /\ UserDashboard.isWinning shown index option = PublicPollPage.isWinning r.
Proof.
  intros Hnd Hn. unfold PublicPollPage.results.
  erewrite map_nth_error; [|apply nth_error_combine_seq; exact Hn].
  eexists. split; [reflexivity|]. cbn [PublicPollPage.isWinning Nat.add].
  unfold UserDashboard.isWinning. rewrite UserDashboard_getWinningOption_agrees.
  destruct (PublicPollPage.getWinningOption (Some shown)) as [w|] eqn:E; [|reflexivity].
  cbn [option_map UserDashboard.option']. rewrite (getWinningOption_label shown w E).
  unfold js_index. destruct (PublicPollPage.optionIndex w <? 0) eqn:L.
  - apply Z.ltb_lt in L. symmetry. apply andb_false_intro1. apply Z.eqb_neq. lia.
  - apply Z.ltb_ge in L.
    destruct (nth_error (PollWithStats.options shown) (Z.to_nat (PublicPollPage.optionIndex w)))
      as [winner|] eqn:N.
    + f_equal. destruct (String.eqb_spec winner option) as [->|Hd];
        destruct (Z.eqb_spec (PublicPollPage.optionIndex w) (Z.of_nat index)) as [Hi|Hi];
        try reflexivity; exfalso.
      * apply Hi. rewrite <- Hn in N. apply (proj1 (NoDup_nth_error _) Hnd) in N.
        -- lia.
        -- apply nth_error_Some. rewrite N, Hn. discriminate.
      * apply Hd. rewrite Hi, Nat2Z.id in N. congruence.
    + symmetry. apply andb_false_intro1. apply Z.eqb_neq. intros Hi.
      rewrite Hi, Nat2Z.id in N. congruence.
Qed.

Lemma dashboard_marks_same_winner_witness :
  exists r,
    nth_error (PublicPollPage.results Sample.tied) 1 = Some r
    /\ UserDashboard.isWinning Sample.tied 1 "B" = PublicPollPage.isWinning r.
Proof.
  apply (dashboard_marks_same_winner Sample.tied 1 "B").
  - cbn. constructor; [intros [H|[]]; discriminate H|]. constructor; [intros []|constructor].
  - reflexivity.
Defined.

(** ** A new poll *)

Lemma createPoll_returns_inv (s s' : Supabase) (question : string) (options : list string)
      (p : Poll.t) :
  createPoll s question options = (Returns p, s') ->
  health s = None
  /\ exists user r,
       auth_uid s = Some user /\ p = to_Poll r /\ s' = with_polls s (polls s ++ [r])
       /\ Polls.id r = fresh_uuid (map Polls.id (polls s))
       /\ Polls.user_id r = Some user
       /\ Polls.is_public r = false /\ Polls.share_token r = None.
Proof.
  unfold createPoll. destruct (checkTableExists s); cbn [negb]; [|discriminate].
  destruct (getUser s) as [user|] eqn:Eu; [|discriminate].
  unfold mutate. destruct (health s) as [[e|m]|] eqn:Hh; try discriminate.
  rewrite (getUser_available s Hh) in Eu.
  unfold insert_poll.
  destruct (negb (polls_owner_policy s _)); [discriminate|].
  destruct (negb (polls_options_check _)); [discriminate|].
  destruct (negb (polls_question_check _)); [discriminate|].
  destruct (negb (polls_select_using s _)); [discriminate|].
  intros [= <- <-]. split; [reflexivity|]. exists user. eexists.
  split; [exact Eu|]. repeat split; reflexivity.
Qed.

Lemma filter_fresh_id (l : list Polls.row) (f : Polls.row -> bool) :
  filter (fun p => f p && (Polls.id p =? fresh_uuid (map Polls.id l))%nat) l = [].
Proof.
  apply filter_none. intros p Hp. apply andb_false_intro2. apply Nat.eqb_neq.
  apply fresh_uuid_unused. now apply in_map.
Qed.

(** X27.  The poll that [createPoll] returns is private.  Its owner reads it
    back with [getPollById]; for any other caller, signed in or not,
    [getPollById] returns [null] for its identifier; and every share token
    leads where it led before the poll was created. *)
Theorem createPoll_poll_is_private (s s' : Supabase) (question : string) (options : list string)
        (p : Poll.t) :
  createPoll s question options = (Returns p, s') ->
  getPollById s' (Poll.id p) = Returns (Some p)
  /\ (forall visitor,
        visitor <> auth_uid s ->
        getPollById {| health := health s'; auth_uid := visitor; now := now s';
                       polls := polls s'; votes := votes s' |} (Poll.id p) = Returns None)
  /\ (forall token, getPollByShareToken s' token = getPollByShareToken s token).
Proof.
  intros H. apply createPoll_returns_inv in H.
  destruct H as (Hh & user & r & Hu & -> & -> & Hid & Ho & Hpub & Ht).
  change (Poll.id (to_Poll r)) with (Polls.id r). rewrite Hid.
  split; [|split].
  - unfold getPollById, checkTableExists, query. cbn [health with_polls]. rewrite Hh. cbn [negb].
    unfold select_polls. cbn [polls with_polls]. rewrite filter_app.
    rewrite (filter_fresh_id (polls s)). cbn [filter app].
    rewrite Hid, Nat.eqb_refl.
    replace (polls_select_using _ r) with true; [reflexivity|].
    unfold polls_select_using, is_auth_uid. cbn [auth_uid with_polls].
    now rewrite Ho, Hu, Nat.eqb_refl.
  - intros visitor Hv.
    unfold getPollById, checkTableExists, query. cbn [health with_polls]. rewrite Hh. cbn [negb].
    unfold select_polls. cbn [polls with_polls]. rewrite filter_app.
    rewrite (filter_fresh_id (polls s)). cbn [filter app].
    replace (polls_select_using _ r) with false; [reflexivity|].
    unfold polls_select_using, is_auth_uid. cbn [auth_uid]. rewrite Ho, Hpub. cbn.
    destruct visitor as [u|]; [|reflexivity].
    symmetry. rewrite !orb_false_r. apply Nat.eqb_neq. intros <-. apply Hv. now rewrite Hu.
  - intros token. unfold getPollByShareToken, query. cbn [health with_polls].
    unfold select_polls. cbn [polls with_polls]. rewrite filter_app. cbn [filter].
    rewrite Hpub, !andb_false_r, app_nil_r. reflexivity.
Qed.

Lemma createPoll_poll_is_private_witness :
  getPollById Sample.created 1%nat = Returns (Some (to_Poll
    {| Polls.id := 1%nat; Polls.question := "A or B?"; Polls.options := ["A"; "B"];
       Polls.created_at := 1750001705; Polls.user_id := Some 7%nat;
       Polls.is_public := false; Polls.share_token := None |}))
  /\ getPollById {| health := None; auth_uid := Some 8%nat; now := 1750001705;
                    polls := polls Sample.created; votes := [] |} 1%nat = Returns None.
Proof.
  destruct (createPoll_poll_is_private Sample.empty Sample.created "A or B?" ["A"; "B"]
              (to_Poll {| Polls.id := 1%nat; Polls.question := "A or B?";
                          Polls.options := ["A"; "B"];
                          Polls.created_at := 1750001705; Polls.user_id := Some 7%nat;
                          Polls.is_public := false; Polls.share_token := None |}))
    as (A & B & _).
  - reflexivity.
  - split; [exact A|]. apply (B (Some 8%nat)). discriminate.
Defined.

(** ** Voting again *)

Lemma ballots_in (s : Supabase) (pollId : uuid) (voterSession : string) (w : Votes.row) :
  In w (ballots s pollId voterSession) ->
  exists session,
    varchar 255 voterSession = Some session
    /\ In w (votes s) /\ Votes.poll_id w = pollId /\ Votes.voter_session w = Some session.
Proof.
  unfold ballots. intros H. apply filter_In in H. destruct H as [Hin Hc].
  apply andb_prop in Hc. destruct Hc as [Hp Hs]. apply Nat.eqb_eq in Hp.
  destruct (Votes.voter_session w) as [a|]; [|discriminate].
  destruct (varchar 255 voterSession) as [b|]; [|discriminate].
  apply String.eqb_eq in Hs. subst b. now exists a.
Qed.

(** C1, as stated, fails: one session votes in the shared sample poll, the
    owner stops sharing the poll, and the session votes again.  The second
    call stores nothing, but the policy of [votes] refuses the row before the
    unique index is consulted, and the exception is the generic failure, not
    the already-voted one.  (An option index outside the INTEGER column has
    the same effect on a second call made at once.) *)
Lemma castVote_second_call_counterexample :
  ~ (forall (s s1 : Supabase) (calls : list Call) (pollId : uuid) (i j : Z) (voterSession : string),
        castVote s pollId i voterSession = (Returns tt, s1) ->
        castVote (run s1 calls) pollId j voterSession
        = (Throws "You have already voted on this poll", run s1 calls)).
Proof.
  intros H.
  specialize (H Sample.shared Sample.one_vote [Disable_sharing 1%nat] 1%nat 0 1 "voter_1" eq_refl).
  vm_compute in H. discriminate.
Qed.

(** C1, amended.  When the session already holds a ballot in the poll,
    [castVote] throws, stores no second row and leaves the state as it is, in
    every state and for every option index.  The exception is "You have
    already voted on this poll", made from error code 23505, when the
    database is available, the option index is of the column type, and the
    poll is still public and visible to the caller.  In the state that a
    successful [castVote] leaves, the database is available, the poll is
    public and visible, and the session holds exactly one ballot, the one
    just cast. *)
Theorem castVote_session_holding_ballot
        (s : Supabase) (pollId : uuid) (j : Z) (voterSession : string) :
  ballots s pollId voterSession <> [] ->
  (exists m, castVote s pollId j voterSession = (Throws m, s))
  /\ (health s = None -> is_int4 j = true ->
      (exists p, In p (polls s) /\ Polls.id p = pollId
                 /\ Polls.is_public p = true /\ polls_select_using s p = true) ->
      castVote s pollId j voterSession = (Throws "You have already voted on this poll", s)
      /\ exists e, mutate s (insert_vote s pollId j voterSession) = (Resolved None (Some e), s)
                   /\ code e = "23505")
  /\ (forall s0 i, castVote s0 pollId i voterSession = (Returns tt, s) ->
      health s = None
      /\ (exists p, In p (polls s) /\ Polls.id p = pollId
                    /\ Polls.is_public p = true /\ polls_select_using s p = true)
      /\ exists v, votes s = votes s0 ++ [v]
                   /\ ballots s pollId voterSession = [v]
                   /\ Votes.option_index v = i).
Proof.
  intros Hb.
  assert (W : exists w session,
             varchar 255 voterSession = Some session
             /\ In w (votes s) /\ Votes.poll_id w = pollId /\ Votes.voter_session w = Some session).
  { destruct (ballots s pollId voterSession) as [|w l] eqn:E; [contradiction|].
    destruct (ballots_in s pollId voterSession w) as (session & H); [rewrite E; now left|].
    now exists w, session. }
  destruct W as (w & session & Hv & Hw & Hwp & Hws).
  split; [|split].
  - destruct (castVote_cases s pollId j voterSession) as [T|[s1 R]]; [exact T|]. exfalso.
    destruct (castVote_returns_inv _ _ _ _ _ R)
      as (session' & v & _ & _ & Hv' & Hp & _ & Hs & _ & Hu & _).
    assert (X : existsb (same_ballot v) (votes s) = true).
    { apply existsb_exists. exists w. split; [exact Hw|].
      apply same_ballot_refl with session; congruence. }
    congruence.
  - intros Hh Hj (p & Hin & Hid & Hpub & Hsel).
    assert (D : insert_vote s pollId j voterSession
                = inl (unique_violation "votes_poll_id_voter_session_key")).
    { apply insert_vote_duplicate with session w; auto.
      intros v Hvp. apply (votes_insert_check_public s v p); congruence. }
    split.
    + unfold castVote, mutate. rewrite Hh, D. reflexivity.
    + exists (unique_violation "votes_poll_id_voter_session_key"). split; [|reflexivity].
      unfold mutate. now rewrite Hh, D.
  - intros s0 i R.
    destruct (castVote_returns_inv _ _ _ _ _ R)
      as (session' & v & Hh & _ & Hv' & Hp & Ho & Hs & Hc & Hu & ->).
    split; [exact Hh|]. split.
    + destruct (votes_insert_check_inv s0 v Hc) as (p & Hin & Hid & Hpub & Hsel).
      exists p. repeat split; try assumption. congruence.
    + exists v. split; [reflexivity|]. split; [|exact Ho].
      now apply ballots_unique_after_insert with session'.
Qed.

Lemma castVote_session_holding_ballot_witness :
  castVote Sample.one_vote 1%nat 1 "voter_1"
  = (Throws "You have already voted on this poll", Sample.one_vote).
Proof.
  destruct (castVote_session_holding_ballot Sample.one_vote 1%nat 1 "voter_1") as (_ & A & _).
  - vm_compute. discriminate.
  - apply A; [reflexivity | reflexivity |].
    exists Sample.shared_poll. repeat split. vm_compute. now left.
Defined.

(** C2, amended.  [castVote] does not compare the option index with the
    poll's options.  On an available database, for an option index of the
    column type and a session of at most 255 characters: when no poll has the
    given id, the insert is tried and refused by the row-level security policy
    of [votes] (code 42501), [castVote] throws "Failed to cast vote: "
    followed by the message of that error and stores nothing; when the poll
    is public and visible to the caller and the session holds no ballot in
    it, the vote is stored whatever the option index is. *)
Theorem castVote_inserts_without_validation
        (s : Supabase) (pollId : uuid) (optionIndex : Z) (voterSession : string) :
  health s = None -> is_int4 optionIndex = true -> (String.length voterSession <= 255)%nat ->
  ((forall p, In p (polls s) -> Polls.id p <> pollId) ->
   insert_vote s pollId optionIndex voterSession = inl (insufficient_privilege "votes")
   /\ code (insufficient_privilege "votes") = "42501"
   /\ castVote s pollId optionIndex voterSession
      = (Throws ("Failed to cast vote: " ++ message (insufficient_privilege "votes")), s))
  /\ ((exists p, In p (polls s) /\ Polls.id p = pollId
                 /\ Polls.is_public p = true /\ polls_select_using s p = true) ->
      ballots s pollId voterSession = [] ->
      exists v, castVote s pollId optionIndex voterSession = (Returns tt, with_votes s (votes s ++ [v]))
                /\ Votes.poll_id v = pollId
                /\ Votes.option_index v = optionIndex
                /\ Votes.voter_session v = Some voterSession).
Proof.
  intros Hh Hi Hl. split.
  - intros Hno.
    assert (E : insert_vote s pollId optionIndex voterSession = inl (insufficient_privilege "votes")).
    { unfold insert_vote. rewrite Hi, (varchar_fits _ _ Hl). simpl.
      rewrite votes_insert_check_no_poll; [reflexivity|]. exact Hno. }
    split; [exact E|]. split; [reflexivity|]. unfold castVote, mutate. rewrite Hh, E. reflexivity.
  - intros (p & Hin & Hid & Hpub & Hsel) Hb.
    eexists. unfold castVote, mutate.
    rewrite Hh, (insert_vote_accepted s pollId optionIndex voterSession p) by assumption.
    simpl. repeat split.
Qed.

Lemma castVote_inserts_without_validation_witness :
  castVote Sample.shared 2%nat 0 "voter_1"
  = (Throws ("Failed to cast vote: " ++ message (insufficient_privilege "votes")), Sample.shared)
  /\ exists v, castVote Sample.shared 1%nat 7 "voter_1"
               = (Returns tt, with_votes Sample.shared (votes Sample.shared ++ [v]))
               /\ Votes.option_index v = 7.
Proof.
  split.
  - apply (castVote_inserts_without_validation Sample.shared 2%nat 0 "voter_1");
      [reflexivity | reflexivity | simpl; lia |].
    intros p [<-|[]]. discriminate.
  - destruct (castVote_inserts_without_validation Sample.shared 1%nat 7 "voter_1")
      as [_ H]; [reflexivity | reflexivity | simpl; lia |].
    destruct H as (v & Hv & _ & Ho & _).
    + exists Sample.shared_poll. repeat split. now left.
    + reflexivity.
    + exists v. split; [exact Hv | exact Ho].
Defined.

(** ** Statistics and the votes that are stored *)

(** The select policy of [votes] looks at the poll of a vote only: a caller
    reads all the votes of a poll or none of them. *)
Lemma votes_of_cases (s : Supabase) (poll_uuid : uuid) :
  (votes_of s poll_uuid = []
   /\ forall p, In p (polls s) -> Polls.id p = poll_uuid -> polls_select_using s p = true ->
                Polls.is_public p || is_auth_uid s (Polls.user_id p) = false)
  \/ (votes_of s poll_uuid = filter (fun v => (Votes.poll_id v =? poll_uuid)%nat) (votes s)
      /\ exists p, In p (polls s) /\ Polls.id p = poll_uuid /\ polls_select_using s p = true
                   /\ Polls.is_public p || is_auth_uid s (Polls.user_id p) = true).
Proof.
  destruct (existsb (fun p => polls_select_using s p
                              && (Polls.id p =? poll_uuid)%nat
                              && (Polls.is_public p || is_auth_uid s (Polls.user_id p)))
                    (polls s)) eqn:E.
  - right. apply existsb_exists in E. destruct E as (p & Hin & Hc).
    apply andb_prop in Hc. destruct Hc as [Hc Hvis].
    apply andb_prop in Hc. destruct Hc as [Hsel Hid]. apply Nat.eqb_eq in Hid. subst poll_uuid.
    split; [now apply votes_of_visible_poll | now exists p].
  - left. split.
    + unfold votes_of. apply filter_none. intros v _.
      destruct (Votes.poll_id v =? poll_uuid)%nat eqn:Ev; [|apply andb_false_r].
      apply Nat.eqb_eq in Ev. rewrite andb_true_r. unfold votes_select_using. now rewrite Ev.
    + intros p Hin Hid Hsel.
      destruct (Polls.is_public p || is_auth_uid s (Polls.user_id p)) eqn:Hvis; [|reflexivity].
      assert (X : existsb (fun p => polls_select_using s p
                                    && (Polls.id p =? poll_uuid)%nat
                                    && (Polls.is_public p || is_auth_uid s (Polls.user_id p)))
                          (polls s) = true).
      { apply existsb_exists. exists p. split; [exact Hin|].
        now rewrite Hsel, Hid, Nat.eqb_refl, Hvis. }
      congruence.
Qed.

Lemma votes_of_unreadable (s : Supabase) (poll_uuid : uuid) :
  (forall p, In p (polls s) -> Polls.id p = poll_uuid -> polls_select_using s p = true ->
             Polls.is_public p || is_auth_uid s (Polls.user_id p) = false) ->
  votes_of s poll_uuid = [].
Proof.
  intros H. destruct (votes_of_cases s poll_uuid) as [[E _]|[_ (p & Hin & Hid & Hsel & Hvis)]];
    [exact E|].
  rewrite (H p Hin Hid Hsel) in Hvis. discriminate.
Qed.

Lemma votes_of_readable (s : Supabase) (poll_uuid : uuid) :
  (exists p, In p (polls s) /\ Polls.id p = poll_uuid /\ polls_select_using s p = true
             /\ Polls.is_public p || is_auth_uid s (Polls.user_id p) = true) ->
  votes_of s poll_uuid = filter (fun v => (Votes.poll_id v =? poll_uuid)%nat) (votes s).
Proof.
  intros (p & Hin & <- & Hsel & Hvis). now apply votes_of_visible_poll.
Qed.

(** With a row in the statistics, the votes of the poll are read in full. *)
Lemma votes_of_with_entry (s : Supabase) (poll_uuid : uuid) (e : PollStatistics.t) :
  In e (get_poll_statistics s poll_uuid) ->
  votes_of s poll_uuid = filter (fun v => (Votes.poll_id v =? poll_uuid)%nat) (votes s).
Proof.
  intros He. destruct (votes_of_cases s poll_uuid) as [[E _]|[E _]]; [|exact E].
  rewrite (get_poll_statistics_no_votes s poll_uuid E) in He. contradiction.
Qed.

(** The rows of [get_poll_statistics], in terms of the votes that are read. *)
Lemma get_poll_statistics_entry (s : Supabase) (poll_uuid : uuid) (e : PollStatistics.t) :
  In e (get_poll_statistics s poll_uuid) ->
  let chosen := map Votes.option_index (votes_of s poll_uuid) in
  let total := Z.of_nat (List.length (votes_of s poll_uuid)) in
  In (PollStatistics.option_index e) chosen
  /\ PollStatistics.vote_count e
     = Z.of_nat (count_occ Z.eq_dec chosen (PollStatistics.option_index e))
  /\ 0 < PollStatistics.vote_count e <= total
  /\ PollStatistics.percentage e
     = ROUND (inject_Z (PollStatistics.vote_count e) / inject_Z total * 100) 2.
Proof.
  intros He chosen total.
  pose proof (get_poll_statistics_perm s poll_uuid) as P. cbv zeta in P.
  rewrite total_votes_is_get_poll_total_votes in P. unfold get_poll_total_votes in P.
  fold total chosen in P.
  apply (Permutation_in _ P) in He. apply in_map_iff in He.
  destruct He as (k & <- & Hk).
  cbn [PollStatistics.vote_count PollStatistics.option_index PollStatistics.percentage].
  apply nodup_In in Hk. split; [exact Hk|].
  pose proof (proj1 (count_occ_In Z.eq_dec chosen k) Hk) as Hpos.
  pose proof (count_occ_bound Z.eq_dec k chosen) as Hle.
  assert (T : total = Z.of_nat (List.length chosen)) by (unfold total, chosen; now rewrite length_map).
  assert (Ht : 0 < total) by lia.
  rewrite (proj2 (Z.ltb_lt 0 total) Ht).
  split; [reflexivity|]. split; [lia | reflexivity].
Qed.

Lemma round_half_away_nonneg (num : Z) (d : positive) :
  0 <= num ->
  2 * Z.pos d * round_half_away (num # d) - Z.pos d <= 2 * num
  /\ 2 * num < 2 * Z.pos d * round_half_away (num # d) + Z.pos d.
Proof.
  intros Hn. unfold round_half_away. cbn [Qnum Qden].
  set (q := (2 * Z.abs num + Z.pos d) / (2 * Z.pos d)).
  assert (H1 : 2 * Z.pos d * q <= 2 * Z.abs num + Z.pos d) by (apply Z.mul_div_le; lia).
  assert (H2 : 2 * Z.abs num + Z.pos d < 2 * Z.pos d * (q + 1)).
  { unfold q. rewrite Z.mul_add_distr_l, Z.mul_1_r.
    pose proof (Z.mod_pos_bound (2 * Z.abs num + Z.pos d) (2 * Z.pos d)).
    pose proof (Z.div_mod (2 * Z.abs num + Z.pos d) (2 * Z.pos d)). lia. }
  clearbody q.
  destruct num as [|n|n]; cbn [Z.sgn Z.abs] in *; [split; lia | split; lia | lia].
Qed.

(** [ROUND(count / total * 100, 2)], said without [ROUND]: the percentage is
    [n / 100] for the integer [n] that is nearest to [10000 * count / total],
    the upper one of two that are equally near. *)
Lemma ROUND_percentage (count total : Z) :
  0 <= count -> 0 < total ->
  exists n, ROUND (inject_Z count / inject_Z total * 100) 2 = n # 100
            /\ 2 * total * n - total <= 20000 * count
            /\ 20000 * count < 2 * total * n + total.
Proof.
  intros Hc Ht. destruct total as [|T|T]; try lia.
  eexists. split; [reflexivity|].
  unfold Qdiv, Qmult, Qinv, inject_Z. cbn [Qnum Qden].
  change (Z.to_pos (10 ^ Z.of_nat 2)) with 100%positive.
  match goal with
  | |- context [round_half_away (?a # ?b)] =>
      pose proof (round_half_away_nonneg a b) as R;
      set (n := round_half_away (a # b)) in *; clearbody n
  end.
  lia.
Qed.

Lemma percentages_sum (s : Supabase) (poll_uuid : uuid) :
  get_poll_statistics s poll_uuid <> [] ->
  (Qabs (Qsum (map PollStatistics.percentage (get_poll_statistics s poll_uuid)) - 100)
   <= inject_Z (Z.of_nat (List.length (get_poll_statistics s poll_uuid))) * (1 # 200))%Q.
Proof.
  intros Hne.
  assert (Hpos : 0 < get_poll_total_votes s poll_uuid).
  { unfold get_poll_total_votes. destruct (votes_of s poll_uuid) as [|v l] eqn:E.
    - elim Hne. now apply get_poll_statistics_no_votes.
    - cbn [List.length]. lia. }
  set (total := get_poll_total_votes s poll_uuid) in *.
  set (chosen := map Votes.option_index (votes_of s poll_uuid)).
  assert (T : total = Z.of_nat (List.length chosen)).
  { unfold total, get_poll_total_votes, chosen. now rewrite length_map. }
  pose proof (get_poll_statistics_perm s poll_uuid) as P. cbv zeta in P.
  rewrite total_votes_is_get_poll_total_votes in P. fold total chosen in P.
  rewrite (proj2 (Z.ltb_lt 0 total) Hpos) in P.
  rewrite (Qsum_perm _ _ (Permutation_map PollStatistics.percentage P)).
  rewrite (Permutation_length P), map_map, length_map.
  cbn [PollStatistics.percentage].
  set (cnt := fun k => Z.of_nat (count_occ Z.eq_dec chosen k)).
  set (x := fun k => (inject_Z (cnt k) / inject_Z total * 100)%Q).
  assert (E : (Qsum (map x (nodup Z.eq_dec chosen)) == 100)%Q).
  { unfold x.
    rewrite <- (map_map cnt (fun c => (inject_Z c / inject_Z total * 100)%Q)).
    rewrite (Qsum_shares _ total Hpos). unfold cnt. rewrite sum_count_occ_nodup, <- T.
    field. unfold Qeq, inject_Z; simpl; lia. }
  rewrite <- E. apply (Qsum_close (fun k => ROUND (x k) 2) x).
  intros k _. apply (ROUND_spec _ 2).
Qed.

(** Where the votes of a poll are read and there is one, there is a row. *)
Lemma get_poll_statistics_some (s : Supabase) (poll_uuid : uuid) (v : Votes.row) :
  In v (votes_of s poll_uuid) ->
  In (Votes.option_index v) (map PollStatistics.option_index (get_poll_statistics s poll_uuid)).
Proof.
  intros Hv.
  apply (Permutation_in _ (Permutation_sym (get_poll_statistics_indexes s poll_uuid))).
  apply nodup_In. now apply in_map.
Qed.

(** C3, as stated, fails: the sample poll holds one vote and is no longer
    shared; for a visitor who is not its owner the function returns no row,
    and the percentages add up to 0. *)
Lemma get_poll_statistics_sum_counterexample :
  ~ (forall (s : Supabase) (poll_uuid : uuid),
        0 < Z.of_nat (List.length (filter (fun v => (Votes.poll_id v =? poll_uuid)%nat) (votes s))) ->
        (Qabs (Qsum (map PollStatistics.percentage (get_poll_statistics s poll_uuid)) - 100)
         <= inject_Z (Z.of_nat (List.length (get_poll_statistics s poll_uuid))) * (1 # 200))%Q).
Proof.
  intros H.
  specialize (H (run Sample.one_vote [Disable_sharing 1%nat; Sign_out]) 1%nat).
  vm_compute in H. apply H; reflexivity.
Qed.

(** C3, amended.  In every row of [get_poll_statistics] the count is the
    number of the stored votes of the poll for that option index, and the
    percentage is the share of the count in the number of the stored votes of
    the poll, times 100 and rounded to two decimals: it is [n / 100] for the
    integer [n] nearest to [10000 * count / total], the upper one of two that
    are equally near, hence within 0.005 of the exact share.  When there are
    rows, the percentages add up to 100 within 0.005 per row; there are rows
    when the poll has a vote and the caller may read the votes of the poll
    (the poll is visible to the caller, and public or the caller's own), and
    there is no row for a caller who may not. *)
Theorem get_poll_statistics_percentages (s : Supabase) (poll_uuid : uuid) :
  let poll_votes := filter (fun v => (Votes.poll_id v =? poll_uuid)%nat) (votes s) in
  let total := Z.of_nat (List.length poll_votes) in
  let stats := get_poll_statistics s poll_uuid in
  (forall e, In e stats ->
     let count := Z.of_nat (count_occ Z.eq_dec (map Votes.option_index poll_votes)
                                      (PollStatistics.option_index e)) in
     PollStatistics.vote_count e = count
     /\ 0 < count <= total
     /\ (exists n, PollStatistics.percentage e = n # 100
                   /\ 2 * total * n - total <= 20000 * count
                   /\ 20000 * count < 2 * total * n + total)
     /\ (Qabs (PollStatistics.percentage e - inject_Z count / inject_Z total * 100) <= 1 # 200)%Q)
  /\ (stats <> [] ->
      (Qabs (Qsum (map PollStatistics.percentage stats) - 100)
       <= inject_Z (Z.of_nat (List.length stats)) * (1 # 200))%Q)
  /\ ((exists p, In p (polls s) /\ Polls.id p = poll_uuid /\ polls_select_using s p = true
                 /\ Polls.is_public p || is_auth_uid s (Polls.user_id p) = true) ->
      0 < total -> stats <> [])
  /\ ((forall p, In p (polls s) -> Polls.id p = poll_uuid -> polls_select_using s p = true ->
                 Polls.is_public p || is_auth_uid s (Polls.user_id p) = false) ->
      stats = []).
Proof.
  intros poll_votes total stats. split; [|split; [|split]].
  - intros e He count.
    destruct (get_poll_statistics_entry s poll_uuid e He) as (_ & Hc & Hb & Hp).
    rewrite (votes_of_with_entry s poll_uuid e He) in Hc, Hb, Hp.
    fold poll_votes in Hc, Hb, Hp. fold total in Hb, Hp. fold count in Hc.
    rewrite Hc in Hb, Hp. split; [exact Hc|]. split; [exact Hb|]. split.
    + rewrite Hp. apply ROUND_percentage; lia.
    + rewrite Hp. apply (ROUND_spec _ 2).
  - apply percentages_sum.
  - intros R Ht Hs. pose proof (votes_of_readable s poll_uuid R) as E. fold poll_votes in E.
    destruct poll_votes as [|v l] eqn:Ev; [unfold total in Ht; cbn in Ht; lia|].
    assert (Hv : In v (votes_of s poll_uuid)) by (rewrite E; now left).
    apply get_poll_statistics_some in Hv. fold stats in Hv. rewrite Hs in Hv. exact Hv.
  - intros U. apply get_poll_statistics_no_votes. now apply votes_of_unreadable.
Qed.

Lemma get_poll_statistics_percentages_witness :
  exists e,
    In e (get_poll_statistics
            (run Sample.shared [Cast_vote 1%nat 0 "voter_1"; Cast_vote 1%nat 0 "voter_2";
                                Cast_vote 1%nat 1 "voter_3"]) 1%nat)
    /\ PollStatistics.option_index e = 1
    /\ PollStatistics.percentage e = 3333 # 100.
Proof.
  exists {| PollStatistics.option_index := 1; PollStatistics.vote_count := 1;
            PollStatistics.percentage := 3333 # 100 |}.
  assert (He : In {| PollStatistics.option_index := 1; PollStatistics.vote_count := 1;
                     PollStatistics.percentage := 3333 # 100 |}
                  (get_poll_statistics
                     (run Sample.shared [Cast_vote 1%nat 0 "voter_1"; Cast_vote 1%nat 0 "voter_2";
                                         Cast_vote 1%nat 1 "voter_3"]) 1%nat))
    by (vm_compute; right; left; reflexivity).
  split; [exact He|]. split; [reflexivity|].
  destruct (proj1 (get_poll_statistics_percentages _ 1%nat) _ He) as (_ & _ & (n & Hn & Hlo & Hhi) & _).
  match type of Hlo with
  | 2 * ?t * n - ?t <= 20000 * ?c =>
      assert (Et : t = 3) by (vm_compute; reflexivity);
      assert (Ec : c = 1) by (vm_compute; reflexivity);
      rewrite Et, Ec in Hlo, Hhi
  end.
  rewrite Hn. f_equal. lia.
Defined.

(** C4, amended.  [get_poll_statistics] returns its rows in strictly ascending
    order of option index.  Every row counts the stored votes of the poll for
    its option index, and at least one: an option without votes has no row.
    When the caller may read the votes of the poll (the poll is visible to the
    caller, and public or the caller's own), there is a row for exactly the
    option indexes that have a vote of the poll; for a caller who may not,
    the result is empty, whatever votes are stored.  When the poll has no
    votes the result is empty. *)
Theorem get_poll_statistics_rows (s : Supabase) (poll_uuid : uuid) :
  let poll_votes := filter (fun v => (Votes.poll_id v =? poll_uuid)%nat) (votes s) in
  let stats := get_poll_statistics s poll_uuid in
  StronglySorted (fun a b => PollStatistics.option_index a < PollStatistics.option_index b) stats
  /\ (forall e, In e stats ->
        PollStatistics.vote_count e
        = Z.of_nat (count_occ Z.eq_dec (map Votes.option_index poll_votes)
                              (PollStatistics.option_index e))
        /\ 1 <= PollStatistics.vote_count e)
  /\ ((exists p, In p (polls s) /\ Polls.id p = poll_uuid /\ polls_select_using s p = true
                 /\ Polls.is_public p || is_auth_uid s (Polls.user_id p) = true) ->
      forall k, In k (map PollStatistics.option_index stats)
                <-> exists v, In v (votes s) /\ Votes.poll_id v = poll_uuid
                              /\ Votes.option_index v = k)
  /\ ((forall p, In p (polls s) -> Polls.id p = poll_uuid -> polls_select_using s p = true ->
                 Polls.is_public p || is_auth_uid s (Polls.user_id p) = false) ->
      stats = [])
  /\ (poll_votes = [] -> stats = []).
Proof.
  intros poll_votes stats.
  split; [apply get_poll_statistics_sorted|]. split; [|split; [|split]].
  - intros e He.
    destruct (get_poll_statistics_entry s poll_uuid e He) as (_ & Hc & Hb & _).
    rewrite (votes_of_with_entry s poll_uuid e He) in Hc. split; [exact Hc | lia].
  - intros R k. pose proof (votes_of_readable s poll_uuid R) as E. split.
    + intros Hk. apply (Permutation_in _ (get_poll_statistics_indexes s poll_uuid)) in Hk.
      apply nodup_In, in_map_iff in Hk. destruct Hk as (v & Hv & Hin).
      rewrite E in Hin. apply filter_In in Hin. destruct Hin as [Hin Hp].
      apply Nat.eqb_eq in Hp. now exists v.
    + intros (v & Hin & Hp & <-). apply get_poll_statistics_some.
      rewrite E. apply filter_In. split; [exact Hin | now apply Nat.eqb_eq].
  - intros U. apply get_poll_statistics_no_votes. now apply votes_of_unreadable.
  - intros Hn. apply get_poll_statistics_no_votes.
    destruct (votes_of_cases s poll_uuid) as [[E _]|[E _]]; [exact E|].
    rewrite E. exact Hn.
Qed.

Lemma get_poll_statistics_rows_witness :
  In 0 (map PollStatistics.option_index (get_poll_statistics Sample.one_vote 1%nat))
  /\ get_poll_statistics (run Sample.one_vote [Disable_sharing 1%nat; Sign_out]) 1%nat = [].
Proof.
  split.
  - destruct (get_poll_statistics_rows Sample.one_vote 1%nat) as (_ & _ & A & _).
    apply A.
    + exists Sample.shared_poll. repeat split. vm_compute. now left.
    + exists (new_vote Sample.shared 1%nat 0 "voter_1"). repeat split. vm_compute. now left.
  - destruct (get_poll_statistics_rows (run Sample.one_vote [Disable_sharing 1%nat; Sign_out])
                                       1%nat) as (_ & _ & _ & B & _).
    apply B. intros p Hp _ _. vm_compute in Hp. destruct Hp as [<-|[]]. reflexivity.
Defined.
